(** * TOAST compression codecs: a shallow embedding of toast_compression.c

    The development follows src/backend/access/common/toast_compression.c
    function by function.  Memory is a list of bytes, a pointer is the list of
    bytes from the pointed address onwards, C integers are [Z] with their
    wrap-around written out, and [ereport(ERROR, ...)] is an error result.
    The compression libraries (pglz, LZ4, Zstandard) are interfaces whose
    functions the wrappers call; their behaviour is only ever assumed where a
    statement says so. *)

From Stdlib Require Import String Ascii.
From Stdlib Require Import Strings.Byte.
From Stdlib Require Import DecimalString.
From Stdlib Require Import ZArith List Bool Lia.
Import ListNotations.

Local Open Scope Z_scope.
Local Open Scope list_scope.

(** ** Machine integers *)

Module CInt.

Definition uint32 (x : Z) : Z := x mod 2^32.
Definition size_t (x : Z) : Z := x mod 2^64.
Definition int32 (x : Z) : Z := (x + 2^31) mod 2^32 - 2^31.

Definition INT_MAX : Z := 2147483647.

End CInt.
Import CInt.

(** ** Bytes and memory *)

Module Mem.

Definition u8 (b : byte) : Z := Z.of_N (Byte.to_N b).

Definition byte_of (z : Z) : byte :=
  match Byte.of_N (Z.to_N (z mod 256)) with
  | Some b => b
  | None => x00
  end.

(** A pointer into an allocation: the bytes from the address onwards. *)
Definition ptr := list byte.

Definition ptr_add (p : ptr) (off : Z) : ptr := skipn (Z.to_nat off) p.

(** The [n] bytes a callee reads from [p]. *)
Definition mem_read (p : ptr) (n : Z) : list byte := firstn (Z.to_nat n) p.

(** The buffer [p] after a callee has written [data] at offset [off].  A
    write that runs past the allocation is undefined in C; here the list
    grows, and no statement below depends on it. *)
Definition mem_write (p : ptr) (off : Z) (data : list byte) : ptr :=
  firstn (Z.to_nat off) p ++ data
    ++ skipn (Z.to_nat off + length data) p.

(** A load past the allocation, undefined in C, reads zero. *)
Definition load_u8 (p : ptr) (off : Z) : Z := u8 (nth (Z.to_nat off) p x00).

(** Little-endian 32-bit loads and stores (the layout the header macros of
    varatt.h use when WORDS_BIGENDIAN is not defined). *)
Definition load_u32 (p : ptr) (off : Z) : Z :=
  load_u8 p off + 256 * load_u8 p (off + 1)
  + 65536 * load_u8 p (off + 2) + 16777216 * load_u8 p (off + 3).

Definition bytes_of_u32 (v : Z) : list byte :=
  [byte_of v; byte_of (v / 256); byte_of (v / 65536); byte_of (v / 16777216)].

Definition store_u32 (p : ptr) (off : Z) (v : Z) : ptr :=
  mem_write p off (bytes_of_u32 v).

End Mem.
Import Mem.

(** ** Errors, the allocator and the trace of a call

    [ereport(ERROR, ...)] and [elog(ERROR, ...)] leave the function by a
    non-local exit: a computation either returns or raises.  Every
    computation also logs the allocator and library calls it makes, so that
    "no allocation happens" is a statement about the log. *)

Module Elog.

Inductive sqlstate :=
| ERRCODE_FEATURE_NOT_SUPPORTED
| ERRCODE_DATA_CORRUPTED
| ERRCODE_INTERNAL_ERROR.

Record ErrorData := mkErrorData {
  sqlerrcode : sqlstate;
  message : string;
  detail : option string
}.

Inductive event :=
| EvPalloc (size : Z)
| EvPfree
| EvCall (fn : string).

Inductive outcome (A : Type) :=
| Return (a : A)
| Raise (e : ErrorData).
Arguments Return {A} a.
Arguments Raise {A} e.

Definition M (A : Type) : Type := (list event * outcome A)%type.

Definition ret {A} (a : A) : M A := ([], Return a).

Definition bind {A B} (m : M A) (k : A -> M B) : M B :=
  match m with
  | (t, Return a) => let (t', r) := k a in (t ++ t', r)
  | (t, Raise e) => (t, Raise e)
  end.

Definition emit (e : event) : M unit := ([e], Return tt).

Definition ereport {A} (code : sqlstate) (msg : string)
    (det : option string) : M A :=
  ([], Raise (mkErrorData code msg det)).

(** [elog(ERROR, msg)]: an internal error, no detail. *)
Definition elog {A} (msg : string) : M A :=
  ereport ERRCODE_INTERNAL_ERROR msg None.

(** What a [%c] conversion at the end of a format contributes to the
    message.  The message is a C string: the NUL character ends it, and so
    adds nothing. *)
Definition format_char (c : ascii) : string :=
  if Ascii.eqb c zero then EmptyString else String c EmptyString.

Definition trace {A} (m : M A) : list event := fst m.
Definition result {A} (m : M A) : outcome A := snd m.

Definition returns {A} (m : M A) (a : A) : Prop := result m = Return a.
Definition raises {A} (m : M A) (e : ErrorData) : Prop := result m = Raise e.

(** Modelled from the spec: the largest request the allocator (mcxt.c,
    missing) grants, one byte short of 1 GB. *)
Definition MaxAllocSize : Z := 0x3fffffff.

(** A fresh allocation of [size] bytes.  Its contents are indeterminate:
    here the bytes [junk 0], [junk 1], ... of an arbitrary function. *)
Definition fresh (junk : nat -> byte) (size : Z) : ptr :=
  map junk (seq 0 (Z.to_nat size)).

(** Modelled from the spec: the allocator (mcxt.c, missing) is an external
    collaborator (spec section 1).  [palloc] takes a [Size]; it refuses a
    request above [MaxAllocSize] with an internal error and otherwise hands
    out a fresh allocation. *)
Definition palloc (junk : nat -> byte) (size : Z) : M ptr :=
  if size_t size <=? MaxAllocSize
  then ([EvPalloc (size_t size)], Return (fresh junk (size_t size)))
  else elog "invalid memory alloc request size".

Definition pfree (p : ptr) : M unit := emit EvPfree.

(** A call of a library's compressor or decompressor: logged by name, then
    its value.  The size and version queries of the libraries
    ([LZ4_compressBound], [LZ4_versionNumber], [ZSTD_compressBound],
    [ZSTD_isError], [ZSTD_getErrorName]) touch no memory and are not
    logged. *)
Definition call {A} (fn : string) (v : A) : M A := ([EvCall fn], Return v).

End Elog.
Import Elog.

Declare Scope cmd_scope.
Delimit Scope cmd_scope with cmd.
Notation "x <- m ;; k" := (bind m (fun x => k))
  (at level 61, m at next level, right associativity) : cmd_scope.
Notation "' pat <- m ;; k" := (bind m (fun x => match x with pat => k end))
  (at level 61, pat pattern, m at next level, right associativity) : cmd_scope.
Notation "m ;;; k" := (bind m (fun _ => k))
  (at level 61, right associativity) : cmd_scope.


(** ** The varlena header macros (varatt.h)

    varatt.h and toast_internals.h are not among the sources, only the
    functions that use their macros are.  The macros are modelled as the
    little-endian ones: a 4-byte header keeps the total size in the upper 30
    bits and the kind of datum in the two low bits of the first byte; a
    compressed datum has a second word, [va_tcinfo], with the raw size in
    its low 30 bits and the method selector in the two high bits (spec
    section 3, "Standard header"); an external datum is a one-byte header
    [0x01], a tag byte and the pointer structure. *)

Module Varatt.

Definition varlena := ptr.

(** Modelled from the spec: the header sizes of varatt.h (missing): the
    4-byte length word, the length word plus [va_tcinfo], the header and tag
    byte of an external datum, the short header. *)
Definition VARHDRSZ : Z := 4.
Definition VARHDRSZ_COMPRESSED : Z := 8.
Definition VARHDRSZ_EXTERNAL : Z := 2.
Definition VARHDRSZ_SHORT : Z := 1.

(** Modelled from the spec: the split of [va_tcinfo] and [va_extinfo]
    (varatt.h, missing): 30 bits of size, 2 bits of method (spec section 3,
    "two high bits ... repurposed as a 2-bit method selector"). *)
Definition VARLENA_EXTSIZE_BITS : Z := 30.
Definition VARLENA_EXTSIZE_MASK : Z := Z.shiftl 1 VARLENA_EXTSIZE_BITS - 1.

(** Modelled from the spec: the tag of an on-disk external pointer
    (varatt.h, missing). *)
Definition VARTAG_ONDISK : Z := 18.

(** Modelled from the spec: the fields the macros of varatt.h (missing)
    read through the views of the header union: [varattrib_1b.va_header],
    [varattrib_4b.va_4byte.va_header],
    [varattrib_4b.va_compressed.va_tcinfo] and [varattrib_1b_e.va_tag]. *)
Definition va_header_1b (p : varlena) : Z := load_u8 p 0.
Definition va_header_4b (p : varlena) : Z := load_u32 p 0.
Definition va_tcinfo (p : varlena) : Z := load_u32 p 4.
Definition va_tag (p : varlena) : Z := load_u8 p 1.

(** Modelled from the spec: the kind tests of varatt.h (missing) on the
    first header byte. *)
Definition VARATT_IS_4B_U (p : varlena) : bool :=
  Z.land (va_header_1b p) 0x03 =? 0x00.
Definition VARATT_IS_4B_C (p : varlena) : bool :=
  Z.land (va_header_1b p) 0x03 =? 0x02.
Definition VARATT_IS_1B (p : varlena) : bool :=
  Z.land (va_header_1b p) 0x01 =? 0x01.
Definition VARATT_IS_1B_E (p : varlena) : bool :=
  va_header_1b p =? 0x01.

(** Modelled from the spec: the size readers and writers of varatt.h
    (missing); the writers cast the length to uint32 and shift it past the
    two kind bits. *)
Definition VARSIZE_4B (p : varlena) : Z :=
  Z.land (Z.shiftr (va_header_4b p) 2) 0x3FFFFFFF.
Definition VARSIZE_1B (p : varlena) : Z :=
  Z.land (Z.shiftr (va_header_1b p) 1) 0x7F.
Definition VARTAG_1B_E (p : varlena) : Z := va_tag p.

Definition SET_VARSIZE_4B (p : varlena) (len : Z) : varlena :=
  store_u32 p 0 (uint32 (Z.shiftl (uint32 len) 2)).
Definition SET_VARSIZE_4B_C (p : varlena) (len : Z) : varlena :=
  store_u32 p 0 (Z.lor (uint32 (Z.shiftl (uint32 len) 2)) 0x02).

(** Modelled from the spec: where the payload starts under each header
    (varatt.h, missing). *)
Definition VARDATA_4B (p : varlena) : ptr := ptr_add p 4.
Definition VARDATA_4B_C (p : varlena) : ptr := ptr_add p VARHDRSZ_COMPRESSED.
Definition VARDATA_1B (p : varlena) : ptr := ptr_add p 1.
Definition VARDATA_1B_E (p : varlena) : ptr := ptr_add p 2.

(** Modelled from the spec: the public names of varatt.h (missing) for the
    macros above. *)
Definition VARSIZE := VARSIZE_4B.
Definition VARDATA := VARDATA_4B.
Definition SET_VARSIZE := SET_VARSIZE_4B.
Definition SET_VARSIZE_COMPRESSED := SET_VARSIZE_4B_C.

Definition VARATT_IS_COMPRESSED := VARATT_IS_4B_C.
Definition VARATT_IS_EXTERNAL := VARATT_IS_1B_E.
Definition VARTAG_EXTERNAL := VARTAG_1B_E.
Definition VARDATA_EXTERNAL := VARDATA_1B_E.

(** Modelled from the spec: an external datum with the on-disk tag
    (varatt.h, missing). *)
Definition VARATT_IS_EXTERNAL_ONDISK (p : varlena) : bool :=
  VARATT_IS_EXTERNAL p && (VARTAG_EXTERNAL p =? VARTAG_ONDISK).

(** Modelled from the spec: the payload of a datum under either inline
    header (varatt.h, missing). *)
Definition VARDATA_ANY (p : varlena) : ptr :=
  if VARATT_IS_1B p then VARDATA_1B p else VARDATA_4B p.

(** Modelled from the spec: the readers of [va_tcinfo] (varatt.h,
    missing). *)
Definition VARDATA_COMPRESSED_GET_EXTSIZE (p : varlena) : Z :=
  Z.land (va_tcinfo p) VARLENA_EXTSIZE_MASK.
Definition VARDATA_COMPRESSED_GET_COMPRESS_METHOD (p : varlena) : Z :=
  Z.shiftr (va_tcinfo p) VARLENA_EXTSIZE_BITS.

(** Modelled from the spec: toast_internals.h (missing): what the caller
    of a compress routine does to the value it got back, recording the raw
    size and the method in [va_tcinfo]. *)
Definition TOAST_COMPRESS_SET_SIZE_AND_COMPRESS_METHOD
    (p : varlena) (len : Z) (cm_method : Z) : varlena :=
  store_u32 p 4 (Z.lor (uint32 len)
                       (uint32 (Z.shiftl (uint32 cm_method)
                                         VARLENA_EXTSIZE_BITS))).

(** Modelled from the spec: the external TOAST pointer, [struct
    varatt_external] of varatt.h (missing; spec section 6, "Standard
    external pointer"). *)
Record varatt_external := mk_varatt_external {
  va_rawsize : Z;      (* int32 *)
  va_extinfo : Z;      (* uint32 *)
  va_valueid : Z;      (* Oid *)
  va_toastrelid : Z    (* Oid *)
}.

(** Modelled from the spec: [VARATT_EXTERNAL_GET_POINTER] (varatt.h,
    missing), a memcpy out of the datum's payload. *)
Definition VARATT_EXTERNAL_GET_POINTER (attr : varlena) : varatt_external :=
  let d := VARDATA_EXTERNAL attr in
  mk_varatt_external (int32 (load_u32 d 0)) (load_u32 d 4)
                     (load_u32 d 8) (load_u32 d 12).

(** Modelled from the spec: the readers of the pointer's [va_extinfo]
    (varatt.h, missing; spec section 3, "low bits flag is compressed and
    carry the method id in remaining bits"). *)
Definition VARATT_EXTERNAL_GET_EXTSIZE (tp : varatt_external) : Z :=
  Z.land (va_extinfo tp) VARLENA_EXTSIZE_MASK.
Definition VARATT_EXTERNAL_GET_COMPRESS_METHOD (tp : varatt_external) : Z :=
  Z.shiftr (va_extinfo tp) VARLENA_EXTSIZE_BITS.
(** Modelled from the spec: the compressed flag of an external pointer
    (varatt.h, missing): the stored size is smaller than the raw size.  The
    comparison is between a uint32 and an int32, hence unsigned. *)
Definition VARATT_EXTERNAL_IS_COMPRESSED (tp : varatt_external) : bool :=
  VARATT_EXTERNAL_GET_EXTSIZE tp <? uint32 (va_rawsize tp - VARHDRSZ).

Section Tags.

(** The size of the structure that follows each tag byte, and the tag of an
    external Zstandard datum: both live in the missing header. *)
Variable VARTAG_SIZE : Z -> Z.
Variable VARTAG_ONDISK_ZSTD : Z.

(** Modelled from the spec: the sizes of varatt.h (missing) that go
    through the tag. *)
Definition VARSIZE_EXTERNAL (p : varlena) : Z :=
  VARHDRSZ_EXTERNAL + VARTAG_SIZE (VARTAG_EXTERNAL p).

Definition VARSIZE_ANY_EXHDR (p : varlena) : Z :=
  if VARATT_IS_1B_E p then VARSIZE_EXTERNAL p - VARHDRSZ_EXTERNAL
  else if VARATT_IS_1B p then VARSIZE_1B p - VARHDRSZ_SHORT
  else VARSIZE_4B p - VARHDRSZ.

(** Modelled from the spec: the discriminant of the Zstandard external
    datum (varatt.h, missing; spec section 3, "a different tag value for
    the pointer's own on-disk discriminant"). *)
Definition VARATT_IS_EXTERNAL_ONDISK_ZSTD (p : varlena) : bool :=
  VARATT_IS_EXTERNAL p && (VARTAG_EXTERNAL p =? VARTAG_ONDISK_ZSTD).

(** The bytes a datum carries after its header, whatever the header. *)
Definition datum_of (p : varlena) : list byte :=
  mem_read (VARDATA_ANY p) (VARSIZE_ANY_EXHDR p).

(** [p] is a datum whose payload is exactly [B]. *)
Definition holds (p : varlena) (B : list byte) : Prop :=
  VARSIZE_ANY_EXHDR p = Z.of_nat (length B) /\ datum_of p = B.

End Tags.

(** A plain 4-byte-header datum built around a payload. *)
Definition make_varlena (B : list byte) : varlena :=
  bytes_of_u32 (uint32 (Z.shiftl (uint32 (Z.of_nat (length B) + VARHDRSZ)) 2))
    ++ B.

End Varatt.
Import Varatt.


(** ** The routines of toast_compression.c *)

(** [NO_COMPRESSION_SUPPORT(method)] *)
Definition NO_COMPRESSION_SUPPORT {A} (method : string) : M A :=
  ereport ERRCODE_FEATURE_NOT_SUPPORTED
    ("compression method " ++ method ++ " not supported")%string
    (Some ("This functionality requires the server to be built with "
             ++ method ++ " support.")%string).

(** *** pglz *)

Module Pglz.

(** Modelled from the spec: common/pg_lzcompress.h is not among the sources.
    The strategy record carries the "configured byte-length window" of spec
    section 4.2 in its first two fields; [PGLZ_strategy_default] is a value
    of this type. *)
Record PGLZ_Strategy := mk_PGLZ_Strategy {
  min_input_size : Z;
  max_input_size : Z;
  min_comp_rate : Z;
  first_success_by : Z;
  match_size_good : Z;
  match_size_drop : Z
}.

(** The functions of pg_lzcompress.c (missing) the wrappers call, taken as
    parameters.  A source buffer is passed as the bytes the callee may
    read; a call yields the C return value and the bytes it stored at the
    destination. *)
Record pglz_library := mk_pglz_library {
  PGLZ_strategy_default : PGLZ_Strategy;
  pglz_compress : list byte -> Z * list byte;
  pglz_decompress : list byte -> Z -> bool -> Z * list byte
}.

(** Modelled from the spec: the worst-case output size of
    pg_lzcompress.h (missing): "a worst-case-bounded output buffer sized by
    the algorithm's bound function" (spec section 4.2). *)
Definition PGLZ_MAX_OUTPUT (dlen : Z) : Z := dlen + 4.

Section Routines.

Variable VARTAG_SIZE : Z -> Z.
Variable junk : nat -> byte.
Variable lib : pglz_library.

Local Open Scope cmd_scope.

Definition pglz_compress_datum (value : varlena) : M (option varlena) :=
  let valsize := int32 (VARSIZE_ANY_EXHDR VARTAG_SIZE value) in
  if (valsize <? min_input_size (PGLZ_strategy_default lib))
     || (valsize >? max_input_size (PGLZ_strategy_default lib))
  then ret None
  else
    tmp <- palloc junk (int32 (PGLZ_MAX_OUTPUT valsize) + VARHDRSZ_COMPRESSED) ;;
    '(len, out) <- call "pglz_compress"
                     (pglz_compress lib (mem_read (VARDATA_ANY value) valsize)) ;;
    let tmp := mem_write tmp VARHDRSZ_COMPRESSED out in
    if len <? 0
    then pfree tmp ;;; ret None
    else ret (Some (SET_VARSIZE_COMPRESSED tmp (len + VARHDRSZ_COMPRESSED))).

Definition pglz_decompress_datum (value : varlena) : M varlena :=
  result <- palloc junk
              (uint32 (VARDATA_COMPRESSED_GET_EXTSIZE value + VARHDRSZ)) ;;
  '(rawsize, out) <- call "pglz_decompress"
                       (pglz_decompress lib
                          (mem_read (ptr_add value VARHDRSZ_COMPRESSED)
                                    (int32 (VARSIZE value - VARHDRSZ_COMPRESSED)))
                          (VARDATA_COMPRESSED_GET_EXTSIZE value) true) ;;
  let result := mem_write result VARHDRSZ out in
  if rawsize <? 0
  then ereport ERRCODE_DATA_CORRUPTED "compressed pglz data is corrupt" None
  else ret (SET_VARSIZE result (rawsize + VARHDRSZ)).

Definition pglz_decompress_datum_slice (value : varlena) (slicelength : Z)
    : M varlena :=
  result <- palloc junk (int32 (slicelength + VARHDRSZ)) ;;
  '(rawsize, out) <- call "pglz_decompress"
                       (pglz_decompress lib
                          (mem_read (ptr_add value VARHDRSZ_COMPRESSED)
                                    (int32 (VARSIZE value - VARHDRSZ_COMPRESSED)))
                          slicelength false) ;;
  let result := mem_write result VARHDRSZ out in
  if rawsize <? 0
  then ereport ERRCODE_DATA_CORRUPTED "compressed pglz data is corrupt" None
  else ret (SET_VARSIZE result (rawsize + VARHDRSZ)).

End Routines.

End Pglz.
Import Pglz.

(** *** LZ4 *)

Module Lz4.

(** The functions of lz4.h the wrappers call, present when the server is
    built with USE_LZ4. *)
Record lz4_library := mk_lz4_library {
  LZ4_compressBound : Z -> Z;
  LZ4_compress_default : list byte -> Z -> Z * list byte;
  LZ4_decompress_safe : list byte -> Z -> Z * list byte;
  LZ4_versionNumber : Z;
  LZ4_decompress_safe_partial : list byte -> Z -> Z -> Z * list byte
}.

Section Routines.

Variable VARTAG_SIZE : Z -> Z.
Variable junk : nat -> byte.
Variable USE_LZ4 : bool.
Variable lib : lz4_library.

Local Open Scope cmd_scope.

Definition lz4_compress_datum (value : varlena) : M (option varlena) :=
  if negb USE_LZ4 then NO_COMPRESSION_SUPPORT "lz4"
  else
    let valsize := int32 (VARSIZE_ANY_EXHDR VARTAG_SIZE value) in
    let max_size := int32 (LZ4_compressBound lib valsize) in
    tmp <- palloc junk (max_size + VARHDRSZ_COMPRESSED) ;;
    '(len, out) <- call "LZ4_compress_default"
                     (LZ4_compress_default lib
                        (mem_read (VARDATA_ANY value) valsize) max_size) ;;
    let tmp := mem_write tmp VARHDRSZ_COMPRESSED out in
    if len <=? 0
    then elog "lz4 compression failed"
    else if len >? valsize
    then pfree tmp ;;; ret None
    else ret (Some (SET_VARSIZE_COMPRESSED tmp (len + VARHDRSZ_COMPRESSED))).

Definition lz4_decompress_datum (value : varlena) : M varlena :=
  if negb USE_LZ4 then NO_COMPRESSION_SUPPORT "lz4"
  else
    result <- palloc junk
                (uint32 (VARDATA_COMPRESSED_GET_EXTSIZE value + VARHDRSZ)) ;;
    '(rawsize, out) <- call "LZ4_decompress_safe"
                         (LZ4_decompress_safe lib
                            (mem_read (ptr_add value VARHDRSZ_COMPRESSED)
                                      (int32 (VARSIZE value - VARHDRSZ_COMPRESSED)))
                            (VARDATA_COMPRESSED_GET_EXTSIZE value)) ;;
    let result := mem_write result VARHDRSZ out in
    if rawsize <? 0
    then ereport ERRCODE_DATA_CORRUPTED "compressed lz4 data is corrupt" None
    else ret (SET_VARSIZE result (rawsize + VARHDRSZ)).

Definition lz4_decompress_datum_slice (value : varlena) (slicelength : Z)
    : M varlena :=
  if negb USE_LZ4 then NO_COMPRESSION_SUPPORT "lz4"
  else if LZ4_versionNumber lib <? 10803
  then lz4_decompress_datum value
  else
    result <- palloc junk (int32 (slicelength + VARHDRSZ)) ;;
    '(rawsize, out) <- call "LZ4_decompress_safe_partial"
                         (LZ4_decompress_safe_partial lib
                            (mem_read (ptr_add value VARHDRSZ_COMPRESSED)
                                      (int32 (VARSIZE value - VARHDRSZ_COMPRESSED)))
                            slicelength slicelength) ;;
    let result := mem_write result VARHDRSZ out in
    if rawsize <? 0
    then ereport ERRCODE_DATA_CORRUPTED "compressed lz4 data is corrupt" None
    else ret (SET_VARSIZE result (rawsize + VARHDRSZ)).

End Routines.

End Lz4.
Import Lz4.

(** *** Zstandard *)

Module Zstd.

(** The functions of zstd.h the wrappers call, present when the server is
    built with USE_ZSTD.  Sizes are [size_t]; an error is a size for which
    [ZSTD_isError] answers true. *)
Record zstd_library := mk_zstd_library {
  ZSTD_compressBound : Z -> Z;
  ZSTD_compress : Z -> list byte -> Z -> Z * list byte;
  ZSTD_decompress : Z -> list byte -> Z * list byte;
  ZSTD_isError : Z -> bool;
  ZSTD_getErrorName : Z -> string
}.

Section Routines.

Variable VARTAG_SIZE : Z -> Z.
Variable junk : nat -> byte.
Variable USE_ZSTD : bool.
Variable lib : zstd_library.

Local Open Scope cmd_scope.

Definition zstd_compress_datum (value : varlena) : M (option varlena) :=
  if negb USE_ZSTD then NO_COMPRESSION_SUPPORT "zstd"
  else
    let valsize := int32 (VARSIZE_ANY_EXHDR VARTAG_SIZE value) in
    if valsize <? 32
    then ret None
    else
      let max_size := size_t (ZSTD_compressBound lib (size_t valsize)) in
      tmp <- palloc junk (max_size + VARHDRSZ) ;;
      '(len, out) <- call "ZSTD_compress"
                       (ZSTD_compress lib max_size
                          (mem_read (VARDATA_ANY value) valsize) 3) ;;
      let tmp := mem_write tmp VARHDRSZ out in
      if ZSTD_isError lib len
      then elog ("zstd compression failed: " ++ ZSTD_getErrorName lib len)%string
      else if len >=? size_t valsize
      then pfree tmp ;;; ret None
      else ret (Some (SET_VARSIZE tmp (len + VARHDRSZ))).

Definition zstd_decompress_datum (value : varlena) (rawsize : Z) : M varlena :=
  if negb USE_ZSTD then NO_COMPRESSION_SUPPORT "zstd"
  else
    result <- palloc junk (int32 (rawsize + VARHDRSZ)) ;;
    '(decomp_size, out) <- call "ZSTD_decompress"
                             (ZSTD_decompress lib (size_t rawsize)
                                (mem_read (ptr_add value VARHDRSZ)
                                          (uint32 (VARSIZE value - VARHDRSZ)))) ;;
    let result := mem_write result VARHDRSZ out in
    if ZSTD_isError lib decomp_size
    then ereport ERRCODE_DATA_CORRUPTED
           ("compressed zstd data is corrupt: "
              ++ ZSTD_getErrorName lib decomp_size)%string None
    else ret (SET_VARSIZE result (decomp_size + VARHDRSZ)).

Definition zstd_decompress_datum_slice (value : varlena) (rawsize : Z)
    (slicelength : Z) : M varlena :=
  if negb USE_ZSTD then NO_COMPRESSION_SUPPORT "zstd"
  else if slicelength >=? rawsize
  then zstd_decompress_datum value rawsize
  else
    result <- palloc junk (int32 (rawsize + VARHDRSZ)) ;;
    '(decomp_size, out) <- call "ZSTD_decompress"
                             (ZSTD_decompress lib (size_t rawsize)
                                (mem_read (ptr_add value VARHDRSZ)
                                          (uint32 (VARSIZE value - VARHDRSZ)))) ;;
    let result := mem_write result VARHDRSZ out in
    if ZSTD_isError lib decomp_size
    then ereport ERRCODE_DATA_CORRUPTED
           ("compressed zstd data is corrupt: "
              ++ ZSTD_getErrorName lib decomp_size)%string None
    else ret (SET_VARSIZE result (slicelength + VARHDRSZ)).

End Routines.

End Zstd.
Import Zstd.

(** ** The codec contract of the specification

    Modelled from the spec: the dispatch over methods is done by the callers
    (toast_internals.c, detoast.c), which are not among the sources.  Spec
    sections 4.2 to 4.4 give every codec the same three operations,
    [compress(raw)], [decompress(compressed, raw_size)] and
    [decompress_slice(compressed, raw_size, want_len)].  For pglz and LZ4 the
    raw size travels in [va_tcinfo], where the caller of compress records
    it; the Zstandard routines take it as an argument. *)

Module Codec.

Inductive method := PGLZ | LZ4 | ZSTD.

(** The values of [ToastCompressionId] that test_toast_compression_ids
    (test_toast_ext.c) checks. *)
Definition TOAST_PGLZ_COMPRESSION_ID : Z := 0.
Definition TOAST_LZ4_COMPRESSION_ID : Z := 1.
Definition TOAST_INVALID_COMPRESSION_ID : Z := 2.
Definition TOAST_EXTENDED_COMPRESSION_ID : Z := 3.

Section Dispatch.

Variable VARTAG_SIZE : Z -> Z.
Variable junk : nat -> byte.
Variable USE_LZ4 USE_ZSTD : bool.
Variable pglz : pglz_library.
Variable lz4 : lz4_library.
Variable zstd : zstd_library.

Definition available (m : method) : bool :=
  match m with
  | PGLZ => true
  | LZ4 => USE_LZ4
  | ZSTD => USE_ZSTD
  end.

Definition compress (m : method) (raw : varlena) : M (option varlena) :=
  match m with
  | PGLZ => pglz_compress_datum VARTAG_SIZE junk pglz raw
  | LZ4 => lz4_compress_datum VARTAG_SIZE junk USE_LZ4 lz4 raw
  | ZSTD => zstd_compress_datum VARTAG_SIZE junk USE_ZSTD zstd raw
  end.

Definition decompress (m : method) (compressed : varlena) (raw_size : Z)
    : M varlena :=
  match m with
  | PGLZ =>
      pglz_decompress_datum junk pglz
        (TOAST_COMPRESS_SET_SIZE_AND_COMPRESS_METHOD
           compressed raw_size TOAST_PGLZ_COMPRESSION_ID)
  | LZ4 =>
      lz4_decompress_datum junk USE_LZ4 lz4
        (TOAST_COMPRESS_SET_SIZE_AND_COMPRESS_METHOD
           compressed raw_size TOAST_LZ4_COMPRESSION_ID)
  | ZSTD => zstd_decompress_datum junk USE_ZSTD zstd compressed raw_size
  end.

Definition decompress_slice (m : method) (compressed : varlena)
    (raw_size : Z) (want_len : Z) : M varlena :=
  match m with
  | PGLZ =>
      pglz_decompress_datum_slice junk pglz
        (TOAST_COMPRESS_SET_SIZE_AND_COMPRESS_METHOD
           compressed raw_size TOAST_PGLZ_COMPRESSION_ID) want_len
  | LZ4 =>
      lz4_decompress_datum_slice junk USE_LZ4 lz4
        (TOAST_COMPRESS_SET_SIZE_AND_COMPRESS_METHOD
           compressed raw_size TOAST_LZ4_COMPRESSION_ID) want_len
  | ZSTD =>
      zstd_decompress_datum_slice junk USE_ZSTD zstd compressed raw_size
        want_len
  end.

(** The length of the compressed payload of a value a codec returned: the
    size the header records minus the header the codec wrote. *)
Definition payload_length (m : method) (compressed : varlena) : Z :=
  match m with
  | PGLZ | LZ4 => VARSIZE compressed - VARHDRSZ_COMPRESSED
  | ZSTD => VARSIZE compressed - VARHDRSZ
  end.

(** What the algorithm answers when the wrapper of [m] hands it [B]. *)
Definition algorithm_output (m : method) (B : list byte) : Z * list byte :=
  let n := Z.of_nat (length B) in
  match m with
  | PGLZ => pglz_compress pglz B
  | LZ4 => LZ4_compress_default lz4 B (int32 (LZ4_compressBound lz4 n))
  | ZSTD => ZSTD_compress zstd (size_t (ZSTD_compressBound zstd n)) B 3
  end.

(** The algorithm reports an error, in the way each library does so. *)
Definition algorithm_error (m : method) (code : Z) : bool :=
  match m with
  | PGLZ => code <? 0
  | LZ4 => code <=? 0
  | ZSTD => ZSTD_isError zstd code
  end.

(** Modelled from the spec: an error of the algorithm "as opposed to
    incompressible" (spec section 3, propagation policy).  For LZ4 and
    Zstandard it is what the routines test, [len <= 0] and
    [ZSTD_isError(len)].  The pglz algorithm (pg_lzcompress.c, missing) has
    one failure answer, a negative length, given when the output would not
    be smaller than the input, which is what the specification counts as
    incompressible (section 3, "compression is considered to have
    failed"; section 4.2, "returns None if the algorithm reports
    failure"): it has no report of an error. *)
Definition reports_error (m : method) (code : Z) : bool :=
  match m with
  | PGLZ => false
  | LZ4 => code <=? 0
  | ZSTD => ZSTD_isError zstd code
  end.

(** The library side of compression at [B]: the call stored as many bytes
    as it returned and no more than the capacity it was given (for
    Zstandard, whose bound is a [size_t], the bound is a size and not an
    error code). *)
Definition writes_within_bound (m : method) (B : list byte) : Prop :=
  let n := Z.of_nat (length B) in
  let '(len, out) := algorithm_output m B in
  Z.of_nat (length out) = len /\
  match m with
  | PGLZ => len <= PGLZ_MAX_OUTPUT n
  | LZ4 => len <= int32 (LZ4_compressBound lz4 n)
  | ZSTD => size_t (ZSTD_compressBound zstd n) + VARHDRSZ < 2^64
  end.

(** The library side of a round trip at [B]: the matching decoder maps the
    bytes the compressor stored back to [B]. *)
Definition decodes_own_output (m : method) (B : list byte) : Prop :=
  let n := Z.of_nat (length B) in
  let out := snd (algorithm_output m B) in
  match m with
  | PGLZ => pglz_decompress pglz out n true = (n, B)
  | LZ4 => LZ4_decompress_safe lz4 out n = (n, B)
  | ZSTD => ZSTD_decompress zstd n out = (n, B)
            /\ ZSTD_isError zstd n = false
  end.

(** The library side of a slice at [B] and [k]: asked for [k] bytes, the
    decoder stops there.  Zstandard has no such entry point, its wrapper
    decodes the frame whole; the LZ4 wrapper decodes the frame whole when
    the library is older than 1.8.3. *)
Definition decodes_prefix (m : method) (B : list byte) (k : Z) : Prop :=
  let n := Z.of_nat (length B) in
  let out := snd (algorithm_output m B) in
  match m with
  | PGLZ => pglz_decompress pglz out k false = (k, firstn (Z.to_nat k) B)
  | LZ4 => LZ4_decompress_safe lz4 out n = (n, B)
           /\ LZ4_decompress_safe_partial lz4 out k k
              = (k, firstn (Z.to_nat k) B)
  | ZSTD => ZSTD_decompress zstd n out = (n, B)
            /\ ZSTD_isError zstd n = false
  end.

(** The wrapper of [m] gets as far as calling its algorithm on [B]: the
    input passes the size gate of the wrapper, if it has one, and the
    output buffer is granted. *)
Definition reaches_algorithm (m : method) (B : list byte) : Prop :=
  let n := Z.of_nat (length B) in
  match m with
  | PGLZ => min_input_size (PGLZ_strategy_default pglz) <= n
            /\ n <= max_input_size (PGLZ_strategy_default pglz)
  | LZ4 => size_t (int32 (LZ4_compressBound lz4 n) + VARHDRSZ_COMPRESSED)
           <= MaxAllocSize
  | ZSTD => 32 <= n
            /\ size_t (size_t (ZSTD_compressBound zstd n) + VARHDRSZ)
               <= MaxAllocSize
  end.

(** The slice routine of [m] hands back the whole value rather than the
    requested prefix: the LZ4 routine does when the linked library is
    older than 1.8.3. *)
Definition slice_returns_whole (m : method) : bool :=
  match m with
  | LZ4 => LZ4_versionNumber lz4 <? 10803
  | _ => false
  end.

End Dispatch.

(** The same LZ4 library at another version number. *)
Definition with_version (l : lz4_library) (v : Z) : lz4_library :=
  mk_lz4_library (LZ4_compressBound l) (LZ4_compress_default l)
                 (LZ4_decompress_safe l) v (LZ4_decompress_safe_partial l).

(** The lengths a varlena can carry next to its headers (the 1 GB limit of
    [MaxAllocSize], less the largest header and the pglz slack). *)
Definition supported_length (B : list byte) : Prop :=
  Z.of_nat (length B) + 12 <= MaxAllocSize.

End Codec.
Import Codec.

(** ** Frames: what a compress routine hands back *)

Module Frame.

(** [c] is a buffer whose header of [hdr] bytes records the size of the
    payload [out] that follows it; the allocation may extend further. *)
Definition framed (hdr : Z) (c : varlena) (out : list byte) : Prop :=
  hdr <= Z.of_nat (length c)
  /\ VARSIZE c = Z.of_nat (length out) + hdr
  /\ exists rest, ptr_add c hdr = out ++ rest.

End Frame.
Import Frame.


(** ** Method names *)

Module Names.

Section Methods.

Variable USE_LZ4 USE_ZSTD : bool.

(** The method characters of toast_compression.h, which is not among the
    sources: nothing is assumed of their values. *)
Variable TOAST_PGLZ_COMPRESSION : ascii.
Variable TOAST_LZ4_COMPRESSION : ascii.
Variable TOAST_ZSTD_COMPRESSION : ascii.
Variable InvalidCompressionMethod : ascii.

Local Open Scope cmd_scope.

Definition CompressionNameToMethod (compression : string) : M ascii :=
  if String.eqb compression "pglz"
  then ret TOAST_PGLZ_COMPRESSION
  else if String.eqb compression "lz4"
  then (if negb USE_LZ4 then NO_COMPRESSION_SUPPORT "lz4" else ret tt) ;;;
       ret TOAST_LZ4_COMPRESSION
  else if String.eqb compression "zstd"
  then (if negb USE_ZSTD then NO_COMPRESSION_SUPPORT "zstd" else ret tt) ;;;
       ret TOAST_ZSTD_COMPRESSION
  else ret InvalidCompressionMethod.

Definition GetCompressionMethodName (method : ascii) : M string :=
  if Ascii.eqb method TOAST_PGLZ_COMPRESSION then ret "pglz"%string
  else if Ascii.eqb method TOAST_LZ4_COMPRESSION then ret "lz4"%string
  else if Ascii.eqb method TOAST_ZSTD_COMPRESSION then ret "zstd"%string
  else elog ("invalid compression method " ++ format_char method)%string.

(** The names the routine knows, and whether the build carries the library
    behind a name. *)
Definition registered (name : string) : bool :=
  String.eqb name "pglz" || String.eqb name "lz4" || String.eqb name "zstd".

Definition compiled_in (name : string) : bool :=
  if String.eqb name "lz4" then USE_LZ4
  else if String.eqb name "zstd" then USE_ZSTD
  else true.

End Methods.

(** The error [NO_COMPRESSION_SUPPORT(method)] reports. *)
Definition feature_not_supported (method : string) : ErrorData :=
  mkErrorData ERRCODE_FEATURE_NOT_SUPPORTED
    ("compression method " ++ method ++ " not supported")%string
    (Some ("This functionality requires the server to be built with "
             ++ method ++ " support.")%string).

End Names.
Import Names.

(** ** The compression-id resolver *)

Module Resolver.

Definition ToastCompressionId := Z.

Section Resolve.

(** The tag and the id of the Zstandard external datum are declared in the
    missing headers: nothing is assumed of their values. *)
Variable VARTAG_ONDISK_ZSTD : Z.
Variable TOAST_ZSTD_COMPRESSION_ID : ToastCompressionId.

Definition toast_get_compression_id (attr : varlena) : ToastCompressionId :=
  let cmid := TOAST_INVALID_COMPRESSION_ID in
  if VARATT_IS_EXTERNAL_ONDISK_ZSTD VARTAG_ONDISK_ZSTD attr
  then TOAST_ZSTD_COMPRESSION_ID
  else if VARATT_IS_EXTERNAL_ONDISK attr
  then
    let toast_pointer := VARATT_EXTERNAL_GET_POINTER attr in
    if VARATT_EXTERNAL_IS_COMPRESSED toast_pointer
    then VARATT_EXTERNAL_GET_COMPRESS_METHOD toast_pointer
    else cmid
  else if VARATT_IS_COMPRESSED attr
  then VARDATA_COMPRESSED_GET_COMPRESS_METHOD attr
  else cmid.

(** The four steps of spec section 4.6, in the specification's words:
    the Zstandard discriminant; else an external pointer whose compressed
    flag is set; else an inline compressed header; else none. *)
Definition resolve_by_steps (attr : varlena) : ToastCompressionId :=
  if VARATT_IS_EXTERNAL_ONDISK_ZSTD VARTAG_ONDISK_ZSTD attr
  then TOAST_ZSTD_COMPRESSION_ID
  else if VARATT_IS_EXTERNAL_ONDISK attr
          && VARATT_EXTERNAL_IS_COMPRESSED (VARATT_EXTERNAL_GET_POINTER attr)
  then VARATT_EXTERNAL_GET_COMPRESS_METHOD (VARATT_EXTERNAL_GET_POINTER attr)
  else if VARATT_IS_COMPRESSED attr
  then VARDATA_COMPRESSED_GET_COMPRESS_METHOD attr
  else TOAST_INVALID_COMPRESSION_ID.

End Resolve.

(** An external datum: the one-byte header [0x01], the tag, the pointer. *)
Definition external_datum (tag : Z) (tp : varatt_external) : varlena :=
  [x01; byte_of tag]
    ++ bytes_of_u32 (uint32 (va_rawsize tp)) ++ bytes_of_u32 (va_extinfo tp)
    ++ bytes_of_u32 (va_valueid tp) ++ bytes_of_u32 (va_toastrelid tp).

End Resolver.
Import Resolver.

(** ** Structure layout

    Modelled from the spec: the declarations of [varatt_external] and
    [varatt_external_extended] are in varatt.h, which is not among the
    sources; only the test that checks their layout is.  The fields and
    their widths are those of spec sections 3 and 6; sizes and offsets
    follow from the C rules: every field at the next multiple of its
    alignment, the structure padded to its strictest alignment. *)

Module Layout.

Inductive ctype :=
| t_int32
| t_uint32
| t_uint8
| t_Oid
| t_array (elem : ctype) (n : Z).

Fixpoint sizeof_type (t : ctype) : Z :=
  match t with
  | t_int32 | t_uint32 | t_Oid => 4
  | t_uint8 => 1
  | t_array elem n => n * sizeof_type elem
  end.

Fixpoint alignof_type (t : ctype) : Z :=
  match t with
  | t_int32 | t_uint32 | t_Oid => 4
  | t_uint8 => 1
  | t_array elem _ => alignof_type elem
  end.

Definition struct := list (string * ctype).

Definition align_up (off a : Z) : Z := ((off + a - 1) / a) * a.

(** The offset of each field, laying the fields out from [off]. *)
Fixpoint place (fields : struct) (off : Z) : list (string * Z) :=
  match fields with
  | [] => []
  | (name, t) :: rest =>
      let o := align_up off (alignof_type t) in
      (name, o) :: place rest (o + sizeof_type t)
  end.

Fixpoint end_of (fields : struct) (off : Z) : Z :=
  match fields with
  | [] => off
  | (_, t) :: rest =>
      end_of rest (align_up off (alignof_type t) + sizeof_type t)
  end.

Definition alignof_struct (s : struct) : Z :=
  fold_right (fun f a => Z.max (alignof_type (snd f)) a) 1 s.

Definition sizeof (s : struct) : Z := align_up (end_of s 0) (alignof_struct s).

Fixpoint lookup (name : string) (l : list (string * Z)) : option Z :=
  match l with
  | [] => None
  | (n, o) :: rest => if String.eqb n name then Some o else lookup name rest
  end.

Definition offsetof (s : struct) (name : string) : option Z :=
  lookup name (place s 0).

(** Modelled from the spec: section 6, "Standard external pointer". *)
Definition varatt_external : struct :=
  [("va_rawsize", t_int32); ("va_extinfo", t_uint32);
   ("va_valueid", t_Oid); ("va_toastrelid", t_Oid)]%string.

(** Modelled from the spec: section 6, "Extended external pointer". *)
Definition varatt_external_extended : struct :=
  [("va_rawsize", t_int32); ("va_extinfo", t_uint32);
   ("va_flags", t_uint8); ("va_data", t_array t_uint8 3);
   ("va_valueid", t_Oid); ("va_toastrelid", t_Oid)]%string.

Definition TOAST_POINTER_SIZE : Z := VARHDRSZ_EXTERNAL + sizeof varatt_external.
Definition TOAST_POINTER_SIZE_EXTENDED : Z :=
  VARHDRSZ_EXTERNAL + sizeof varatt_external_extended.

(** [%zu] and [%d] of a non-negative number. *)
Definition fmt (z : Z) : string := NilZero.string_of_uint (N.to_uint (Z.to_N z)).

Definition fmt_offset (o : option Z) : string :=
  match o with
  | Some z => fmt z
  | None => "?"
  end.

Definition offset_is (o : option Z) (expected : Z) : bool :=
  match o with
  | Some z => z =? expected
  | None => false
  end.

(** [if (cond) elog(ERROR, msg)] *)
Definition elog_if (cond : bool) (msg : string) : M unit :=
  if cond then elog msg else ret tt.

Local Open Scope cmd_scope.
Local Open Scope string_scope.

Definition test_toast_structure_sizes : M unit :=
  elog_if (negb (sizeof varatt_external =? 16)%Z)
    ("varatt_external is " ++ fmt (sizeof varatt_external)
       ++ " bytes, expected 16") ;;;
  elog_if (negb (sizeof varatt_external_extended =? 20)%Z)
    ("varatt_external_extended is " ++ fmt (sizeof varatt_external_extended)
       ++ " bytes, expected 20") ;;;
  elog_if (negb (TOAST_POINTER_SIZE =? 18)%Z)
    ("TOAST_POINTER_SIZE is " ++ fmt TOAST_POINTER_SIZE ++ ", expected 18") ;;;
  elog_if (negb (TOAST_POINTER_SIZE_EXTENDED =? 22)%Z)
    ("TOAST_POINTER_SIZE_EXTENDED is " ++ fmt TOAST_POINTER_SIZE_EXTENDED
       ++ ", expected 22") ;;;
  elog_if (negb (offset_is (offsetof varatt_external_extended "va_rawsize") 0))
    ("va_rawsize offset is "
       ++ fmt_offset (offsetof varatt_external_extended "va_rawsize")
       ++ ", expected 0") ;;;
  elog_if (negb (offset_is (offsetof varatt_external_extended "va_extinfo") 4))
    ("va_extinfo offset is "
       ++ fmt_offset (offsetof varatt_external_extended "va_extinfo")
       ++ ", expected 4") ;;;
  elog_if (negb (offset_is (offsetof varatt_external_extended "va_flags") 8))
    ("va_flags offset is "
       ++ fmt_offset (offsetof varatt_external_extended "va_flags")
       ++ ", expected 8") ;;;
  elog_if (negb (offset_is (offsetof varatt_external_extended "va_data") 9))
    ("va_data offset is "
       ++ fmt_offset (offsetof varatt_external_extended "va_data")
       ++ ", expected 9") ;;;
  elog_if (negb (offset_is (offsetof varatt_external_extended "va_valueid") 12))
    ("va_valueid offset is "
       ++ fmt_offset (offsetof varatt_external_extended "va_valueid")
       ++ ", expected 12") ;;;
  elog_if (negb (offset_is (offsetof varatt_external_extended "va_toastrelid") 16))
    ("va_toastrelid offset is "
       ++ fmt_offset (offsetof varatt_external_extended "va_toastrelid")
       ++ ", expected 16") ;;;
  ret tt.

End Layout.

(** ** Two sentences of the specification, as it states them

    These are the readings under which the sentences fail on the code; the
    statements that hold in their place are proved further down. *)

Module Stated.

Section Sentences.

Variable VARTAG_SIZE : Z -> Z.
Variable junk : nat -> byte.
Variable USE_LZ4 USE_ZSTD : bool.
Variable pglz : pglz_library.
Variable lz4 : lz4_library.
Variable zstd : zstd_library.

Local Abbreviation compress :=
  (Codec.compress VARTAG_SIZE junk USE_LZ4 USE_ZSTD pglz lz4 zstd).
Local Abbreviation decompress_slice :=
  (Codec.decompress_slice junk USE_LZ4 USE_ZSTD pglz lz4 zstd).
Local Abbreviation slice_at v :=
  (Codec.decompress_slice junk USE_LZ4 USE_ZSTD pglz (with_version lz4 v) zstd
     LZ4).
Local Abbreviation holds := (Varatt.holds VARTAG_SIZE).

(** C2, the claim as the specification states it: the slice is exactly the
    first [k] bytes, for every method. *)
Definition slice_is_exact : Prop :=
  forall m value B c k,
    available USE_LZ4 USE_ZSTD m = true ->
    supported_length B ->
    holds value B ->
    returns (compress m value) (Some c) ->
    0 <= k <= Z.of_nat (length B) ->
    writes_within_bound pglz lz4 zstd m B ->
    decodes_prefix pglz lz4 zstd m B k ->
    exists r, returns (decompress_slice m c (Z.of_nat (length B)) k) r
              /\ holds r (firstn (Z.to_nat k) B).

(** C6, the claim as the specification states it: before and after 1.8.3
    the slice routine hands the caller the same datum, of the truncated
    logical size. *)
Definition lz4_fallback_is_transparent : Prop :=
  forall value B c k v_old v_new,
    USE_LZ4 = true ->
    supported_length B ->
    holds value B ->
    returns (compress LZ4 value) (Some c) ->
    0 <= k <= Z.of_nat (length B) ->
    writes_within_bound pglz lz4 zstd LZ4 B ->
    decodes_prefix pglz lz4 zstd LZ4 B k ->
    v_old < 10803 <= v_new ->
    exists r,
      returns (slice_at v_old c (Z.of_nat (length B)) k) r
      /\ returns (slice_at v_new c (Z.of_nat (length B)) k) r
      /\ VARSIZE_ANY_EXHDR VARTAG_SIZE r = k.

End Sentences.

End Stated.
Import Stated.

(** ** Reading the log of a call *)

Module Log.

Definition allocations (t : list event) : nat :=
  length (filter (fun e => match e with EvPalloc _ => true | _ => false end) t).

Definition frees (t : list event) : nat :=
  length (filter (fun e => match e with EvPfree => true | _ => false end) t).

Definition library_calls (t : list event) : nat :=
  length (filter (fun e => match e with EvCall _ => true | _ => false end) t).

End Log.
Import Log.

(** ** Further samples of data *)

Module Shapes.

(** The name each routine hands to [NO_COMPRESSION_SUPPORT]. *)
Definition method_name (m : method) : string :=
  match m with
  | PGLZ => "pglz"
  | LZ4 => "lz4"
  | ZSTD => "zstd"
  end.

(** Modelled from the spec: a datum under the one-byte header of varatt.h
    (missing): the total size, header included, shifted past the low bit
    that marks the short header. *)
Definition make_short_varlena (B : list byte) : varlena :=
  byte_of (Z.lor (Z.shiftl (Z.of_nat (length B) + VARHDRSZ_SHORT) 1) 0x01) :: B.

(** The bytes the pglz and LZ4 decompress routines hand to their library,
    and the bytes the Zstandard ones do. *)
Definition compressed_source (value : varlena) : list byte :=
  mem_read (ptr_add value VARHDRSZ_COMPRESSED)
           (int32 (VARSIZE value - VARHDRSZ_COMPRESSED)).

Definition frame_source (value : varlena) : list byte :=
  mem_read (ptr_add value VARHDRSZ) (uint32 (VARSIZE value - VARHDRSZ)).

(** The datum without the slack of its allocation: its first [VARSIZE]
    bytes. *)
Definition trimmed (value : varlena) : varlena :=
  firstn (Z.to_nat (VARSIZE value)) value.

End Shapes.
Import Shapes.

(** ** A run-length codec behind the three library interfaces

    The wrappers are run on concrete data with this codec standing for each
    library: pairs of a count and a byte.  It observes the calling
    conventions of the libraries (return codes, capacities, the version
    number) and nothing else of theirs. *)

Module RunLength.

Fixpoint encode (l : list byte) : list byte :=
  match l with
  | [] => []
  | b :: t =>
      match encode t with
      | c :: b' :: r =>
          if Byte.eqb b b' && (u8 c <? 255)
          then byte_of (u8 c + 1) :: b' :: r
          else x01 :: b :: c :: b' :: r
      | _ => [x01; b]
      end
  end.

Fixpoint decode (l : list byte) : list byte :=
  match l with
  | c :: b :: r => repeat b (Z.to_nat (u8 c)) ++ decode r
  | _ => []
  end.

Definition size (l : list byte) : Z := Z.of_nat (length l).

(** pglz: [-1] when the output would not be smaller than the input; the
    decoder fills at most [rawsize] bytes and, asked to check completeness,
    fails unless the frame holds exactly that many. *)
Definition rl_pglz (strategy : PGLZ_Strategy) : pglz_library :=
  mk_pglz_library strategy
    (fun source =>
       let out := encode source in
       if size out <? size source then (size out, out) else (-1, []))
    (fun source rawsize check_complete =>
       let d := decode source in
       let got := firstn (Z.to_nat rawsize) d in
       if check_complete && negb (size d =? rawsize)
       then (-1, got)
       else (size got, got)).

(** LZ4: [0] from the compressor when the capacity is too small, a negative
    number from the decoder when the frame does not fit. *)
Definition rl_lz4 (version : Z) : lz4_library :=
  mk_lz4_library
    (fun isize => 2 * isize + 16)
    (fun src dstCapacity =>
       let out := encode src in
       if size out <=? dstCapacity then (size out, out) else (0, []))
    (fun src dstCapacity =>
       let d := decode src in
       if size d <=? dstCapacity then (size d, d) else (-1, []))
    version
    (fun src targetOutputSize dstCapacity =>
       let d := firstn (Z.to_nat (Z.min targetOutputSize dstCapacity))
                       (decode src) in
       (size d, d)).

(** Zstandard: an error is a [size_t] above [-ZSTD_error_maxCode]. *)
Definition rl_error_dstSize_tooSmall : Z := 2^64 - 70.

Definition rl_zstd : zstd_library :=
  mk_zstd_library
    (fun srcSize => 2 * srcSize + 18)
    (fun dstCapacity src level =>
       let out := encode src in
       if size out <=? dstCapacity then (size out, out)
       else (rl_error_dstSize_tooSmall, []))
    (fun dstCapacity src =>
       let d := decode src in
       if size d <=? dstCapacity then (size d, d)
       else (rl_error_dstSize_tooSmall, []))
    (fun code => 2^64 - 120 <? code)
    (fun code =>
       if 2^64 - 120 <? code
       then "Destination buffer is too small"%string
       else "No error detected"%string).

(** The same library with a compressor that fails for want of memory. *)
Definition rl_error_memory_allocation : Z := 2^64 - 64.

Definition rl_zstd_faulty : zstd_library :=
  mk_zstd_library
    (ZSTD_compressBound rl_zstd)
    (fun dstCapacity src level => (rl_error_memory_allocation, []))
    (ZSTD_decompress rl_zstd)
    (ZSTD_isError rl_zstd)
    (fun code =>
       if code =? rl_error_memory_allocation
       then "Allocation error : not enough memory"%string
       else ZSTD_getErrorName rl_zstd code).

(** An LZ4 library whose compressor answers 0 on every input.  liblz4
    itself answers 0 only for a destination below its bound or an input
    above LZ4_MAX_INPUT_SIZE, neither of which lz4_compress_datum hands it;
    here the failure is put in by hand. *)
Definition rl_lz4_failing (version : Z) : lz4_library :=
  mk_lz4_library
    (LZ4_compressBound (rl_lz4 version))
    (fun src dstCapacity => (0, []))
    (LZ4_decompress_safe (rl_lz4 version))
    version
    (LZ4_decompress_safe_partial (rl_lz4 version)).

(** One answer of the LZ4 library itself (liblz4 1.9.4), recorded: the
    twenty bytes "abcdabcdefghijklmnop" compress to a block of twenty
    bytes, a match of four bytes costing as much as it saves.  The library
    below knows this one input and block and fails on every other. *)
Definition abcd_twice : list byte :=
  [x61; x62; x63; x64; x61; x62; x63; x64; x65; x66;
   x67; x68; x69; x6a; x6b; x6c; x6d; x6e; x6f; x70].
Definition abcd_twice_block : list byte :=
  [x40; x61; x62; x63; x64; x04; x00; xc0; x65; x66;
   x67; x68; x69; x6a; x6b; x6c; x6d; x6e; x6f; x70].

Fixpoint bytes_eqb (l l' : list byte) : bool :=
  match l, l' with
  | [], [] => true
  | b :: t, b' :: t' => Byte.eqb b b' && bytes_eqb t t'
  | _, _ => false
  end.

Definition recorded_lz4 : lz4_library :=
  mk_lz4_library
    (fun isize => isize + isize / 255 + 16)
    (fun src dstCapacity =>
       if bytes_eqb src abcd_twice && (20 <=? dstCapacity)
       then (20, abcd_twice_block) else (0, []))
    (fun src dstCapacity =>
       if bytes_eqb src abcd_twice_block && (20 <=? dstCapacity)
       then (20, abcd_twice) else (-1, []))
    10904
    (fun src targetOutputSize dstCapacity =>
       if bytes_eqb src abcd_twice_block
       then let d := firstn (Z.to_nat (Z.min targetOutputSize dstCapacity))
                            abcd_twice in
            (size d, d)
       else (-1, [])).

(** The default strategy: the values are those of pg_lzcompress.c, which is
    not among the sources. *)
Definition strategy_default : PGLZ_Strategy :=
  mk_PGLZ_Strategy 32 INT_MAX 25 1024 128 10.

(** Sample surroundings: the tag sizes, the allocator's leftover bytes. *)
Definition tag_size (tag : Z) : Z := if tag =? VARTAG_ONDISK then 16 else 8.
Definition leftover (i : nat) : byte := x7f.

(** Sample data: forty times the letter a; forty different bytes; two
    runs of two. *)
Definition forty_a : list byte := repeat x61 40.
Definition forty_distinct : list byte :=
  map (fun i => byte_of (Z.of_nat i)) (seq 48 40).
Definition aabb : list byte := [x61; x61; x62; x62].

(** The codec operations over the run-length libraries, in a build with
    both optional libraries, at a given LZ4 version and pglz strategy. *)
Definition rl_compress (strategy : PGLZ_Strategy) (version : Z) :=
  Codec.compress tag_size leftover true true
    (rl_pglz strategy) (rl_lz4 version) rl_zstd.
Definition rl_decompress (strategy : PGLZ_Strategy) (version : Z) :=
  Codec.decompress leftover true true
    (rl_pglz strategy) (rl_lz4 version) rl_zstd.
Definition rl_decompress_slice (strategy : PGLZ_Strategy) (version : Z) :=
  Codec.decompress_slice leftover true true
    (rl_pglz strategy) (rl_lz4 version) rl_zstd.

End RunLength.

(** ** Further sample libraries and data *)

Module MoreSamples.

Import RunLength.

(** A frame of the run-length codec is a sequence of pairs; decoders that
    refuse anything else, whether or not they are asked to decode to the
    end. *)
Definition well_formed (src : list byte) : bool := Nat.even (length src).

Definition rl_pglz_strict (strategy : PGLZ_Strategy) : pglz_library :=
  mk_pglz_library strategy
    (pglz_compress (rl_pglz strategy))
    (fun source rawsize check_complete =>
       if well_formed source
       then pglz_decompress (rl_pglz strategy) source rawsize check_complete
       else (-1, [])).

Definition rl_lz4_strict (version : Z) : lz4_library :=
  mk_lz4_library
    (LZ4_compressBound (rl_lz4 version))
    (LZ4_compress_default (rl_lz4 version))
    (fun src dstCapacity =>
       if well_formed src
       then LZ4_decompress_safe (rl_lz4 version) src dstCapacity
       else (-1, []))
    version
    (fun src targetOutputSize dstCapacity =>
       if well_formed src
       then LZ4_decompress_safe_partial (rl_lz4 version) src
              targetOutputSize dstCapacity
       else (-1, [])).

(** An inline compressed datum around a payload, as a compress routine and
    its caller leave it, with nothing after it. *)
Definition make_compressed (raw method : Z) (payload : list byte) : varlena :=
  TOAST_COMPRESS_SET_SIZE_AND_COMPRESS_METHOD
    (SET_VARSIZE_COMPRESSED (repeat x00 8 ++ payload)
       (Z.of_nat (length payload) + VARHDRSZ_COMPRESSED))
    raw method.

(** Forty times the letter a as one pair, and the same cut in the middle
    of a pair. *)
Definition frame_forty_a : list byte := [x28; x61].
Definition frame_cut : list byte := [x28; x61; x05].

(** Answers of the Zstandard library itself (libzstd 1.5.4), recorded.
    Forty times the letter a compress at level 3 to a frame of seventeen
    bytes, the library writing seven more bytes into the destination than
    it reports.  Decoding that frame reports forty bytes; given room for a
    hundred the library writes forty-two, given room for forty, forty-four
    or sixty it writes forty, and given room for ten it reports an error
    and writes nothing.  The library below knows these calls and fails on every
    other. *)
Definition zstd_frame_forty_a : list byte :=
  [x28; xb5; x2f; xfd; x20; x28; x45; x00; x00; x10; x61; x61; x01; x00;
   x1f; x80; x05].

Definition zstd_error_GENERIC : Z := 2^64 - 1.
Definition zstd_error_dstSize_tooSmall : Z := 2^64 - 70.

Definition recorded_zstd : zstd_library :=
  mk_zstd_library
    (fun srcSize =>
       srcSize + Z.shiftr srcSize 8
       + (if srcSize <? 131072 then Z.shiftr (131072 - srcSize) 11 else 0))
    (fun dstCapacity src level =>
       if bytes_eqb src forty_a && (dstCapacity =? 103) && (level =? 3)
       then (17, zstd_frame_forty_a ++ repeat x00 7)
       else (zstd_error_GENERIC, []))
    (fun dstCapacity src =>
       if bytes_eqb src zstd_frame_forty_a
       then if dstCapacity =? 100 then (40, repeat x61 42)
            else if (dstCapacity =? 40) || (dstCapacity =? 44)
                    || (dstCapacity =? 60)
            then (40, forty_a)
            else if dstCapacity =? 10 then (zstd_error_dstSize_tooSmall, [])
            else (zstd_error_GENERIC, [])
       else (zstd_error_GENERIC, []))
    (fun code => 2^64 - 120 <? code)
    (fun code =>
       if code =? zstd_error_dstSize_tooSmall
       then "Destination buffer is too small"%string
       else if code =? zstd_error_GENERIC
       then "Error (generic)"%string
       else "No error detected"%string).

End MoreSamples.

(** * Facts about the embedding *)

Module CIntFacts.

Lemma uint32_small x : 0 <= x < 2^32 -> uint32 x = x.
Proof. intros H. unfold uint32. now apply Z.mod_small. Qed.

Lemma size_t_small x : 0 <= x < 2^64 -> size_t x = x.
Proof. intros H. unfold size_t. now apply Z.mod_small. Qed.

Lemma int32_small x : - 2^31 <= x < 2^31 -> int32 x = x.
Proof.
  intros H. unfold int32. rewrite Z.mod_small; lia.
Qed.

Lemma int32_range x : - 2^31 <= int32 x < 2^31.
Proof.
  unfold int32. pose proof (Z.mod_pos_bound (x + 2^31) (2^32) ltac:(lia)).
  lia.
Qed.

Lemma size_t_range x : 0 <= size_t x < 2^64.
Proof. unfold size_t. apply Z.mod_pos_bound. lia. Qed.

End CIntFacts.
Import CIntFacts.

Module MemFacts.

Lemma u8_range b : 0 <= u8 b < 256.
Proof.
  unfold u8. pose proof (Byte.to_N_bounded b). lia.
Qed.

Lemma u8_byte_of z : u8 (byte_of z) = z mod 256.
Proof.
  unfold u8, byte_of.
  assert (Hr : 0 <= z mod 256 < 256) by (apply Z.mod_pos_bound; lia).
  destruct (Byte.of_N (Z.to_N (z mod 256))) as [b|] eqn:E.
  - apply Byte.to_of_N in E. rewrite E. lia.
  - apply Byte.of_N_None_iff in E. lia.
Qed.

Lemma byte_of_u8 b : byte_of (u8 b) = b.
Proof.
  unfold byte_of, u8.
  pose proof (Byte.to_N_bounded b) as Hb.
  rewrite Z.mod_small by lia.
  rewrite N2Z.id, Byte.of_to_N. reflexivity.
Qed.

Lemma length_bytes_of_u32 v : length (bytes_of_u32 v) = 4%nat.
Proof. reflexivity. Qed.

Lemma length_mem_write p off data :
  0 <= off -> off + Z.of_nat (length data) <= Z.of_nat (length p) ->
  length (mem_write p off data) = length p.
Proof.
  intros H0 H1. unfold mem_write.
  rewrite !length_app, length_firstn, length_skipn. lia.
Qed.

Lemma ptr_add_mem_write p off data :
  0 <= off -> off <= Z.of_nat (length p) ->
  ptr_add (mem_write p off data) off
  = data ++ skipn (Z.to_nat off + length data) p.
Proof.
  intros H0 H1. unfold ptr_add, mem_write.
  rewrite skipn_app, length_firstn.
  replace (Nat.min (Z.to_nat off) (length p)) with (Z.to_nat off) by lia.
  rewrite Nat.sub_diag. simpl.
  rewrite skipn_all2; [reflexivity | rewrite length_firstn; lia].
Qed.

Lemma mem_read_app_exact data rest n :
  n = Z.of_nat (length data) -> mem_read (data ++ rest) n = data.
Proof.
  intros ->. unfold mem_read. rewrite Nat2Z.id.
  rewrite firstn_app, Nat.sub_diag, firstn_all. simpl.
  now rewrite app_nil_r.
Qed.

Lemma mem_read_app_prefix data rest n :
  0 <= n <= Z.of_nat (length data) ->
  mem_read (data ++ rest) n = firstn (Z.to_nat n) data.
Proof.
  intros H. unfold mem_read.
  rewrite firstn_app.
  replace (Z.to_nat n - length data)%nat with 0%nat by lia.
  simpl. now rewrite app_nil_r.
Qed.

Lemma load_u8_mem_write_in p off data i :
  0 <= off -> off <= Z.of_nat (length p) ->
  0 <= i -> i < Z.of_nat (length data) ->
  load_u8 (mem_write p off data) (off + i)
  = u8 (nth (Z.to_nat i) data x00).
Proof.
  intros H0 H1 H2 H3. unfold load_u8, mem_write.
  rewrite app_nth2; rewrite length_firstn; [|lia].
  replace (Z.to_nat (off + i) - Nat.min (Z.to_nat off) (length p))%nat
    with (Z.to_nat i) by lia.
  rewrite app_nth1 by lia. reflexivity.
Qed.

Lemma load_u8_mem_write_after p off data i :
  0 <= off -> off + Z.of_nat (length data) <= i ->
  off <= Z.of_nat (length p) ->
  load_u8 (mem_write p off data) i = load_u8 p i.
Proof.
  intros H0 H1 H2. unfold load_u8, mem_write.
  rewrite app_nth2; rewrite length_firstn; [|lia].
  rewrite app_nth2 by lia.
  rewrite nth_skipn. f_equal. f_equal. lia.
Qed.

Lemma u32_bytes_sum x :
  0 <= x < 2^32 ->
  x mod 256 + 256 * ((x / 256) mod 256)
  + 65536 * ((x / 65536) mod 256) + 16777216 * ((x / 16777216) mod 256) = x.
Proof.
  intros H.
  pose proof (Z.div_mod x 256 ltac:(lia)) as E0.
  pose proof (Z.div_mod (x / 256) 256 ltac:(lia)) as E1.
  pose proof (Z.div_mod (x / 256 / 256) 256 ltac:(lia)) as E2.
  rewrite (Z.div_div x 256 256) in E1, E2 by lia.
  rewrite (Z.div_div x (256 * 256) 256) in E2 by lia.
  change (256 * 256) with 65536 in *.
  change (65536 * 256) with 16777216 in *.
  assert (x / 16777216 < 256) by (apply Z.div_lt_upper_bound; lia).
  assert (0 <= x / 16777216) by (apply Z.div_pos; lia).
  rewrite (Z.mod_small (x / 16777216) 256) by lia.
  lia.
Qed.

Lemma load_store_u32 p off v :
  0 <= off -> off + 4 <= Z.of_nat (length p) -> 0 <= v < 2^32 ->
  load_u32 (store_u32 p off v) off = v.
Proof.
  intros H0 H1 Hv. unfold load_u32, store_u32.
  replace off with (off + 0) at 2 by lia.
  rewrite !load_u8_mem_write_in by (simpl; lia).
  simpl nth. rewrite !u8_byte_of.
  now apply u32_bytes_sum.
Qed.

Lemma load_u32_store_before p off v i :
  0 <= off -> off + 4 <= i -> off <= Z.of_nat (length p) ->
  load_u32 (store_u32 p off v) i = load_u32 p i.
Proof.
  intros H0 H1 H2. unfold load_u32, store_u32.
  rewrite !load_u8_mem_write_after by (simpl; lia). reflexivity.
Qed.

Lemma ptr_add_mem_write_after p off data k :
  0 <= off -> off + Z.of_nat (length data) <= k ->
  off <= Z.of_nat (length p) ->
  ptr_add (mem_write p off data) k = ptr_add p k.
Proof.
  intros H0 H1 H2. unfold ptr_add, mem_write.
  rewrite skipn_app, length_firstn.
  rewrite (skipn_all2 (firstn _ _)) by (rewrite length_firstn; lia).
  rewrite app_nil_l, skipn_app.
  rewrite (skipn_all2 data) by lia.
  rewrite app_nil_l, skipn_skipn. f_equal. lia.
Qed.

Lemma ptr_add_store_u32 p off v k :
  0 <= off -> off + 4 <= k -> off <= Z.of_nat (length p) ->
  ptr_add (store_u32 p off v) k = ptr_add p k.
Proof.
  intros H0 H1 H2. unfold store_u32.
  apply ptr_add_mem_write_after; simpl; lia.
Qed.

Lemma length_store_u32 p off v :
  0 <= off -> off + 4 <= Z.of_nat (length p) ->
  length (store_u32 p off v) = length p.
Proof.
  intros. unfold store_u32. apply length_mem_write; simpl; lia.
Qed.

End MemFacts.
Import MemFacts.

Module ElogFacts.

Lemma length_fresh junk n : 0 <= n -> Z.of_nat (length (fresh junk n)) = n.
Proof. intros. unfold fresh. rewrite length_map, length_seq. lia. Qed.

Lemma palloc_ok junk size :
  0 <= size <= MaxAllocSize ->
  palloc junk size = ([EvPalloc size], Return (fresh junk size)).
Proof.
  intros H. unfold palloc, MaxAllocSize in *.
  rewrite size_t_small by lia.
  destruct (size <=? 1073741823) eqn:E; [reflexivity|].
  apply Z.leb_gt in E. lia.
Qed.

Lemma palloc_returns junk size p :
  result (palloc junk size) = Return p ->
  size_t size <= MaxAllocSize /\ p = fresh junk (size_t size).
Proof.
  unfold palloc, result.
  destruct (size_t size <=? MaxAllocSize) eqn:E; simpl; [|discriminate].
  intros [= <-]. apply Z.leb_le in E. now split.
Qed.

Lemma result_bind {A B} (m : M A) (k : A -> M B) :
  result (bind m k)
  = match result m with
    | Return a => result (k a)
    | Raise e => Raise e
    end.
Proof.
  destruct m as [t [a|e]]; simpl; [|reflexivity].
  now destruct (k a).
Qed.

Lemma trace_bind {A B} (m : M A) (k : A -> M B) :
  trace (bind m k)
  = match result m with
    | Return a => trace m ++ trace (k a)
    | Raise e => trace m
    end.
Proof.
  destruct m as [t [a|e]]; simpl; [|reflexivity].
  now destruct (k a).
Qed.

End ElogFacts.
Import ElogFacts.

Module VarattFacts.

Lemma lor_low_high a b k :
  0 <= k -> 0 <= a < 2^k -> Z.lor a (b * 2^k) = a + b * 2^k.
Proof.
  intros Hk Ha.
  assert (Hd : Z.land a (b * 2^k) = 0).
  { apply Z.bits_inj'. intros n Hn.
    rewrite Z.land_spec, Z.bits_0.
    destruct (Z_lt_le_dec n k) as [Hlt|Hge].
    - rewrite Z.mul_pow2_bits_low by lia. apply andb_false_r.
    - assert (Ea : Z.testbit a n = false).
      { destruct (Z.eq_dec a 0) as [->|Hnz]; [apply Z.bits_0|].
        apply Z.bits_above_log2; [lia|].
        assert (Z.log2 a < k) by (apply Z.log2_lt_pow2; lia). lia. }
      now rewrite Ea. }
  rewrite <- Z.lxor_lor by exact Hd.
  symmetry. now apply Z.add_nocarry_lxor.
Qed.

Lemma shl2_small x :
  0 <= x < 2^30 -> uint32 (Z.shiftl (uint32 x) 2) = 4 * x.
Proof.
  intros H. rewrite (uint32_small x) by lia.
  rewrite Z.shiftl_mul_pow2 by lia.
  rewrite uint32_small; lia.
Qed.

Lemma header_4b_c_value x :
  0 <= x < 2^30 -> Z.lor (uint32 (Z.shiftl (uint32 x) 2)) 0x02 = 4 * x + 2.
Proof.
  intros H. rewrite shl2_small by exact H.
  rewrite Z.lor_comm.
  replace (4 * x) with (x * 2^2) by lia.
  rewrite lor_low_high; lia.
Qed.

Lemma size_of_header h x :
  0 <= x < 2^30 -> h = 4 * x \/ h = 4 * x + 2 ->
  Z.land (Z.shiftr h 2) 0x3FFFFFFF = x.
Proof.
  intros Hx Hh.
  change 0x3FFFFFFF with (Z.ones 30).
  rewrite Z.land_ones, Z.shiftr_div_pow2 by lia.
  assert (h / 2^2 = x).
  { symmetry. apply (Z.div_unique h (2^2) x (h - 4 * x)); lia. }
  rewrite H. apply Z.mod_small. lia.
Qed.

Lemma low_bits_of_byte h k :
  0 <= k <= 8 -> Z.land (h mod 256) (Z.ones k) = h mod 2^k.
Proof.
  intros Hk. rewrite Z.land_ones by lia.
  replace 256 with (2^k * 2^(8 - k)).
  - rewrite Z.rem_mul_r by lia.
    rewrite Z.mul_comm, Z.mod_add by lia.
    apply Z.mod_mod. lia.
  - rewrite <- Z.pow_add_r by lia. now replace (k + (8 - k)) with 8 by lia.
Qed.

Section Header.

Variable VARTAG_SIZE : Z -> Z.

Lemma first_byte_store p v :
  4 <= Z.of_nat (length p) ->
  load_u8 (store_u32 p 0 v) 0 = v mod 256.
Proof.
  intros H. unfold store_u32.
  change 0 with (0 + 0) at 2.
  rewrite load_u8_mem_write_in by (simpl; lia).
  simpl. apply u8_byte_of.
Qed.

Lemma VARSIZE_SET_VARSIZE p len :
  4 <= Z.of_nat (length p) -> 0 <= len < 2^30 ->
  VARSIZE (SET_VARSIZE p len) = len.
Proof.
  intros Hp Hl. unfold VARSIZE, VARSIZE_4B, SET_VARSIZE, SET_VARSIZE_4B,
    va_header_4b.
  rewrite shl2_small by exact Hl.
  rewrite load_store_u32 by lia.
  apply size_of_header; auto.
Qed.

Lemma VARSIZE_SET_VARSIZE_COMPRESSED p len :
  4 <= Z.of_nat (length p) -> 0 <= len < 2^30 ->
  VARSIZE (SET_VARSIZE_COMPRESSED p len) = len.
Proof.
  intros Hp Hl. unfold VARSIZE, VARSIZE_4B, SET_VARSIZE_COMPRESSED,
    SET_VARSIZE_4B_C, va_header_4b.
  rewrite header_4b_c_value by exact Hl.
  rewrite load_store_u32 by lia.
  apply size_of_header; auto.
Qed.

Lemma kind_SET_VARSIZE p len :
  4 <= Z.of_nat (length p) -> 0 <= len < 2^30 ->
  VARATT_IS_1B (SET_VARSIZE p len) = false
  /\ VARATT_IS_1B_E (SET_VARSIZE p len) = false
  /\ VARATT_IS_4B_C (SET_VARSIZE p len) = false.
Proof.
  intros Hp Hl.
  unfold VARATT_IS_1B, VARATT_IS_1B_E, VARATT_IS_4B_C, va_header_1b,
    SET_VARSIZE, SET_VARSIZE_4B.
  rewrite shl2_small by exact Hl.
  rewrite first_byte_store by exact Hp.
  assert (E1 : Z.land ((4 * len) mod 256) 0x01 = 0).
  { change 0x01 with (Z.ones 1). rewrite low_bits_of_byte by lia.
    change (2^1) with 2. replace (4 * len) with (2 * len * 2) by lia.
    apply Z.mod_mul. lia. }
  assert (E2 : Z.land ((4 * len) mod 256) 0x03 = 0).
  { change 0x03 with (Z.ones 2). rewrite low_bits_of_byte by lia.
    change (2^2) with 4. rewrite Z.mul_comm. apply Z.mod_mul. lia. }
  rewrite E1, E2. repeat split; try reflexivity.
  apply Z.eqb_neq. intros E. rewrite E in E1. discriminate E1.
Qed.

Lemma kind_SET_VARSIZE_COMPRESSED p len :
  4 <= Z.of_nat (length p) -> 0 <= len < 2^30 ->
  VARATT_IS_1B_E (SET_VARSIZE_COMPRESSED p len) = false
  /\ VARATT_IS_4B_C (SET_VARSIZE_COMPRESSED p len) = true.
Proof.
  intros Hp Hl.
  unfold VARATT_IS_1B_E, VARATT_IS_4B_C, va_header_1b,
    SET_VARSIZE_COMPRESSED, SET_VARSIZE_4B_C.
  rewrite header_4b_c_value by exact Hl.
  rewrite first_byte_store by exact Hp.
  assert (E2 : Z.land ((4 * len + 2) mod 256) 0x03 = 2).
  { change 0x03 with (Z.ones 2). rewrite low_bits_of_byte by lia.
    change (2^2) with 4. rewrite Z.add_comm, Z.mul_comm, Z.mod_add by lia.
    reflexivity. }
  rewrite E2. split; [|reflexivity].
  apply Z.eqb_neq. intros E. rewrite E in E2. discriminate E2.
Qed.

(** The store of [va_tcinfo] leaves the first header byte alone. *)
Lemma kind_after_SET p len m :
  8 <= Z.of_nat (length p) ->
  va_header_1b (TOAST_COMPRESS_SET_SIZE_AND_COMPRESS_METHOD p len m)
  = va_header_1b p.
Proof.
  intros Hp.
  unfold va_header_1b, TOAST_COMPRESS_SET_SIZE_AND_COMPRESS_METHOD,
    store_u32, load_u8, mem_write.
  rewrite app_nth1 by (rewrite length_firstn; lia).
  now rewrite nth_firstn.
Qed.

Lemma VARDATA_SET_VARSIZE p len :
  4 <= Z.of_nat (length p) ->
  VARDATA (SET_VARSIZE p len) = VARDATA p.
Proof.
  intros Hp. unfold VARDATA, VARDATA_4B, SET_VARSIZE, SET_VARSIZE_4B.
  apply ptr_add_store_u32; lia.
Qed.

Lemma payload_SET_VARSIZE_COMPRESSED p len :
  4 <= Z.of_nat (length p) ->
  ptr_add (SET_VARSIZE_COMPRESSED p len) VARHDRSZ_COMPRESSED
  = ptr_add p VARHDRSZ_COMPRESSED.
Proof.
  intros Hp. unfold SET_VARSIZE_COMPRESSED, SET_VARSIZE_4B_C.
  apply ptr_add_store_u32; unfold VARHDRSZ_COMPRESSED; lia.
Qed.

Lemma length_SET_VARSIZE p len :
  4 <= Z.of_nat (length p) -> length (SET_VARSIZE p len) = length p.
Proof.
  intros. unfold SET_VARSIZE, SET_VARSIZE_4B. apply length_store_u32; lia.
Qed.

Lemma length_SET_VARSIZE_COMPRESSED p len :
  4 <= Z.of_nat (length p) ->
  length (SET_VARSIZE_COMPRESSED p len) = length p.
Proof.
  intros. unfold SET_VARSIZE_COMPRESSED, SET_VARSIZE_4B_C.
  apply length_store_u32; lia.
Qed.

(** What the caller's [va_tcinfo] store changes and what it leaves alone. *)
Lemma tcinfo_value len m :
  0 <= len < 2^30 -> 0 <= m < 4 ->
  Z.lor (uint32 len) (uint32 (Z.shiftl (uint32 m) VARLENA_EXTSIZE_BITS))
  = len + m * 2^30.
Proof.
  intros Hl Hm. unfold VARLENA_EXTSIZE_BITS.
  rewrite (uint32_small len), (uint32_small m) by lia.
  rewrite Z.shiftl_mul_pow2 by lia.
  rewrite uint32_small by lia.
  apply lor_low_high; lia.
Qed.

Lemma EXTSIZE_after_SET p len m :
  8 <= Z.of_nat (length p) -> 0 <= len < 2^30 -> 0 <= m < 4 ->
  VARDATA_COMPRESSED_GET_EXTSIZE
    (TOAST_COMPRESS_SET_SIZE_AND_COMPRESS_METHOD p len m) = len.
Proof.
  intros Hp Hl Hm.
  unfold VARDATA_COMPRESSED_GET_EXTSIZE, va_tcinfo,
    TOAST_COMPRESS_SET_SIZE_AND_COMPRESS_METHOD.
  rewrite tcinfo_value by assumption.
  rewrite load_store_u32 by lia.
  change VARLENA_EXTSIZE_MASK with (Z.ones 30).
  rewrite Z.land_ones by lia.
  rewrite Z.mod_add by lia. apply Z.mod_small. lia.
Qed.

Lemma METHOD_after_SET p len m :
  8 <= Z.of_nat (length p) -> 0 <= len < 2^30 -> 0 <= m < 4 ->
  VARDATA_COMPRESSED_GET_COMPRESS_METHOD
    (TOAST_COMPRESS_SET_SIZE_AND_COMPRESS_METHOD p len m) = m.
Proof.
  intros Hp Hl Hm.
  unfold VARDATA_COMPRESSED_GET_COMPRESS_METHOD, va_tcinfo,
    TOAST_COMPRESS_SET_SIZE_AND_COMPRESS_METHOD.
  rewrite tcinfo_value by assumption.
  rewrite load_store_u32 by lia.
  unfold VARLENA_EXTSIZE_BITS. rewrite Z.shiftr_div_pow2 by lia.
  rewrite Z.div_add by lia. rewrite Z.div_small; lia.
Qed.

Lemma VARSIZE_after_SET p len m :
  8 <= Z.of_nat (length p) ->
  VARSIZE (TOAST_COMPRESS_SET_SIZE_AND_COMPRESS_METHOD p len m) = VARSIZE p.
Proof.
  intros Hp.
  unfold VARSIZE, VARSIZE_4B, va_header_4b,
    TOAST_COMPRESS_SET_SIZE_AND_COMPRESS_METHOD.
  f_equal. f_equal.
  unfold load_u32, store_u32, load_u8, mem_write.
  rewrite !app_nth1 by (rewrite length_firstn; lia).
  rewrite !nth_firstn.
  reflexivity.
Qed.

Lemma payload_after_SET p len m :
  8 <= Z.of_nat (length p) ->
  ptr_add (TOAST_COMPRESS_SET_SIZE_AND_COMPRESS_METHOD p len m)
          VARHDRSZ_COMPRESSED
  = ptr_add p VARHDRSZ_COMPRESSED.
Proof.
  intros Hp. unfold TOAST_COMPRESS_SET_SIZE_AND_COMPRESS_METHOD.
  apply ptr_add_store_u32; unfold VARHDRSZ_COMPRESSED; lia.
Qed.

(** A freshly sized plain datum holds the bytes that follow its header. *)
Lemma holds_SET_VARSIZE p B rest :
  4 <= Z.of_nat (length p) ->
  Z.of_nat (length B) + VARHDRSZ < 2^30 ->
  VARDATA p = B ++ rest ->
  holds VARTAG_SIZE (SET_VARSIZE p (Z.of_nat (length B) + VARHDRSZ)) B.
Proof.
  intros Hp Hb Hd.
  assert (Hl : 0 <= Z.of_nat (length B) + VARHDRSZ < 2^30)
    by (unfold VARHDRSZ in *; lia).
  destruct (kind_SET_VARSIZE p _ Hp Hl) as (K1 & K2 & _).
  assert (Hs : VARSIZE_ANY_EXHDR VARTAG_SIZE
                 (SET_VARSIZE p (Z.of_nat (length B) + VARHDRSZ))
               = Z.of_nat (length B)).
  { unfold VARSIZE_ANY_EXHDR. rewrite K2, K1.
    fold VARSIZE. rewrite VARSIZE_SET_VARSIZE by assumption. lia. }
  split; [exact Hs|].
  unfold datum_of. rewrite Hs. unfold VARDATA_ANY. rewrite K1.
  fold VARDATA. rewrite VARDATA_SET_VARSIZE by exact Hp.
  rewrite Hd. now apply mem_read_app_exact.
Qed.

End Header.

End VarattFacts.
Import VarattFacts.

Module FrameFacts.

Lemma VARSIZE_range p : 0 <= VARSIZE p < 2^30.
Proof.
  unfold VARSIZE, VARSIZE_4B. change 0x3FFFFFFF with (Z.ones 30).
  rewrite Z.land_ones by lia. apply Z.mod_pos_bound. lia.
Qed.

Lemma length_mem_write_ge p off data :
  0 <= off <= Z.of_nat (length p) ->
  off + Z.of_nat (length data) <= Z.of_nat (length (mem_write p off data)).
Proof.
  intros H. unfold mem_write.
  rewrite !length_app, length_firstn. lia.
Qed.

Lemma framed_compressed tmp out :
  VARHDRSZ_COMPRESSED <= Z.of_nat (length tmp) ->
  Z.of_nat (length out) + VARHDRSZ_COMPRESSED < 2^30 ->
  framed VARHDRSZ_COMPRESSED
    (SET_VARSIZE_COMPRESSED (mem_write tmp VARHDRSZ_COMPRESSED out)
       (Z.of_nat (length out) + VARHDRSZ_COMPRESSED)) out.
Proof.
  assert (E : VARHDRSZ_COMPRESSED = 8) by reflexivity.
  intros Ht Ho.
  pose proof (length_mem_write_ge tmp VARHDRSZ_COMPRESSED out ltac:(lia))
    as Hw.
  repeat split.
  - rewrite length_SET_VARSIZE_COMPRESSED; lia.
  - apply VARSIZE_SET_VARSIZE_COMPRESSED; lia.
  - exists (skipn (Z.to_nat VARHDRSZ_COMPRESSED + length out) tmp).
    rewrite payload_SET_VARSIZE_COMPRESSED by lia.
    apply ptr_add_mem_write; lia.
Qed.

Lemma framed_plain tmp out :
  VARHDRSZ <= Z.of_nat (length tmp) ->
  Z.of_nat (length out) + VARHDRSZ < 2^30 ->
  framed VARHDRSZ
    (SET_VARSIZE (mem_write tmp VARHDRSZ out)
       (Z.of_nat (length out) + VARHDRSZ)) out.
Proof.
  assert (E : VARHDRSZ = 4) by reflexivity.
  intros Ht Ho.
  pose proof (length_mem_write_ge tmp VARHDRSZ out ltac:(lia)) as Hw.
  repeat split.
  - rewrite length_SET_VARSIZE; lia.
  - apply VARSIZE_SET_VARSIZE; lia.
  - exists (skipn (Z.to_nat VARHDRSZ + length out) tmp).
    change (ptr_add ?p VARHDRSZ) with (VARDATA p).
    rewrite VARDATA_SET_VARSIZE by lia.
    apply ptr_add_mem_write; lia.
Qed.

(** Recording the raw size in [va_tcinfo] leaves the frame as it is. *)
Lemma framed_after_SET c out len m :
  framed VARHDRSZ_COMPRESSED c out ->
  framed VARHDRSZ_COMPRESSED
    (TOAST_COMPRESS_SET_SIZE_AND_COMPRESS_METHOD c len m) out.
Proof.
  assert (E : VARHDRSZ_COMPRESSED = 8) by reflexivity.
  intros (Hl & Hs & rest & Hr).
  repeat split.
  - unfold TOAST_COMPRESS_SET_SIZE_AND_COMPRESS_METHOD.
    rewrite length_store_u32; lia.
  - rewrite VARSIZE_after_SET by lia. exact Hs.
  - exists rest. rewrite <- Hr. apply payload_after_SET. lia.
Qed.

(** The source bytes a decompress routine passes to its library. *)
Lemma framed_source hdr c out :
  0 <= hdr -> framed hdr c out ->
  mem_read (ptr_add c hdr) (VARSIZE c - hdr) = out.
Proof.
  intros Hh (_ & Hs & rest & Hr). rewrite Hr, Hs.
  apply mem_read_app_exact. lia.
Qed.

Lemma framed_length_bound hdr c out :
  framed hdr c out -> Z.of_nat (length out) + hdr < 2^30.
Proof.
  intros (_ & Hs & _). pose proof (VARSIZE_range c). lia.
Qed.

Section Results.

Variable VARTAG_SIZE : Z -> Z.

(** The datum a decompress routine builds: the decoded bytes [d] stored
    behind a 4-byte header that records [k] of them. *)
Lemma built_result_holds r0 d k :
  VARHDRSZ <= Z.of_nat (length r0) ->
  0 <= k <= Z.of_nat (length d) -> k + VARHDRSZ < 2^30 ->
  holds VARTAG_SIZE (SET_VARSIZE (mem_write r0 VARHDRSZ d) (k + VARHDRSZ))
        (firstn (Z.to_nat k) d).
Proof.
  assert (E : VARHDRSZ = 4) by reflexivity.
  intros Hr Hk Hb.
  pose proof (length_mem_write_ge r0 VARHDRSZ d ltac:(lia)) as Hw.
  assert (Hlen : Z.of_nat (length (firstn (Z.to_nat k) d)) = k)
    by (rewrite length_firstn; lia).
  rewrite <- Hlen at 1.
  apply holds_SET_VARSIZE with
    (rest := skipn (Z.to_nat k) d ++ skipn (Z.to_nat VARHDRSZ + length d) r0).
  - lia.
  - lia.
  - unfold VARDATA, VARDATA_4B. change 4 with VARHDRSZ.
    rewrite ptr_add_mem_write by lia.
    rewrite app_assoc, firstn_skipn. reflexivity.
Qed.

Lemma built_result_holds_all r0 d :
  VARHDRSZ <= Z.of_nat (length r0) ->
  Z.of_nat (length d) + VARHDRSZ < 2^30 ->
  holds VARTAG_SIZE
        (SET_VARSIZE (mem_write r0 VARHDRSZ d)
           (Z.of_nat (length d) + VARHDRSZ)) d.
Proof.
  intros Hr Hb.
  pose proof (built_result_holds r0 d (Z.of_nat (length d)) Hr
                ltac:(lia) Hb) as H.
  now rewrite Nat2Z.id, firstn_all in H.
Qed.

End Results.

End FrameFacts.
Import FrameFacts.

(** ** What each routine returns *)

Module RoutineFacts.

Ltac step_bind :=
  rewrite result_bind; cbn [call result snd fst].

(** The common end of the pglz and LZ4 decompress routines: the buffer is
    granted, the library is handed the framed bytes [Hrd] and answers [Hl],
    a non-negative count [n] of bytes that fits a header [Hb]. *)
Ltac decode_into_result Hrd Hl Hb n :=
  step_bind; rewrite palloc_ok by lia; cbn [result snd]; step_bind;
  rewrite int32_small by lia; rewrite Hrd, Hl;
  let En := fresh "En" in
  destruct (n <? 0) eqn:En; [apply Z.ltb_lt in En; lia|];
  eexists; split; [reflexivity|]; subst n;
  apply built_result_holds_all; [|exact Hb];
  rewrite length_fresh; lia.

Section Facts.

Variable VARTAG_SIZE : Z -> Z.
Variable junk : nat -> byte.

Lemma valsize_of_holds value B :
  holds VARTAG_SIZE value B -> supported_length B ->
  int32 (VARSIZE_ANY_EXHDR VARTAG_SIZE value) = Z.of_nat (length B)
  /\ mem_read (VARDATA_ANY value) (Z.of_nat (length B)) = B.
Proof.
  intros [Hs Hd] Hb. unfold supported_length, MaxAllocSize in Hb.
  rewrite Hs. split.
  - apply int32_small. lia.
  - unfold datum_of in Hd. now rewrite Hs in Hd.
Qed.

(** *** pglz *)

Section PglzFacts.

Variable lib : pglz_library.

Lemma pglz_compress_datum_inv value B c :
  holds VARTAG_SIZE value B -> supported_length B ->
  returns (pglz_compress_datum VARTAG_SIZE junk lib value) (Some c) ->
  let n := Z.of_nat (length B) in
  0 <= fst (pglz_compress lib B)
  /\ c = SET_VARSIZE_COMPRESSED
           (mem_write (fresh junk (PGLZ_MAX_OUTPUT n + VARHDRSZ_COMPRESSED))
                      VARHDRSZ_COMPRESSED (snd (pglz_compress lib B)))
           (fst (pglz_compress lib B) + VARHDRSZ_COMPRESSED).
Proof.
  intros Hh Hb. destruct (valsize_of_holds _ _ Hh Hb) as [Hv Hd].
  unfold supported_length, MaxAllocSize in Hb.
  unfold returns, pglz_compress_datum. rewrite Hv, Hd.
  destruct (_ || _); [discriminate|].
  unfold PGLZ_MAX_OUTPUT, VARHDRSZ_COMPRESSED.
  rewrite int32_small by lia.
  step_bind. rewrite palloc_ok by (unfold MaxAllocSize; lia).
  cbn [result snd]. step_bind.
  destruct (pglz_compress lib B) as [len out]. cbn [fst snd].
  destruct (len <? 0) eqn:El.
  - step_bind. discriminate.
  - cbn. intros [= <-]. apply Z.ltb_ge in El. now split.
Qed.

Lemma pglz_decompress_datum_framed value src n d :
  framed VARHDRSZ_COMPRESSED value src ->
  VARDATA_COMPRESSED_GET_EXTSIZE value + VARHDRSZ <= MaxAllocSize ->
  pglz_decompress lib src (VARDATA_COMPRESSED_GET_EXTSIZE value) true
  = (n, d) ->
  Z.of_nat (length d) = n -> n + VARHDRSZ < 2^30 ->
  exists r, returns (pglz_decompress_datum junk lib value) r
            /\ holds VARTAG_SIZE r d.
Proof.
  intros Hf Ha Hl Hn Hb.
  assert (E4 : VARHDRSZ = 4) by reflexivity.
  assert (E8 : VARHDRSZ_COMPRESSED = 8) by reflexivity.
  pose proof (framed_length_bound _ _ _ Hf) as Hsrc.
  pose proof (framed_source VARHDRSZ_COMPRESSED _ _ ltac:(lia) Hf) as Hrd.
  destruct Hf as (_ & Hs & _).
  assert (He : 0 <= VARDATA_COMPRESSED_GET_EXTSIZE value).
  { unfold VARDATA_COMPRESSED_GET_EXTSIZE.
    change VARLENA_EXTSIZE_MASK with (Z.ones 30).
    rewrite Z.land_ones by lia. apply Z.mod_pos_bound. lia. }
  unfold returns, pglz_decompress_datum.
  rewrite uint32_small by (unfold MaxAllocSize in Ha; lia).
  decode_into_result Hrd Hl Hb n.
Qed.

Lemma pglz_decompress_datum_slice_framed value src k n d :
  framed VARHDRSZ_COMPRESSED value src ->
  0 <= k -> k + VARHDRSZ <= MaxAllocSize ->
  pglz_decompress lib src k false = (n, d) ->
  Z.of_nat (length d) = n -> n + VARHDRSZ < 2^30 ->
  exists r, returns (pglz_decompress_datum_slice junk lib value k) r
            /\ holds VARTAG_SIZE r d.
Proof.
  intros Hf Hk Ha Hl Hn Hb.
  assert (E4 : VARHDRSZ = 4) by reflexivity.
  assert (E8 : VARHDRSZ_COMPRESSED = 8) by reflexivity.
  pose proof (framed_length_bound _ _ _ Hf) as Hsrc.
  pose proof (framed_source VARHDRSZ_COMPRESSED _ _ ltac:(lia) Hf) as Hrd.
  destruct Hf as (_ & Hs & _).
  unfold returns, pglz_decompress_datum_slice.
  rewrite (int32_small (k + VARHDRSZ)) by (unfold MaxAllocSize in Ha; lia).
  decode_into_result Hrd Hl Hb n.
Qed.

End PglzFacts.

(** *** LZ4 *)

Section Lz4Facts.

Variable USE_LZ4 : bool.
Variable lib : lz4_library.

Lemma lz4_compress_datum_inv value B c :
  holds VARTAG_SIZE value B -> supported_length B ->
  returns (lz4_compress_datum VARTAG_SIZE junk USE_LZ4 lib value) (Some c) ->
  let n := Z.of_nat (length B) in
  let max_size := int32 (LZ4_compressBound lib n) in
  let r := LZ4_compress_default lib B max_size in
  USE_LZ4 = true /\ 0 < fst r <= n
  /\ size_t (max_size + VARHDRSZ_COMPRESSED) <= MaxAllocSize
  /\ c = SET_VARSIZE_COMPRESSED
           (mem_write (fresh junk (size_t (max_size + VARHDRSZ_COMPRESSED)))
                      VARHDRSZ_COMPRESSED (snd r))
           (fst r + VARHDRSZ_COMPRESSED).
Proof.
  intros Hh Hb. destruct (valsize_of_holds _ _ Hh Hb) as [Hv Hd].
  unfold returns, lz4_compress_datum. rewrite Hv, Hd.
  destruct USE_LZ4; [|discriminate]. cbn [negb].
  step_bind.
  destruct (result (palloc junk _)) as [tmp|e] eqn:Ep; [|discriminate].
  apply palloc_returns in Ep. destruct Ep as [Hsz ->].
  step_bind.
  destruct (LZ4_compress_default lib B _) as [len out]. cbn [fst snd].
  destruct (len <=? 0) eqn:E0; [discriminate|].
  destruct (len >? Z.of_nat (length B)) eqn:E1.
  - step_bind. discriminate.
  - cbn. intros [= <-].
    apply Z.leb_gt in E0. rewrite Z.gtb_ltb in E1. apply Z.ltb_ge in E1.
    repeat split; auto; lia.
Qed.

Lemma lz4_decompress_datum_framed value src n d :
  USE_LZ4 = true ->
  framed VARHDRSZ_COMPRESSED value src ->
  VARDATA_COMPRESSED_GET_EXTSIZE value + VARHDRSZ <= MaxAllocSize ->
  LZ4_decompress_safe lib src (VARDATA_COMPRESSED_GET_EXTSIZE value)
  = (n, d) ->
  Z.of_nat (length d) = n -> n + VARHDRSZ < 2^30 ->
  exists r, returns (lz4_decompress_datum junk USE_LZ4 lib value) r
            /\ holds VARTAG_SIZE r d.
Proof.
  intros Hu Hf Ha Hl Hn Hb.
  assert (E4 : VARHDRSZ = 4) by reflexivity.
  assert (E8 : VARHDRSZ_COMPRESSED = 8) by reflexivity.
  pose proof (framed_length_bound _ _ _ Hf) as Hsrc.
  pose proof (framed_source VARHDRSZ_COMPRESSED _ _ ltac:(lia) Hf) as Hrd.
  destruct Hf as (_ & Hs & _).
  assert (He : 0 <= VARDATA_COMPRESSED_GET_EXTSIZE value).
  { unfold VARDATA_COMPRESSED_GET_EXTSIZE.
    change VARLENA_EXTSIZE_MASK with (Z.ones 30).
    rewrite Z.land_ones by lia. apply Z.mod_pos_bound. lia. }
  unfold returns, lz4_decompress_datum. rewrite Hu. cbn [negb].
  rewrite uint32_small by (unfold MaxAllocSize in Ha; lia).
  decode_into_result Hrd Hl Hb n.
Qed.

(** Before 1.8.3 the slice routine is the full routine. *)
Lemma lz4_slice_old_version value slicelength :
  LZ4_versionNumber lib < 10803 ->
  lz4_decompress_datum_slice junk USE_LZ4 lib value slicelength
  = lz4_decompress_datum junk USE_LZ4 lib value.
Proof.
  intros Hv. unfold lz4_decompress_datum_slice, lz4_decompress_datum.
  destruct USE_LZ4; cbn [negb]; [|reflexivity].
  apply Z.ltb_lt in Hv. now rewrite Hv.
Qed.

Lemma lz4_decompress_datum_slice_framed value src k n d :
  USE_LZ4 = true -> 10803 <= LZ4_versionNumber lib ->
  framed VARHDRSZ_COMPRESSED value src ->
  0 <= k -> k + VARHDRSZ <= MaxAllocSize ->
  LZ4_decompress_safe_partial lib src k k = (n, d) ->
  Z.of_nat (length d) = n -> n + VARHDRSZ < 2^30 ->
  exists r, returns (lz4_decompress_datum_slice junk USE_LZ4 lib value k) r
            /\ holds VARTAG_SIZE r d.
Proof.
  intros Hu Hver Hf Hk Ha Hl Hn Hb.
  assert (E4 : VARHDRSZ = 4) by reflexivity.
  assert (E8 : VARHDRSZ_COMPRESSED = 8) by reflexivity.
  pose proof (framed_length_bound _ _ _ Hf) as Hsrc.
  pose proof (framed_source VARHDRSZ_COMPRESSED _ _ ltac:(lia) Hf) as Hrd.
  destruct Hf as (_ & Hs & _).
  unfold returns, lz4_decompress_datum_slice. rewrite Hu. cbn [negb].
  apply Z.ltb_ge in Hver. rewrite Hver.
  rewrite (int32_small (k + VARHDRSZ)) by (unfold MaxAllocSize in Ha; lia).
  decode_into_result Hrd Hl Hb n.
Qed.

End Lz4Facts.

(** *** Zstandard *)

Section ZstdFacts.

Variable USE_ZSTD : bool.
Variable lib : zstd_library.

Lemma zstd_compress_datum_inv value B c :
  holds VARTAG_SIZE value B -> supported_length B ->
  returns (zstd_compress_datum VARTAG_SIZE junk USE_ZSTD lib value) (Some c) ->
  let n := Z.of_nat (length B) in
  let max_size := size_t (ZSTD_compressBound lib n) in
  let r := ZSTD_compress lib max_size B 3 in
  USE_ZSTD = true /\ 32 <= n
  /\ ZSTD_isError lib (fst r) = false /\ fst r < n
  /\ size_t (max_size + VARHDRSZ) <= MaxAllocSize
  /\ c = SET_VARSIZE
           (mem_write (fresh junk (size_t (max_size + VARHDRSZ)))
                      VARHDRSZ (snd r))
           (fst r + VARHDRSZ).
Proof.
  intros Hh Hb. destruct (valsize_of_holds _ _ Hh Hb) as [Hv Hd].
  unfold supported_length, MaxAllocSize in Hb.
  unfold returns, zstd_compress_datum. rewrite Hv, Hd.
  destruct USE_ZSTD; [|discriminate]. cbn [negb].
  destruct (Z.of_nat (length B) <? 32) eqn:E32; [discriminate|].
  rewrite (size_t_small (Z.of_nat (length B))) by lia.
  step_bind.
  destruct (result (palloc junk _)) as [tmp|e] eqn:Ep; [|discriminate].
  apply palloc_returns in Ep. destruct Ep as [Hsz ->].
  step_bind.
  destruct (ZSTD_compress lib _ B 3) as [len out]. cbn [fst snd].
  destruct (ZSTD_isError lib len) eqn:Ee; [discriminate|].
  destruct (len >=? Z.of_nat (length B)) eqn:E1.
  - step_bind. discriminate.
  - cbn. intros [= <-].
    apply Z.ltb_ge in E32. rewrite Z.geb_leb in E1. apply Z.leb_gt in E1.
    repeat split; auto.
Qed.

Lemma zstd_decompress_datum_framed value src rawsize n d :
  USE_ZSTD = true ->
  framed VARHDRSZ value src ->
  0 <= rawsize -> rawsize + VARHDRSZ <= MaxAllocSize ->
  ZSTD_decompress lib rawsize src = (n, d) ->
  ZSTD_isError lib n = false ->
  Z.of_nat (length d) = n -> n + VARHDRSZ < 2^30 ->
  exists r, returns (zstd_decompress_datum junk USE_ZSTD lib value rawsize) r
            /\ holds VARTAG_SIZE r d.
Proof.
  intros Hu Hf Hr Ha Hl He Hn Hb.
  assert (E4 : VARHDRSZ = 4) by reflexivity.
  pose proof (framed_length_bound _ _ _ Hf) as Hsrc.
  pose proof (framed_source VARHDRSZ _ _ ltac:(lia) Hf) as Hrd.
  destruct Hf as (_ & Hs & _).
  unfold MaxAllocSize in Ha.
  unfold returns, zstd_decompress_datum. rewrite Hu. cbn [negb].
  rewrite (int32_small (rawsize + VARHDRSZ)) by lia.
  step_bind. rewrite palloc_ok by (unfold MaxAllocSize; lia).
  cbn [result snd]. step_bind.
  rewrite uint32_small by lia. rewrite size_t_small by lia.
  rewrite Hrd, Hl, He.
  eexists. split; [reflexivity|]. subst n.
  apply built_result_holds_all; [|exact Hb].
  rewrite length_fresh; lia.
Qed.

(** The slice routine below the raw size: the whole frame is decoded and
    the header records [slicelength], whatever the decoder returned. *)
Lemma zstd_decompress_datum_slice_below value src rawsize slicelength n d :
  USE_ZSTD = true ->
  framed VARHDRSZ value src ->
  slicelength < rawsize -> rawsize + VARHDRSZ <= MaxAllocSize ->
  0 <= rawsize ->
  ZSTD_decompress lib rawsize src = (n, d) ->
  ZSTD_isError lib n = false ->
  returns (zstd_decompress_datum_slice junk USE_ZSTD lib value rawsize
             slicelength)
          (SET_VARSIZE (mem_write (fresh junk (rawsize + VARHDRSZ)) VARHDRSZ d)
                       (slicelength + VARHDRSZ)).
Proof.
  intros Hu Hf Hlt Ha Hr Hl He.
  assert (E4 : VARHDRSZ = 4) by reflexivity.
  pose proof (framed_length_bound _ _ _ Hf) as Hsrc.
  pose proof (framed_source VARHDRSZ _ _ ltac:(lia) Hf) as Hrd.
  destruct Hf as (_ & Hs & _).
  unfold MaxAllocSize in Ha.
  unfold returns, zstd_decompress_datum_slice. rewrite Hu. cbn [negb].
  rewrite Z.geb_leb. apply Z.leb_gt in Hlt. rewrite Hlt.
  rewrite (int32_small (rawsize + VARHDRSZ)) by lia.
  step_bind. rewrite palloc_ok by (unfold MaxAllocSize; lia).
  cbn [result snd]. step_bind.
  rewrite uint32_small by lia. rewrite size_t_small by lia.
  rewrite Hrd, Hl, He. reflexivity.
Qed.

End ZstdFacts.

End Facts.

End RoutineFacts.
Import RoutineFacts.

(** * The properties the specification states *)

Section CodecClaims.

Variable VARTAG_SIZE : Z -> Z.
Variable junk : nat -> byte.
Variable USE_LZ4 USE_ZSTD : bool.
Variable pglz : pglz_library.
Variable lz4 : lz4_library.
Variable zstd : zstd_library.

Local Abbreviation compress :=
  (Codec.compress VARTAG_SIZE junk USE_LZ4 USE_ZSTD pglz lz4 zstd).
Local Abbreviation decompress :=
  (Codec.decompress junk USE_LZ4 USE_ZSTD pglz lz4 zstd).
Local Abbreviation decompress_slice :=
  (Codec.decompress_slice junk USE_LZ4 USE_ZSTD pglz lz4 zstd).
Local Abbreviation holds := (Varatt.holds VARTAG_SIZE).

(** The value a compress routine returned is a frame around the bytes its
    algorithm stored. *)
Lemma compress_framed m value B c :
  supported_length B -> holds value B ->
  returns (compress m value) (Some c) ->
  writes_within_bound pglz lz4 zstd m B ->
  available USE_LZ4 USE_ZSTD m = true
  /\ framed (match m with ZSTD => VARHDRSZ | _ => VARHDRSZ_COMPRESSED end)
            c (snd (algorithm_output pglz lz4 zstd m B))
  /\ algorithm_error zstd m (fst (algorithm_output pglz lz4 zstd m B)) = false.
Proof.
  intros Hsup Hh Hret Hw.
  assert (E4 : VARHDRSZ = 4) by reflexivity.
  assert (E8 : VARHDRSZ_COMPRESSED = 8) by reflexivity.
  pose proof Hsup as Hsup'. unfold supported_length, MaxAllocSize in Hsup'.
  unfold writes_within_bound in Hw.
  destruct m; cbn [Codec.compress algorithm_output available algorithm_error]
    in *.
  - pose proof (pglz_compress_datum_inv _ _ _ _ _ _ Hh Hsup Hret) as [Hl Hc].
    destruct (pglz_compress pglz B) as [len out]. cbn [fst snd] in *.
    destruct Hw as [Hlo Hb]. unfold PGLZ_MAX_OUTPUT in *.
    split; [reflexivity|split].
    + subst c len. apply framed_compressed; [rewrite length_fresh|]; lia.
    + apply Z.ltb_ge. exact Hl.
  - pose proof (lz4_compress_datum_inv _ _ _ _ _ _ _ Hh Hsup Hret)
      as (Hu & Hl & Hsz & Hc).
    destruct (LZ4_compress_default lz4 B _) as [len out]. cbn [fst snd] in *.
    destruct Hw as [Hlo Hb].
    pose proof (int32_range (LZ4_compressBound lz4 (Z.of_nat (length B))))
      as Hr.
    rewrite size_t_small in Hc by lia.
    split; [exact Hu|split]; [|apply Z.leb_gt; lia].
    subst c len. apply framed_compressed; [rewrite length_fresh|]; lia.
  - pose proof (zstd_compress_datum_inv _ _ _ _ _ _ _ Hh Hsup Hret)
      as (Hu & H32 & He & Hl & Hsz & Hc).
    destruct (ZSTD_compress zstd _ B 3) as [len out]. cbn [fst snd] in *.
    destruct Hw as [Hlo Hb].
    pose proof (size_t_range (ZSTD_compressBound zstd (Z.of_nat (length B))))
      as Hr.
    rewrite (size_t_small (_ + _)) in Hc by lia.
    split; [exact Hu|split]; [|exact He].
    subst c len. apply framed_plain; [rewrite length_fresh|]; lia.
Qed.

(** C1.  Round trip: for every available method and every buffer [B] of a
    supported length, if the method's compress operation returns a value
    then decompressing that value, with the raw size [length B] recorded for
    it, returns a datum holding exactly [B].  The libraries are taken at
    their word at [B]: the compressor stored what it reported and its own
    decoder maps that back to [B]. *)
Theorem roundtrip m value B c :
  available USE_LZ4 USE_ZSTD m = true ->
  supported_length B ->
  holds value B ->
  returns (compress m value) (Some c) ->
  writes_within_bound pglz lz4 zstd m B ->
  decodes_own_output pglz lz4 zstd m B ->
  exists r, returns (decompress m c (Z.of_nat (length B))) r /\ holds r B.
Proof.
  intros _ Hsup Hh Hret Hw Hd.
  destruct (compress_framed _ _ _ _ Hsup Hh Hret Hw) as (Hav & Hf & _).
  assert (E4 : VARHDRSZ = 4) by reflexivity.
  assert (E8 : VARHDRSZ_COMPRESSED = 8) by reflexivity.
  unfold supported_length, MaxAllocSize in Hsup.
  unfold decodes_own_output in Hd.
  destruct m; cbn [Codec.decompress available] in *.
  - set (out := snd (algorithm_output pglz lz4 zstd PGLZ B)) in *.
    pose proof (framed_after_SET _ _ (Z.of_nat (length B))
                  TOAST_PGLZ_COMPRESSION_ID Hf) as Hf'.
    destruct Hf as (Hlen & _).
    apply pglz_decompress_datum_framed with (src := out)
      (n := Z.of_nat (length B)); try assumption; try lia;
      rewrite EXTSIZE_after_SET by (unfold TOAST_PGLZ_COMPRESSION_ID; lia);
      [unfold MaxAllocSize; lia | exact Hd].
  - set (out := snd (algorithm_output pglz lz4 zstd LZ4 B)) in *.
    pose proof (framed_after_SET _ _ (Z.of_nat (length B))
                  TOAST_LZ4_COMPRESSION_ID Hf) as Hf'.
    destruct Hf as (Hlen & _).
    apply lz4_decompress_datum_framed with (src := out)
      (n := Z.of_nat (length B)); try assumption; try lia;
      rewrite EXTSIZE_after_SET by (unfold TOAST_LZ4_COMPRESSION_ID; lia);
      [unfold MaxAllocSize; lia | exact Hd].
  - set (out := snd (algorithm_output pglz lz4 zstd ZSTD B)) in *.
    destruct Hd as [Hd He].
    apply zstd_decompress_datum_framed with (src := out)
      (n := Z.of_nat (length B)); try assumption; try lia.
    unfold MaxAllocSize; lia.
Qed.

(** At and above the raw size the Zstandard slice routine is the full
    routine. *)
Lemma zstd_slice_at_least value rawsize slicelength :
  rawsize <= slicelength ->
  zstd_decompress_datum_slice junk USE_ZSTD zstd value rawsize slicelength
  = zstd_decompress_datum junk USE_ZSTD zstd value rawsize.
Proof.
  intros H. unfold zstd_decompress_datum_slice, zstd_decompress_datum.
  destruct USE_ZSTD; cbn [negb]; [|reflexivity].
  rewrite Z.geb_leb. apply Z.leb_le in H. now rewrite H.
Qed.

(** C2, amended.  Slice: for every available method, every buffer [B] of a
    supported length and every [0 <= k <= length B], if compress returns a
    value then decompress_slice of that value returns a datum whose first
    [k] bytes are the first [k] bytes of [B].  The datum holds exactly
    those [k] bytes, except for LZ4 linked against a library older than
    1.8.3, where it holds the whole of [B]. *)
Theorem slice_prefix m value B c k :
  available USE_LZ4 USE_ZSTD m = true ->
  supported_length B ->
  holds value B ->
  returns (compress m value) (Some c) ->
  0 <= k <= Z.of_nat (length B) ->
  writes_within_bound pglz lz4 zstd m B ->
  decodes_prefix pglz lz4 zstd m B k ->
  exists r,
    returns (decompress_slice m c (Z.of_nat (length B)) k) r
    /\ holds r (if slice_returns_whole lz4 m then B
                else firstn (Z.to_nat k) B)
    /\ firstn (Z.to_nat k) (datum_of VARTAG_SIZE r) = firstn (Z.to_nat k) B.
Proof.
  intros _ Hsup Hh Hret Hk Hw Hd.
  destruct (compress_framed _ _ _ _ Hsup Hh Hret Hw) as (Hav & Hf & _).
  assert (E4 : VARHDRSZ = 4) by reflexivity.
  assert (E8 : VARHDRSZ_COMPRESSED = 8) by reflexivity.
  unfold supported_length, MaxAllocSize in Hsup.
  unfold decodes_prefix in Hd.
  assert (Hlen : Z.of_nat (length (firstn (Z.to_nat k) B)) = k)
    by (rewrite length_firstn; lia).
  assert (Hpre : forall r, holds r (firstn (Z.to_nat k) B) ->
            firstn (Z.to_nat k) (datum_of VARTAG_SIZE r)
            = firstn (Z.to_nat k) B).
  { intros r [_ ->]. rewrite firstn_firstn. f_equal. lia. }
  assert (Hall : forall r, holds r B ->
            firstn (Z.to_nat k) (datum_of VARTAG_SIZE r)
            = firstn (Z.to_nat k) B).
  { intros r [_ ->]. reflexivity. }
  destruct m; cbn [Codec.decompress_slice available slice_returns_whole] in *.
  - set (out := snd (algorithm_output pglz lz4 zstd PGLZ B)) in *.
    pose proof (framed_after_SET _ _ (Z.of_nat (length B))
                  TOAST_PGLZ_COMPRESSION_ID Hf) as Hf'.
    destruct (pglz_decompress_datum_slice_framed VARTAG_SIZE junk pglz
                _ out k k (firstn (Z.to_nat k) B) Hf')
      as (r & Hr & Hhr); try assumption; try lia.
    + unfold MaxAllocSize; lia.
    + exists r. split; [exact Hr|split]; [exact Hhr|now apply Hpre].
  - set (out := snd (algorithm_output pglz lz4 zstd LZ4 B)) in *.
    pose proof (framed_after_SET _ _ (Z.of_nat (length B))
                  TOAST_LZ4_COMPRESSION_ID Hf) as Hf'.
    destruct Hf as (Hlc & _). destruct Hd as [Hfull Hpart].
    destruct (LZ4_versionNumber lz4 <? 10803) eqn:Ev.
    + apply Z.ltb_lt in Ev. rewrite lz4_slice_old_version by exact Ev.
      destruct (lz4_decompress_datum_framed VARTAG_SIZE junk USE_LZ4 lz4
                  _ out (Z.of_nat (length B)) B Hav Hf')
        as (r & Hr & Hhr); try lia;
        try (rewrite EXTSIZE_after_SET
               by (unfold TOAST_LZ4_COMPRESSION_ID; lia));
        [unfold MaxAllocSize; lia | exact Hfull |].
      exists r. split; [exact Hr|split]; [exact Hhr|now apply Hall].
    + apply Z.ltb_ge in Ev.
      destruct (lz4_decompress_datum_slice_framed VARTAG_SIZE junk USE_LZ4
                  lz4 _ out k k (firstn (Z.to_nat k) B) Hav Ev Hf')
        as (r & Hr & Hhr); try assumption; try lia.
      * unfold MaxAllocSize; lia.
      * exists r. split; [exact Hr|split]; [exact Hhr|now apply Hpre].
  - set (out := snd (algorithm_output pglz lz4 zstd ZSTD B)) in *.
    destruct Hd as [Hd He].
    destruct (Z_lt_le_dec k (Z.of_nat (length B))) as [Hlt|Hge].
    + pose proof (zstd_decompress_datum_slice_below junk USE_ZSTD zstd
                    c out (Z.of_nat (length B)) k (Z.of_nat (length B)) B
                    Hav Hf Hlt
                    ltac:(unfold MaxAllocSize; lia) ltac:(lia) Hd He) as Hr.
      eexists. split; [exact Hr|].
      assert (Hhr : holds
                (SET_VARSIZE
                   (mem_write (fresh junk (Z.of_nat (length B) + VARHDRSZ))
                              VARHDRSZ B) (k + VARHDRSZ))
                (firstn (Z.to_nat k) B)).
      { apply built_result_holds; [rewrite length_fresh|..]; lia. }
      split; [exact Hhr|now apply Hpre].
    + rewrite zstd_slice_at_least by exact Hge.
      destruct (zstd_decompress_datum_framed VARTAG_SIZE junk USE_ZSTD zstd
                  c out (Z.of_nat (length B)) (Z.of_nat (length B)) B
                  Hav Hf ltac:(lia)
                  ltac:(unfold MaxAllocSize; lia) Hd He eq_refl ltac:(lia))
        as (r & Hr & Hhr).
      exists r. assert (Ek : firstn (Z.to_nat k) B = B)
        by (apply firstn_all2; lia).
      split; [exact Hr|split]; [now rewrite Ek|now apply Hall].
Qed.

(** The value a compress routine returned passed the size gate its routine
    applies to what the algorithm reported. *)
Lemma compress_length_gate m value B c :
  supported_length B -> holds value B ->
  returns (compress m value) (Some c) ->
  let len := fst (algorithm_output pglz lz4 zstd m B) in
  let n := Z.of_nat (length B) in
  match m with
  | PGLZ => 0 <= len
  | LZ4 => 0 < len <= n
  | ZSTD => len < n
  end.
Proof.
  intros Hsup Hh Hret.
  destruct m; cbn [Codec.compress algorithm_output] in *.
  - now destruct (pglz_compress_datum_inv _ _ _ _ _ _ Hh Hsup Hret).
  - now destruct (lz4_compress_datum_inv _ _ _ _ _ _ _ Hh Hsup Hret)
      as (_ & Hl & _).
  - now destruct (zstd_compress_datum_inv _ _ _ _ _ _ _ Hh Hsup Hret)
      as (_ & _ & _ & Hl & _).
Qed.

(** The payload of a returned value is what the algorithm stored: strictly
    shorter than the input for Zstandard, at most as long for LZ4, and for
    pglz whatever pglz_compress answered. *)
Lemma compress_payload_length m value B c :
  supported_length B -> holds value B ->
  returns (compress m value) (Some c) ->
  writes_within_bound pglz lz4 zstd m B ->
  let n := Z.of_nat (length B) in
  payload_length m c = fst (algorithm_output pglz lz4 zstd m B)
  /\ match m with
     | PGLZ => 0 <= payload_length m c
     | LZ4 => 0 < payload_length m c <= n
     | ZSTD => payload_length m c < n
     end.
Proof.
  intros Hsup Hh Hret Hw n.
  destruct (compress_framed _ _ _ _ Hsup Hh Hret Hw) as (_ & Hf & _).
  pose proof (compress_length_gate _ _ _ _ Hsup Hh Hret) as Hg.
  destruct Hf as (_ & Hs & _).
  unfold writes_within_bound in Hw.
  destruct (algorithm_output pglz lz4 zstd m B) as [len out].
  cbn [fst snd] in *. destruct Hw as [Hlo _].
  assert (E : payload_length m c = len)
    by (destruct m; unfold payload_length; lia).
  rewrite E. split; [reflexivity|]. destruct m; exact Hg.
Qed.

(** C4, at the input where the code leaves the claim.  When
    LZ4_compress_default reports exactly as many bytes as it was given,
    lz4_compress_datum returns the value: its payload is as long as the raw
    input, not strictly shorter. *)
Theorem lz4_keeps_equal_size value B :
  USE_LZ4 = true ->
  supported_length B ->
  holds value B ->
  reaches_algorithm pglz lz4 zstd LZ4 B ->
  writes_within_bound pglz lz4 zstd LZ4 B ->
  0 < Z.of_nat (length B) ->
  fst (algorithm_output pglz lz4 zstd LZ4 B) = Z.of_nat (length B) ->
  exists c, returns (compress LZ4 value) (Some c)
            /\ payload_length LZ4 c = Z.of_nat (length B).
Proof.
  intros Hu Hsup Hh Hreach Hw Hpos Hlen.
  assert (E8 : VARHDRSZ_COMPRESSED = 8) by reflexivity.
  destruct (valsize_of_holds _ _ _ Hh Hsup) as [Hv Hd].
  unfold supported_length, MaxAllocSize in Hsup.
  unfold reaches_algorithm in Hreach. unfold writes_within_bound in Hw.
  cbn [algorithm_output Codec.compress] in *.
  pose proof (int32_range (LZ4_compressBound lz4 (Z.of_nat (length B))))
    as Hr.
  unfold returns, lz4_compress_datum. rewrite Hu, Hv, Hd. cbn [negb].
  step_bind. unfold palloc.
  destruct (size_t _ <=? MaxAllocSize) eqn:Ea;
    [|apply Z.leb_gt in Ea; lia].
  cbn [result snd]. step_bind.
  destruct (LZ4_compress_default lz4 B _) as [len out]. cbn [fst snd] in *.
  destruct Hw as [Hlo Hb]. rewrite Hlen in *. clear Hlen len.
  destruct (Z.of_nat (length B) <=? 0) eqn:E0;
    [apply Z.leb_le in E0; lia|].
  rewrite Z.gtb_ltb, Z.ltb_irrefl. cbn [ret result snd].
  eexists. split; [reflexivity|].
  unfold payload_length.
  rewrite size_t_small by lia.
  pose proof (length_mem_write_ge
                (fresh junk (int32 (LZ4_compressBound lz4
                                      (Z.of_nat (length B)))
                             + VARHDRSZ_COMPRESSED))
                VARHDRSZ_COMPRESSED out
                ltac:(rewrite length_fresh; lia)) as Hge.
  rewrite VARSIZE_SET_VARSIZE_COMPRESSED; lia.
Qed.

(** What each compress routine does with a failing answer of its
    algorithm: the LZ4 and Zstandard routines raise an internal error; the
    pglz routine, whose algorithm has one negative answer, frees its buffer
    and returns None. *)
Lemma library_error_outcome m value B :
  available USE_LZ4 USE_ZSTD m = true ->
  supported_length B ->
  holds value B ->
  reaches_algorithm pglz lz4 zstd m B ->
  algorithm_error zstd m (fst (algorithm_output pglz lz4 zstd m B)) = true ->
  match m with
  | PGLZ => returns (compress m value) None
  | LZ4 =>
      raises (compress m value)
        (mkErrorData ERRCODE_INTERNAL_ERROR "lz4 compression failed" None)
  | ZSTD =>
      raises (compress m value)
        (mkErrorData ERRCODE_INTERNAL_ERROR
           ("zstd compression failed: "
              ++ ZSTD_getErrorName zstd
                   (fst (algorithm_output pglz lz4 zstd ZSTD B)))%string
           None)
  end.
Proof.
  intros Hav Hsup Hh Hreach Herr.
  destruct (valsize_of_holds _ _ _ Hh Hsup) as [Hv Hd].
  unfold supported_length, MaxAllocSize in Hsup.
  unfold reaches_algorithm in Hreach.
  destruct m; cbn [algorithm_output algorithm_error Codec.compress available]
    in *.
  - destruct Hreach as [Hmin Hmax].
    unfold returns, pglz_compress_datum. rewrite Hv, Hd.
    apply Z.ltb_ge in Hmin. rewrite Hmin.
    rewrite Z.gtb_ltb. apply Z.ltb_ge in Hmax. rewrite Hmax. cbn [orb].
    unfold PGLZ_MAX_OUTPUT, VARHDRSZ_COMPRESSED.
    rewrite int32_small by lia.
    step_bind. rewrite palloc_ok by (unfold MaxAllocSize; lia).
    cbn [result snd]. step_bind.
    destruct (pglz_compress pglz B) as [len out]. cbn [fst snd] in *.
    rewrite Herr. step_bind. reflexivity.
  - unfold raises, lz4_compress_datum. rewrite Hav, Hv, Hd. cbn [negb].
    step_bind. unfold palloc.
    destruct (size_t _ <=? MaxAllocSize) eqn:Ea;
      [|apply Z.leb_gt in Ea; unfold MaxAllocSize in *; lia].
    cbn [result snd]. step_bind.
    destruct (LZ4_compress_default lz4 B _) as [len out]. cbn [fst snd] in *.
    rewrite Herr. reflexivity.
  - destruct Hreach as [H32 Ha].
    unfold raises, zstd_compress_datum. rewrite Hav, Hv, Hd. cbn [negb].
    apply Z.ltb_ge in H32. rewrite H32.
    rewrite (size_t_small (Z.of_nat (length B))) by lia.
    step_bind. unfold palloc.
    destruct (size_t _ <=? MaxAllocSize) eqn:Ea;
      [|apply Z.leb_gt in Ea; unfold MaxAllocSize in *; lia].
    cbn [result snd]. step_bind.
    destruct (ZSTD_compress zstd _ B 3) as [len out]. cbn [fst snd] in *.
    rewrite Herr. reflexivity.
Qed.

(** C5.  When the algorithm reports an error, as opposed to judging the
    input incompressible, the compress operation raises an internal error:
    it returns neither None nor a value.  LZ4_compress_default reports an
    error by answering 0 or less and ZSTD_compress by a code of which
    ZSTD_isError holds; pglz_compress has no report of an error, its one
    negative answer being its judgement that the input is not worth
    compressing. *)
Theorem library_error_escalates m value B :
  available USE_LZ4 USE_ZSTD m = true ->
  supported_length B ->
  holds value B ->
  reaches_algorithm pglz lz4 zstd m B ->
  reports_error zstd m (fst (algorithm_output pglz lz4 zstd m B)) = true ->
  exists e,
    raises (compress m value) e
    /\ sqlerrcode e = ERRCODE_INTERNAL_ERROR
    /\ (forall r, ~ returns (compress m value) r)
    /\ (m = LZ4 -> message e = "lz4 compression failed"%string)
    /\ (m = ZSTD ->
        message e
        = ("zstd compression failed: "
             ++ ZSTD_getErrorName zstd
                  (fst (algorithm_output pglz lz4 zstd ZSTD B)))%string).
Proof.
  intros Hav Hsup Hh Hreach Herr.
  destruct m; cbn [reports_error] in Herr; [discriminate Herr| |].
  - pose proof (library_error_outcome LZ4 value B Hav Hsup Hh Hreach Herr)
      as Hr.
    cbv beta iota in Hr. eexists. split; [exact Hr|].
    split; [reflexivity|]. split; [|split].
    + intros r Hret. unfold raises in Hr. unfold returns in Hret.
      rewrite Hr in Hret. discriminate Hret.
    + reflexivity.
    + discriminate.
  - pose proof (library_error_outcome ZSTD value B Hav Hsup Hh Hreach Herr)
      as Hr.
    cbv beta iota in Hr. eexists. split; [exact Hr|].
    split; [reflexivity|]. split; [|split].
    + intros r Hret. unfold raises in Hr. unfold returns in Hret.
      rewrite Hr in Hret. discriminate Hret.
    + discriminate.
    + reflexivity.
Qed.

(** The gate as the routine writes it, for any strategy:
    pglz_compress_datum returns None with an empty log exactly when the
    byte length of the input is below [min_input_size] or above
    [max_input_size]. *)
Lemma pglz_window_closed value :
  let valsize := int32 (VARSIZE_ANY_EXHDR VARTAG_SIZE value) in
  pglz_compress_datum VARTAG_SIZE junk pglz value = ret None
  <-> (valsize < min_input_size (PGLZ_strategy_default pglz)
       \/ valsize > max_input_size (PGLZ_strategy_default pglz)).
Proof.
  intros valsize. unfold pglz_compress_datum. fold valsize.
  destruct (valsize <? _) eqn:Emin; destruct (valsize >? _) eqn:Emax;
    cbn [orb];
    try (split; [intros _|reflexivity];
         first [left; apply Z.ltb_lt; exact Emin
               |right; rewrite Z.gtb_ltb in Emax; apply Z.ltb_lt in Emax; lia]).
  apply Z.ltb_ge in Emin. rewrite Z.gtb_ltb in Emax. apply Z.ltb_ge in Emax.
  split; [|lia].
  unfold palloc. destruct (size_t _ <=? MaxAllocSize).
  - unfold bind at 1. destruct (bind _ _). discriminate.
  - cbn. discriminate.
Qed.

(** The payload length of a datum that is not an external pointer fits in
    thirty bits. *)
Lemma valsize_not_external value :
  VARATT_IS_EXTERNAL value = false ->
  - 4 <= int32 (VARSIZE_ANY_EXHDR VARTAG_SIZE value) < 2^30.
Proof.
  intros He. unfold VARSIZE_ANY_EXHDR.
  unfold VARATT_IS_EXTERNAL in He. rewrite He.
  destruct (VARATT_IS_1B value).
  - unfold VARSIZE_1B, VARHDRSZ_SHORT.
    change 0x7F with (Z.ones 7). rewrite Z.land_ones by lia.
    pose proof (Z.mod_pos_bound (Z.shiftr (va_header_1b value) 1) (2^7)
                  ltac:(lia)) as Hb.
    rewrite int32_small by lia. lia.
  - pose proof (VARSIZE_range value) as Hb. unfold VARSIZE in Hb.
    unfold VARHDRSZ. rewrite int32_small by lia. lia.
Qed.

(** C7.  pglz_compress_datum reads its window from PGLZ_strategy_default,
    whose upper bound pg_lzcompress.c sets to INT_MAX.  With that bound,
    for every datum that is not an external pointer, the routine returns
    None with an empty log (no allocation, no call of the algorithm)
    exactly when the byte length of the input lies outside the window
    [min, max): the test the routine writes, [valsize > max], and the
    half-open window part only at a length no datum has. *)
Theorem pglz_window_default value :
  max_input_size (PGLZ_strategy_default pglz) = INT_MAX ->
  VARATT_IS_EXTERNAL value = false ->
  let valsize := int32 (VARSIZE_ANY_EXHDR VARTAG_SIZE value) in
  pglz_compress_datum VARTAG_SIZE junk pglz value = ret None
  <-> ~ (min_input_size (PGLZ_strategy_default pglz) <= valsize
         < max_input_size (PGLZ_strategy_default pglz)).
Proof.
  intros Hmax Hext valsize.
  pose proof (valsize_not_external value Hext) as Hb. fold valsize in Hb.
  pose proof (pglz_window_closed value) as Hc. cbv zeta in Hc.
  fold valsize in Hc. rewrite Hc, Hmax. unfold INT_MAX. lia.
Qed.

(** C10.  The Zstandard slice routine below the declared raw size: when the
    library reports no error, the datum returned records exactly
    [slicelength] bytes, whatever size the library returned and whatever
    the frame held. *)
Theorem zstd_slice_length value rawsize slicelength :
  USE_ZSTD = true ->
  0 <= slicelength < rawsize ->
  rawsize + VARHDRSZ <= MaxAllocSize ->
  ZSTD_isError zstd
    (fst (ZSTD_decompress zstd rawsize
            (mem_read (ptr_add value VARHDRSZ)
                      (uint32 (VARSIZE value - VARHDRSZ))))) = false ->
  exists r,
    returns (zstd_decompress_datum_slice junk USE_ZSTD zstd value rawsize
               slicelength) r
    /\ VARSIZE r = slicelength + VARHDRSZ
    /\ VARSIZE_ANY_EXHDR VARTAG_SIZE r = slicelength.
Proof.
  intros Hu Hk Ha He.
  assert (E4 : VARHDRSZ = 4) by reflexivity.
  unfold MaxAllocSize in Ha.
  unfold returns, zstd_decompress_datum_slice. rewrite Hu. cbn [negb].
  rewrite Z.geb_leb.
  destruct (rawsize <=? slicelength) eqn:El; [apply Z.leb_le in El; lia|].
  rewrite (int32_small (rawsize + VARHDRSZ)) by lia.
  step_bind. rewrite palloc_ok by (unfold MaxAllocSize; lia).
  cbn [result snd]. step_bind.
  rewrite size_t_small by lia.
  destruct (ZSTD_decompress zstd rawsize _) as [n d]. cbn [fst] in He.
  rewrite He.
  eexists. split; [reflexivity|].
  pose proof (length_mem_write_ge (fresh junk (rawsize + VARHDRSZ)) VARHDRSZ d
                ltac:(rewrite length_fresh; lia)) as Hw.
  assert (Hs : VARSIZE (SET_VARSIZE
                          (mem_write (fresh junk (rawsize + VARHDRSZ))
                                     VARHDRSZ d) (slicelength + VARHDRSZ))
               = slicelength + VARHDRSZ)
    by (apply VARSIZE_SET_VARSIZE; lia).
  split; [exact Hs|].
  destruct (kind_SET_VARSIZE
              (mem_write (fresh junk (rawsize + VARHDRSZ)) VARHDRSZ d)
              (slicelength + VARHDRSZ) ltac:(lia) ltac:(lia))
    as (K1 & K2 & _).
  unfold VARSIZE_ANY_EXHDR. rewrite K2, K1.
  fold VARSIZE. rewrite Hs. lia.
Qed.

End CodecClaims.

Section Lz4Versions.

Variable VARTAG_SIZE : Z -> Z.
Variable junk : nat -> byte.
Variable USE_LZ4 USE_ZSTD : bool.
Variable pglz : pglz_library.
Variable lz4 : lz4_library.
Variable zstd : zstd_library.

Local Abbreviation compress :=
  (Codec.compress VARTAG_SIZE junk USE_LZ4 USE_ZSTD pglz lz4 zstd).
Local Abbreviation slice_at v :=
  (Codec.decompress_slice junk USE_LZ4 USE_ZSTD pglz (with_version lz4 v) zstd
     LZ4).
Local Abbreviation full_at v :=
  (Codec.decompress junk USE_LZ4 USE_ZSTD pglz (with_version lz4 v) zstd LZ4).
Local Abbreviation holds := (Varatt.holds VARTAG_SIZE).

(** C6, amended.  Against a library older than 1.8.3 the LZ4 slice routine
    is the full decompression: it returns the whole value, of logical size
    the raw size, not a truncated one.  Against 1.8.3 or later it returns
    the first [k] bytes.  The two paths agree on those first [k] bytes and
    on nothing more. *)
Theorem lz4_fallback_returns_whole value B c k v_old v_new :
  USE_LZ4 = true ->
  supported_length B ->
  holds value B ->
  returns (compress LZ4 value) (Some c) ->
  0 <= k <= Z.of_nat (length B) ->
  writes_within_bound pglz lz4 zstd LZ4 B ->
  decodes_prefix pglz lz4 zstd LZ4 B k ->
  v_old < 10803 <= v_new ->
  slice_at v_old c (Z.of_nat (length B)) k = full_at v_old c (Z.of_nat (length B))
  /\ exists r_old r_new,
       returns (slice_at v_old c (Z.of_nat (length B)) k) r_old
       /\ returns (slice_at v_new c (Z.of_nat (length B)) k) r_new
       /\ holds r_old B
       /\ holds r_new (firstn (Z.to_nat k) B)
       /\ firstn (Z.to_nat k) (datum_of VARTAG_SIZE r_old)
          = datum_of VARTAG_SIZE r_new.
Proof.
  intros Hu Hsup Hh Hret Hk Hw Hd [Hold Hnew].
  destruct (compress_framed _ _ _ _ _ _ _ _ _ _ _ Hsup Hh Hret Hw)
    as (_ & Hf & _).
  assert (E4 : VARHDRSZ = 4) by reflexivity.
  assert (E8 : VARHDRSZ_COMPRESSED = 8) by reflexivity.
  unfold supported_length, MaxAllocSize in Hsup.
  unfold decodes_prefix in Hd. cbn [algorithm_output] in Hd, Hf.
  set (out := snd (LZ4_compress_default lz4 B _)) in *.
  destruct Hd as [Hfull Hpart].
  pose proof (framed_after_SET _ _ (Z.of_nat (length B))
                TOAST_LZ4_COMPRESSION_ID Hf) as Hf'.
  destruct Hf as (Hlc & _).
  assert (Eold : slice_at v_old c (Z.of_nat (length B)) k
                 = full_at v_old c (Z.of_nat (length B))).
  { cbn [Codec.decompress_slice Codec.decompress].
    apply lz4_slice_old_version. exact Hold. }
  split; [exact Eold|].
  destruct (lz4_decompress_datum_framed VARTAG_SIZE junk USE_LZ4
              (with_version lz4 v_old) _ out (Z.of_nat (length B)) B Hu Hf')
    as (r_old & Hro & Hho); try lia;
    try (rewrite EXTSIZE_after_SET
           by (unfold TOAST_LZ4_COMPRESSION_ID; lia));
    [unfold MaxAllocSize; lia | exact Hfull |].
  destruct (lz4_decompress_datum_slice_framed VARTAG_SIZE junk USE_LZ4
              (with_version lz4 v_new) _ out k k (firstn (Z.to_nat k) B)
              Hu Hnew Hf')
    as (r_new & Hrn & Hhn);
    try exact Hpart; try (unfold MaxAllocSize; lia);
    try (rewrite length_firstn; lia).
  exists r_old, r_new.
  split; [rewrite Eold; exact Hro|].
  split; [exact Hrn|].
  split; [exact Hho|]. split; [exact Hhn|].
  destruct Hho as [_ ->]. destruct Hhn as [_ ->]. reflexivity.
Qed.

End Lz4Versions.

Section ResolverClaims.

Variable VARTAG_ONDISK_ZSTD : Z.
Variable TOAST_ZSTD_COMPRESSION_ID : ToastCompressionId.

Local Abbreviation is_zstd := (VARATT_IS_EXTERNAL_ONDISK_ZSTD VARTAG_ONDISK_ZSTD).
Local Abbreviation resolve :=
  (toast_get_compression_id VARTAG_ONDISK_ZSTD TOAST_ZSTD_COMPRESSION_ID).

(** C3.  Resolver precedence: a datum carrying the Zstandard external tag
    resolves to the Zstandard id whatever the rest of it holds; otherwise
    an on-disk external pointer resolves by its compressed flag to the
    method in its bit field (or to the invalid id when the flag is off);
    otherwise an inline compressed header resolves to the method it
    records; and a datum matching none of these resolves to the invalid
    id. *)
Theorem resolver_precedence attr :
  (is_zstd attr = true -> resolve attr = TOAST_ZSTD_COMPRESSION_ID)
  /\ (is_zstd attr = false -> VARATT_IS_EXTERNAL_ONDISK attr = true ->
      resolve attr
      = if VARATT_EXTERNAL_IS_COMPRESSED (VARATT_EXTERNAL_GET_POINTER attr)
        then VARATT_EXTERNAL_GET_COMPRESS_METHOD
               (VARATT_EXTERNAL_GET_POINTER attr)
        else TOAST_INVALID_COMPRESSION_ID)
  /\ (is_zstd attr = false -> VARATT_IS_EXTERNAL_ONDISK attr = false ->
      VARATT_IS_COMPRESSED attr = true ->
      resolve attr = VARDATA_COMPRESSED_GET_COMPRESS_METHOD attr)
  /\ (is_zstd attr = false -> VARATT_IS_EXTERNAL_ONDISK attr = false ->
      VARATT_IS_COMPRESSED attr = false ->
      resolve attr = TOAST_INVALID_COMPRESSION_ID).
Proof.
  unfold toast_get_compression_id.
  repeat split; intros; repeat match goal with
                               | H : _ = _ |- _ => rewrite H; clear H
                               end; reflexivity.
Qed.

(** The code nests the flag test inside the pointer test where the
    specification chains them: the two agree, because an external datum is
    never an inline compressed one. *)
Lemma resolver_follows_steps attr :
  resolve attr
  = resolve_by_steps VARTAG_ONDISK_ZSTD TOAST_ZSTD_COMPRESSION_ID attr.
Proof.
  unfold toast_get_compression_id, resolve_by_steps.
  destruct (is_zstd attr); [reflexivity|].
  destruct (VARATT_IS_EXTERNAL_ONDISK attr) eqn:Ee; cbn [andb];
    [|reflexivity].
  destruct (VARATT_EXTERNAL_IS_COMPRESSED _); [reflexivity|].
  assert (Ec : VARATT_IS_COMPRESSED attr = false).
  { unfold VARATT_IS_EXTERNAL_ONDISK, VARATT_IS_EXTERNAL, VARATT_IS_1B_E in Ee.
    apply andb_prop in Ee. destruct Ee as [E1 _]. apply Z.eqb_eq in E1.
    unfold VARATT_IS_COMPRESSED, VARATT_IS_4B_C. now rewrite E1. }
  now rewrite Ec.
Qed.

(** Whatever the pointer behind it says, an external datum with the
    Zstandard tag resolves to the Zstandard id. *)
Lemma zstd_tag_wins tp :
  0 <= VARTAG_ONDISK_ZSTD < 256 ->
  resolve (external_datum VARTAG_ONDISK_ZSTD tp) = TOAST_ZSTD_COMPRESSION_ID.
Proof.
  intros Ht. unfold toast_get_compression_id.
  assert (E : is_zstd (external_datum VARTAG_ONDISK_ZSTD tp) = true).
  { unfold VARATT_IS_EXTERNAL_ONDISK_ZSTD, VARATT_IS_EXTERNAL, VARATT_IS_1B_E,
      VARTAG_EXTERNAL, VARTAG_1B_E, va_header_1b, va_tag, load_u8,
      external_datum.
    change (Z.to_nat 0) with 0%nat. change (Z.to_nat 1) with 1%nat.
    cbn [nth app].
    rewrite u8_byte_of, Z.mod_small by lia.
    rewrite !Z.eqb_refl. reflexivity. }
  now rewrite E.
Qed.

(** The method the caller of a compress routine records in an inline
    compressed header is the one the resolver reads back. *)
Lemma resolve_inline_compressed p len raw m :
  8 <= Z.of_nat (length p) ->
  0 <= len < 2^30 -> 0 <= raw < 2^30 -> 0 <= m < 4 ->
  resolve (TOAST_COMPRESS_SET_SIZE_AND_COMPRESS_METHOD
             (SET_VARSIZE_COMPRESSED p len) raw m) = m.
Proof.
  intros Hp Hl Hr Hm.
  pose proof (length_SET_VARSIZE_COMPRESSED p len ltac:(lia)) as Hlen.
  destruct (kind_SET_VARSIZE_COMPRESSED p len ltac:(lia) Hl) as [K1 K2].
  pose proof (kind_after_SET (SET_VARSIZE_COMPRESSED p len) raw m
                ltac:(lia)) as Hk.
  unfold toast_get_compression_id, VARATT_IS_EXTERNAL_ONDISK_ZSTD,
    VARATT_IS_EXTERNAL_ONDISK, VARATT_IS_EXTERNAL, VARATT_IS_COMPRESSED.
  unfold VARATT_IS_1B_E, VARATT_IS_4B_C in *.
  rewrite Hk, K1, K2. cbn [andb].
  apply METHOD_after_SET; lia.
Qed.

End ResolverClaims.

Section NameClaims.

Variable USE_LZ4 USE_ZSTD : bool.
Variable TOAST_PGLZ_COMPRESSION : ascii.
Variable TOAST_LZ4_COMPRESSION : ascii.
Variable TOAST_ZSTD_COMPRESSION : ascii.
Variable InvalidCompressionMethod : ascii.

Local Abbreviation CompressionNameToMethod :=
  (Names.CompressionNameToMethod USE_LZ4 USE_ZSTD TOAST_PGLZ_COMPRESSION
     TOAST_LZ4_COMPRESSION TOAST_ZSTD_COMPRESSION InvalidCompressionMethod).

(** C8.  Name resolution: a registered name whose library the build lacks
    raises FEATURE_NOT_SUPPORTED with that name in the message and the
    detail; a name that is not registered is answered, without an error,
    by the InvalidCompressionMethod sentinel (the specification's
    NotFound). *)
Theorem name_resolution name :
  (registered name = true -> compiled_in USE_LZ4 USE_ZSTD name = false ->
   raises (CompressionNameToMethod name) (feature_not_supported name))
  /\ (registered name = false ->
      CompressionNameToMethod name = ret InvalidCompressionMethod).
Proof.
  unfold Names.CompressionNameToMethod, registered, compiled_in.
  destruct (String.eqb_spec name "pglz") as [->|Hp].
  { split; intros; discriminate. }
  destruct (String.eqb_spec name "lz4") as [->|Hl].
  { split; [|intros; discriminate].
    cbn. intros _ ->. reflexivity. }
  destruct (String.eqb_spec name "zstd") as [->|Hz].
  { split; [|intros; discriminate].
    cbn. intros _ ->. reflexivity. }
  split; [intros; discriminate|reflexivity].
Qed.

End NameClaims.

(** C9.  Structure layout: the standard external pointer is 16 bytes, the
    extended one 20 bytes with its fields at offsets 0, 4, 8, 9, 12 and 16,
    and the layout test of the module passes. *)
Theorem structure_layout :
  Layout.sizeof Layout.varatt_external = 16
  /\ Layout.sizeof Layout.varatt_external_extended = 20
  /\ Layout.offsetof Layout.varatt_external_extended "va_rawsize" = Some 0
  /\ Layout.offsetof Layout.varatt_external_extended "va_extinfo" = Some 4
  /\ Layout.offsetof Layout.varatt_external_extended "va_flags" = Some 8
  /\ Layout.offsetof Layout.varatt_external_extended "va_data" = Some 9
  /\ Layout.offsetof Layout.varatt_external_extended "va_valueid" = Some 12
  /\ Layout.offsetof Layout.varatt_external_extended "va_toastrelid" = Some 16
  /\ Layout.test_toast_structure_sizes = ret tt.
Proof.
  repeat split; reflexivity.
Qed.

(** * The properties on concrete data *)

Import RunLength.

Ltac computed := vm_compute; repeat split; try reflexivity;
                 try (intro; discriminate).

Lemma roundtrip_witness :
  (exists c r,
     returns (rl_compress strategy_default 10803 PGLZ (make_varlena forty_a))
             (Some c)
     /\ returns (rl_decompress strategy_default 10803 PGLZ c 40) r
     /\ holds tag_size r forty_a)
  /\ (exists c r,
        returns (rl_compress strategy_default 10803 LZ4 (make_varlena forty_a))
                (Some c)
        /\ returns (rl_decompress strategy_default 10803 LZ4 c 40) r
        /\ holds tag_size r forty_a)
  /\ (exists c r,
        returns (rl_compress strategy_default 10803 ZSTD (make_varlena forty_a))
                (Some c)
        /\ returns (rl_decompress strategy_default 10803 ZSTD c 40) r
        /\ holds tag_size r forty_a).
Proof.
  assert (W : forall m,
    exists c r,
      returns (rl_compress strategy_default 10803 m (make_varlena forty_a))
              (Some c)
      /\ returns (rl_decompress strategy_default 10803 m c 40) r
      /\ holds tag_size r forty_a).
  { intros m.
    assert (Hc : exists c,
      returns (rl_compress strategy_default 10803 m (make_varlena forty_a))
              (Some c))
      by (destruct m; eexists; vm_compute; reflexivity).
    destruct Hc as [c Hc].
    destruct (roundtrip tag_size leftover true true
                (rl_pglz strategy_default) (rl_lz4 10803) rl_zstd
                m (make_varlena forty_a) forty_a c)
      as [r [Hr Hh]];
      [destruct m; reflexivity | computed | computed | exact Hc
      | destruct m; computed | destruct m; computed |].
    exists c, r. split; [exact Hc|split; [exact Hr|exact Hh]]. }
  repeat split; apply W.
Defined.

Lemma slice_prefix_witness :
  (exists c r,
     returns (rl_compress strategy_default 10803 PGLZ (make_varlena forty_a))
             (Some c)
     /\ returns (rl_decompress_slice strategy_default 10803 PGLZ c 40 5) r
     /\ holds tag_size r (firstn 5 forty_a))
  /\ (exists c r,
        returns (rl_compress strategy_default 10803 LZ4 (make_varlena forty_a))
                (Some c)
        /\ returns (rl_decompress_slice strategy_default 10803 LZ4 c 40 5) r
        /\ holds tag_size r (firstn 5 forty_a))
  /\ (exists c r,
        returns (rl_compress strategy_default 10802 LZ4 (make_varlena forty_a))
                (Some c)
        /\ returns (rl_decompress_slice strategy_default 10802 LZ4 c 40 5) r
        /\ holds tag_size r forty_a)
  /\ (exists c r,
        returns (rl_compress strategy_default 10803 ZSTD (make_varlena forty_a))
                (Some c)
        /\ returns (rl_decompress_slice strategy_default 10803 ZSTD c 40 5) r
        /\ holds tag_size r (firstn 5 forty_a)).
Proof.
  assert (W : forall m v, v = 10802 \/ v = 10803 ->
    exists c r,
      returns (rl_compress strategy_default v m (make_varlena forty_a))
              (Some c)
      /\ returns (rl_decompress_slice strategy_default v m c 40 5) r
      /\ holds tag_size r
           (if slice_returns_whole (rl_lz4 v) m then forty_a
            else firstn 5 forty_a)).
  { intros m v Hv.
    assert (Hc : exists c,
      returns (rl_compress strategy_default v m (make_varlena forty_a))
              (Some c))
      by (destruct m; eexists; vm_compute; reflexivity).
    destruct Hc as [c Hc].
    destruct (slice_prefix tag_size leftover true true
                (rl_pglz strategy_default) (rl_lz4 v) rl_zstd
                m (make_varlena forty_a) forty_a c 5)
      as [r [Hr [Hh _]]];
      [destruct m; reflexivity | computed | computed | exact Hc
      | computed | destruct m; computed
      | destruct m; destruct Hv as [-> | ->]; computed |].
    exists c, r. split; [exact Hc|split; [exact Hr|exact Hh]]. }
  split; [exact (W PGLZ 10803 (or_intror eq_refl))|].
  split; [exact (W LZ4 10803 (or_intror eq_refl))|].
  split; [exact (W LZ4 10802 (or_introl eq_refl))|].
  exact (W ZSTD 10803 (or_intror eq_refl)).
Defined.

(** C2 as stated fails for LZ4 against a library older than 1.8.3: asked
    for the first 5 of forty bytes, the routine hands back all forty. *)
Lemma slice_is_exact_counterexample :
  ~ slice_is_exact tag_size leftover true true
      (rl_pglz strategy_default) (rl_lz4 10802) rl_zstd.
Proof.
  intros H.
  pose (c := match result (rl_compress strategy_default 10802 LZ4
                             (make_varlena forty_a)) with
             | Return (Some c) => c
             | _ => []
             end).
  destruct (H LZ4 (make_varlena forty_a) forty_a c 5)
    as [r [Hr [Hs _]]];
    [reflexivity | computed | computed | computed | computed | computed
    | computed |].
  vm_compute in Hr. injection Hr as <-.
  vm_compute in Hs. discriminate Hs.
Qed.

(** On the run-length library the four bytes "aabb" come back as four; on
    the recorded answer of the LZ4 library the twenty bytes
    "abcdabcdefghijklmnop" come back as twenty.  Either value is returned. *)
Lemma lz4_keeps_equal_size_witness :
  (exists c,
     returns (rl_compress strategy_default 10803 LZ4 (make_varlena aabb))
             (Some c)
     /\ payload_length LZ4 c = 4
     /\ VARSIZE_ANY_EXHDR tag_size (make_varlena aabb) = 4)
  /\ (exists c,
        returns (Codec.compress tag_size leftover true true
                   (rl_pglz strategy_default) recorded_lz4 rl_zstd
                   LZ4 (make_varlena abcd_twice))
                (Some c)
        /\ payload_length LZ4 c = 20
        /\ VARSIZE_ANY_EXHDR tag_size (make_varlena abcd_twice) = 20).
Proof.
  split.
  - destruct (lz4_keeps_equal_size tag_size leftover true true
                (rl_pglz strategy_default) (rl_lz4 10803) rl_zstd
                (make_varlena aabb) aabb)
      as [c [Hc Hp]];
      [reflexivity | computed | computed | computed | computed | computed
      | computed |].
    exists c. split; [exact Hc|split; [exact Hp|reflexivity]].
  - destruct (lz4_keeps_equal_size tag_size leftover true true
                (rl_pglz strategy_default) recorded_lz4 rl_zstd
                (make_varlena abcd_twice) abcd_twice)
      as [c [Hc Hp]];
      [reflexivity | computed | computed | computed | computed | computed
      | computed |].
    exists c. split; [exact Hc|split; [exact Hp|reflexivity]].
Defined.

(** A Zstandard compressor that fails for want of memory, and an LZ4
    compressor made to answer 0, on forty equal bytes. *)
Lemma library_error_escalates_witness :
  raises (Codec.compress tag_size leftover true true
            (rl_pglz strategy_default) (rl_lz4_failing 10803) rl_zstd
            LZ4 (make_varlena forty_a))
         (mkErrorData ERRCODE_INTERNAL_ERROR "lz4 compression failed" None)
  /\ raises (Codec.compress tag_size leftover true true
               (rl_pglz strategy_default) (rl_lz4 10803) rl_zstd_faulty
               ZSTD (make_varlena forty_a))
            (mkErrorData ERRCODE_INTERNAL_ERROR
               "zstd compression failed: Allocation error : not enough memory"
               None).
Proof.
  split.
  - destruct (library_error_escalates tag_size leftover true true
                (rl_pglz strategy_default) (rl_lz4_failing 10803) rl_zstd
                LZ4 (make_varlena forty_a) forty_a)
      as (e & He & _ & _ & _ & _);
      [reflexivity | computed | computed | computed | computed |].
    vm_compute in He. injection He as <-. reflexivity.
  - destruct (library_error_escalates tag_size leftover true true
                (rl_pglz strategy_default) (rl_lz4 10803) rl_zstd_faulty
                ZSTD (make_varlena forty_a) forty_a)
      as (e & He & _ & _ & _ & _);
      [reflexivity | computed | computed | computed | computed |].
    vm_compute in He. injection He as <-. reflexivity.
Defined.

Lemma lz4_fallback_returns_whole_witness :
  exists c r_old r_new,
    returns (rl_compress strategy_default 10803 LZ4 (make_varlena forty_a))
            (Some c)
    /\ returns (rl_decompress_slice strategy_default 10802 LZ4 c 40 5) r_old
    /\ returns (rl_decompress_slice strategy_default 10803 LZ4 c 40 5) r_new
    /\ holds tag_size r_old forty_a
    /\ holds tag_size r_new (firstn 5 forty_a).
Proof.
  assert (Hc : exists c,
    returns (rl_compress strategy_default 10803 LZ4 (make_varlena forty_a))
            (Some c))
    by (eexists; vm_compute; reflexivity).
  destruct Hc as [c Hc].
  destruct (lz4_fallback_returns_whole tag_size leftover true true
              (rl_pglz strategy_default) (rl_lz4 10803) rl_zstd
              (make_varlena forty_a) forty_a c 5 10802 10803)
    as [_ (r_old & r_new & Ho & Hn & Hho & Hhn & _)];
    [reflexivity | computed | computed | exact Hc | computed | computed
    | computed | computed |].
  exists c, r_old, r_new.
  split; [exact Hc|]. split; [exact Ho|]. split; [exact Hn|].
  split; [exact Hho|exact Hhn].
Defined.

(** C6 as stated fails: on the same compressed value and slice length the
    path before 1.8.3 returns forty bytes and the path from 1.8.3 on
    returns five. *)
Lemma lz4_fallback_counterexample :
  ~ lz4_fallback_is_transparent tag_size leftover true true
      (rl_pglz strategy_default) (rl_lz4 10803) rl_zstd.
Proof.
  intros H.
  pose (c := match result (rl_compress strategy_default 10803 LZ4
                             (make_varlena forty_a)) with
             | Return (Some c) => c
             | _ => []
             end).
  destruct (H (make_varlena forty_a) forty_a c 5 10802 10803)
    as [r [Ho [Hn _]]];
    [reflexivity | computed | computed | computed | computed | computed
    | computed | computed |].
  vm_compute in Ho. injection Ho as <-.
  vm_compute in Hn. discriminate Hn.
Qed.

(** Under the default strategy, four bytes are turned away and forty are
    not. *)
Lemma pglz_window_default_witness :
  pglz_compress_datum tag_size leftover (rl_pglz strategy_default)
    (make_varlena aabb) = ret None
  /\ pglz_compress_datum tag_size leftover (rl_pglz strategy_default)
       (make_varlena forty_a) <> ret None.
Proof.
  split.
  - apply (proj2 (pglz_window_default tag_size leftover
                    (rl_pglz strategy_default) (make_varlena aabb)
                    eq_refl eq_refl)).
    vm_compute. intros [H _]. apply H. reflexivity.
  - intros E.
    apply (proj1 (pglz_window_default tag_size leftover
                    (rl_pglz strategy_default) (make_varlena forty_a)
                    eq_refl eq_refl)) in E.
    apply E. vm_compute. split; [discriminate|reflexivity].
Defined.

Lemma name_resolution_witness :
  raises (CompressionNameToMethod false true "p" "l" "z" "000" "lz4")
         (mkErrorData ERRCODE_FEATURE_NOT_SUPPORTED
            "compression method lz4 not supported"
            (Some "This functionality requires the server to be built with lz4 support."%string))
  /\ CompressionNameToMethod false true "p" "l" "z" "000" "brotli"
     = ret "000"%char.
Proof.
  split.
  - apply (proj1 (name_resolution false true "p" "l" "z" "000" "lz4"));
      reflexivity.
  - apply (proj2 (name_resolution false true "p" "l" "z" "000" "brotli")).
    reflexivity.
Defined.

(** A Zstandard external datum whose pointer also reads as compressed with
    method 1 by the generic flag: the tag wins. *)
Lemma resolver_precedence_witness :
  let attr := external_datum 19 (mk_varatt_external 1000 (100 + 2^30) 1 2) in
  VARATT_EXTERNAL_IS_COMPRESSED (VARATT_EXTERNAL_GET_POINTER attr) = true
  /\ VARATT_EXTERNAL_GET_COMPRESS_METHOD (VARATT_EXTERNAL_GET_POINTER attr)
     = TOAST_LZ4_COMPRESSION_ID
  /\ toast_get_compression_id 19 4 attr = 4.
Proof.
  intros attr. split; [reflexivity|split; [reflexivity|]].
  apply (proj1 (resolver_precedence 19 4 attr)). reflexivity.
Defined.

(** A frame of forty bytes, declared as a hundred, sliced at sixty: the
    datum records sixty. *)
Lemma zstd_slice_length_witness :
  exists r,
    returns (zstd_decompress_datum_slice leftover true rl_zstd
               (make_varlena (encode forty_a)) 100 60) r
    /\ VARSIZE r = 64 /\ VARSIZE_ANY_EXHDR tag_size r = 60.
Proof.
  apply (zstd_slice_length tag_size leftover true rl_zstd
           (make_varlena (encode forty_a)) 100 60); computed.
Defined.

(** * Further properties of the routines *)

(** ** Method names *)

Section NameProperties.

Variable USE_LZ4 USE_ZSTD : bool.
Variable TOAST_PGLZ_COMPRESSION : ascii.
Variable TOAST_LZ4_COMPRESSION : ascii.
Variable TOAST_ZSTD_COMPRESSION : ascii.
Variable InvalidCompressionMethod : ascii.

Local Abbreviation CompressionNameToMethod :=
  (Names.CompressionNameToMethod USE_LZ4 USE_ZSTD TOAST_PGLZ_COMPRESSION
     TOAST_LZ4_COMPRESSION TOAST_ZSTD_COMPRESSION InvalidCompressionMethod).
Local Abbreviation GetCompressionMethodName :=
  (Names.GetCompressionMethodName TOAST_PGLZ_COMPRESSION
     TOAST_LZ4_COMPRESSION TOAST_ZSTD_COMPRESSION).

(** X1.  From a name to its method and back: when the three method
    characters differ from one another and from the invalid one, the
    character CompressionNameToMethod returns for a registered name is
    named back to that name by GetCompressionMethodName, and the sentinel
    it returns for any other name makes GetCompressionMethodName raise
    "invalid compression method " followed by the sentinel character; a
    NUL sentinel ends the message there, so that nothing follows. *)
Theorem name_of_resolved_method name c :
  TOAST_PGLZ_COMPRESSION <> TOAST_LZ4_COMPRESSION ->
  TOAST_PGLZ_COMPRESSION <> TOAST_ZSTD_COMPRESSION ->
  TOAST_LZ4_COMPRESSION <> TOAST_ZSTD_COMPRESSION ->
  InvalidCompressionMethod <> TOAST_PGLZ_COMPRESSION ->
  InvalidCompressionMethod <> TOAST_LZ4_COMPRESSION ->
  InvalidCompressionMethod <> TOAST_ZSTD_COMPRESSION ->
  returns (CompressionNameToMethod name) c ->
  if registered name
  then GetCompressionMethodName c = ret name
  else c = InvalidCompressionMethod
       /\ raises (GetCompressionMethodName c)
            (mkErrorData ERRCODE_INTERNAL_ERROR
               ("invalid compression method "
                  ++ format_char InvalidCompressionMethod)%string
               None).
Proof.
  intros Hpl Hpz Hlz Hip Hil Hiz.
  unfold returns, Names.CompressionNameToMethod, registered,
    Names.GetCompressionMethodName.
  destruct (String.eqb_spec name "pglz") as [->|Hp].
  { cbn. intros [= <-]. now rewrite Ascii.eqb_refl. }
  destruct (String.eqb_spec name "lz4") as [->|Hl].
  { cbn [orb]. destruct USE_LZ4; cbn; [|discriminate].
    intros [= <-].
    apply not_eq_sym, Ascii.eqb_neq in Hpl. rewrite Hpl.
    now rewrite Ascii.eqb_refl. }
  destruct (String.eqb_spec name "zstd") as [->|Hz].
  { cbn [orb]. destruct USE_ZSTD; cbn; [|discriminate].
    intros [= <-].
    apply not_eq_sym, Ascii.eqb_neq in Hpz. rewrite Hpz.
    apply not_eq_sym, Ascii.eqb_neq in Hlz. rewrite Hlz.
    now rewrite Ascii.eqb_refl. }
  cbn. intros [= <-]. split; [reflexivity|].
  apply Ascii.eqb_neq in Hip, Hil, Hiz. now rewrite Hip, Hil, Hiz.
Qed.

(** X2.  From a method to its name and back: whatever the method
    characters are, a name GetCompressionMethodName returns is one
    CompressionNameToMethod maps back to the same character when the
    build carries its library, and refuses with FEATURE_NOT_SUPPORTED when
    it does not: naming a method never looks at the build. *)
Theorem method_of_returned_name c name :
  returns (GetCompressionMethodName c) name ->
  if compiled_in USE_LZ4 USE_ZSTD name
  then CompressionNameToMethod name = ret c
  else raises (CompressionNameToMethod name) (feature_not_supported name).
Proof.
  unfold returns, Names.GetCompressionMethodName, compiled_in,
    Names.CompressionNameToMethod.
  destruct (Ascii.eqb_spec c TOAST_PGLZ_COMPRESSION) as [->|Hp].
  { cbn. intros [= <-]. reflexivity. }
  destruct (Ascii.eqb_spec c TOAST_LZ4_COMPRESSION) as [->|Hl].
  { cbn. intros [= <-]. cbn. destruct USE_LZ4; reflexivity. }
  destruct (Ascii.eqb_spec c TOAST_ZSTD_COMPRESSION) as [->|Hz].
  { cbn. intros [= <-]. cbn. destruct USE_ZSTD; reflexivity. }
  cbn. discriminate.
Qed.

End NameProperties.

(** ** The codec routines *)

Section RoutineProperties.

Variable VARTAG_SIZE : Z -> Z.
Variable junk : nat -> byte.
Variable USE_LZ4 USE_ZSTD : bool.
Variable pglz : pglz_library.
Variable lz4 : lz4_library.
Variable zstd : zstd_library.

Local Abbreviation compress :=
  (Codec.compress VARTAG_SIZE junk USE_LZ4 USE_ZSTD pglz lz4 zstd).
Local Abbreviation decompress :=
  (Codec.decompress junk USE_LZ4 USE_ZSTD pglz lz4 zstd).
Local Abbreviation decompress_slice :=
  (Codec.decompress_slice junk USE_LZ4 USE_ZSTD pglz lz4 zstd).
Local Abbreviation holds := (Varatt.holds VARTAG_SIZE).
Local Abbreviation valsize_of value :=
  (int32 (VARSIZE_ANY_EXHDR VARTAG_SIZE value)).

(** X3.  A method the build lacks: each of its three routines raises
    FEATURE_NOT_SUPPORTED with the method's name, on every input, and does
    so before anything else: nothing is allocated and no library is
    called. *)
Theorem unavailable_method_raises m value raw_size want_len :
  available USE_LZ4 USE_ZSTD m = false ->
  compress m value = NO_COMPRESSION_SUPPORT (method_name m)
  /\ decompress m value raw_size = NO_COMPRESSION_SUPPORT (method_name m)
  /\ decompress_slice m value raw_size want_len
     = NO_COMPRESSION_SUPPORT (method_name m).
Proof.
  destruct m; cbn [available]; intros E; [discriminate| |].
  - cbn [Codec.compress Codec.decompress Codec.decompress_slice method_name].
    unfold lz4_compress_datum, lz4_decompress_datum,
      lz4_decompress_datum_slice.
    rewrite E. cbn [negb]. repeat split.
  - cbn [Codec.compress Codec.decompress Codec.decompress_slice method_name].
    unfold zstd_compress_datum, zstd_decompress_datum,
      zstd_decompress_datum_slice.
    rewrite E. cbn [negb]. repeat split.
Qed.

(** X4.  Corrupt pglz data: when pglz_decompress answers a negative number,
    the full and the slice routine raise DATA_CORRUPTED, having allocated
    the result buffer and called the library once; the buffer is not
    freed. *)
Theorem pglz_corrupt_data value slicelength :
  let raw := VARDATA_COMPRESSED_GET_EXTSIZE value in
  let corrupt :=
    mkErrorData ERRCODE_DATA_CORRUPTED "compressed pglz data is corrupt" None in
  (raw + VARHDRSZ <= MaxAllocSize ->
   fst (pglz_decompress pglz (compressed_source value) raw true) < 0 ->
   pglz_decompress_datum junk pglz value
   = ([EvPalloc (raw + VARHDRSZ); EvCall "pglz_decompress"], Raise corrupt))
  /\ (0 <= slicelength + VARHDRSZ <= MaxAllocSize ->
      fst (pglz_decompress pglz (compressed_source value) slicelength false)
      < 0 ->
      pglz_decompress_datum_slice junk pglz value slicelength
      = ([EvPalloc (slicelength + VARHDRSZ); EvCall "pglz_decompress"],
         Raise corrupt)).
Proof.
  intros raw corrupt.
  assert (E4 : VARHDRSZ = 4) by reflexivity.
  assert (He : 0 <= raw < 2^30).
  { unfold raw, VARDATA_COMPRESSED_GET_EXTSIZE.
    change VARLENA_EXTSIZE_MASK with (Z.ones 30).
    rewrite Z.land_ones by lia. apply Z.mod_pos_bound. lia. }
  split.
  - intros Ha Hn. unfold pglz_decompress_datum. fold raw.
    fold (compressed_source value).
    rewrite uint32_small by lia. rewrite palloc_ok by lia.
    destruct (pglz_decompress pglz _ raw true) as [n d]. cbn [fst] in Hn.
    cbn. apply Z.ltb_lt in Hn. rewrite Hn. reflexivity.
  - intros Ha Hn. unfold pglz_decompress_datum_slice.
    fold (compressed_source value). unfold MaxAllocSize in Ha.
    rewrite int32_small by lia.
    rewrite palloc_ok by (unfold MaxAllocSize; lia).
    destruct (pglz_decompress pglz _ slicelength false) as [n d].
    cbn [fst] in Hn. cbn. apply Z.ltb_lt in Hn. rewrite Hn. reflexivity.
Qed.

(** X5.  Corrupt LZ4 data: when the decoder answers a negative number, the
    full routine raises DATA_CORRUPTED, and so does the slice routine,
    through LZ4_decompress_safe_partial from version 1.8.3 on and through
    the full routine before. *)
Theorem lz4_corrupt_data value slicelength :
  let raw := VARDATA_COMPRESSED_GET_EXTSIZE value in
  let corrupt :=
    mkErrorData ERRCODE_DATA_CORRUPTED "compressed lz4 data is corrupt" None in
  USE_LZ4 = true ->
  (raw + VARHDRSZ <= MaxAllocSize ->
   fst (LZ4_decompress_safe lz4 (compressed_source value) raw) < 0 ->
   lz4_decompress_datum junk USE_LZ4 lz4 value
   = ([EvPalloc (raw + VARHDRSZ); EvCall "LZ4_decompress_safe"],
      Raise corrupt)
   /\ (LZ4_versionNumber lz4 < 10803 ->
       raises (lz4_decompress_datum_slice junk USE_LZ4 lz4 value slicelength)
              corrupt))
  /\ (10803 <= LZ4_versionNumber lz4 ->
      0 <= slicelength + VARHDRSZ <= MaxAllocSize ->
      fst (LZ4_decompress_safe_partial lz4 (compressed_source value)
             slicelength slicelength) < 0 ->
      lz4_decompress_datum_slice junk USE_LZ4 lz4 value slicelength
      = ([EvPalloc (slicelength + VARHDRSZ);
          EvCall "LZ4_decompress_safe_partial"], Raise corrupt)).
Proof.
  intros raw corrupt Hu.
  assert (E4 : VARHDRSZ = 4) by reflexivity.
  assert (He : 0 <= raw < 2^30).
  { unfold raw, VARDATA_COMPRESSED_GET_EXTSIZE.
    change VARLENA_EXTSIZE_MASK with (Z.ones 30).
    rewrite Z.land_ones by lia. apply Z.mod_pos_bound. lia. }
  split.
  - intros Ha Hn.
    assert (Efull : lz4_decompress_datum junk USE_LZ4 lz4 value
                    = ([EvPalloc (raw + VARHDRSZ);
                        EvCall "LZ4_decompress_safe"], Raise corrupt)).
    { unfold lz4_decompress_datum. rewrite Hu. cbn [negb]. fold raw.
      fold (compressed_source value).
      rewrite uint32_small by lia. rewrite palloc_ok by lia.
      destruct (LZ4_decompress_safe lz4 _ raw) as [n d]. cbn [fst] in Hn.
      cbn. apply Z.ltb_lt in Hn. rewrite Hn. reflexivity. }
    split; [exact Efull|].
    intros Hv. rewrite lz4_slice_old_version by exact Hv.
    unfold raises. now rewrite Efull.
  - intros Hv Ha Hn. unfold lz4_decompress_datum_slice.
    rewrite Hu. cbn [negb]. apply Z.ltb_ge in Hv. rewrite Hv.
    fold (compressed_source value). unfold MaxAllocSize in Ha.
    rewrite int32_small by lia.
    rewrite palloc_ok by (unfold MaxAllocSize; lia).
    destruct (LZ4_decompress_safe_partial lz4 _ slicelength slicelength)
      as [n d].
    cbn [fst] in Hn. cbn. apply Z.ltb_lt in Hn. rewrite Hn. reflexivity.
Qed.

(** X6.  Corrupt Zstandard data: when ZSTD_isError holds of what the
    decoder returned, the full routine and the slice routine, below the raw
    size as well as at or above it, raise DATA_CORRUPTED with the library's
    name for the error in the message. *)
Theorem zstd_corrupt_data value rawsize slicelength :
  let code := fst (ZSTD_decompress zstd rawsize (frame_source value)) in
  let corrupt :=
    mkErrorData ERRCODE_DATA_CORRUPTED
      ("compressed zstd data is corrupt: " ++ ZSTD_getErrorName zstd code)
      None in
  USE_ZSTD = true ->
  0 <= rawsize -> rawsize + VARHDRSZ <= MaxAllocSize ->
  ZSTD_isError zstd code = true ->
  zstd_decompress_datum junk USE_ZSTD zstd value rawsize
  = ([EvPalloc (rawsize + VARHDRSZ); EvCall "ZSTD_decompress"], Raise corrupt)
  /\ zstd_decompress_datum_slice junk USE_ZSTD zstd value rawsize slicelength
     = ([EvPalloc (rawsize + VARHDRSZ); EvCall "ZSTD_decompress"],
        Raise corrupt).
Proof.
  intros code corrupt Hu Hr Ha He.
  assert (E4 : VARHDRSZ = 4) by reflexivity.
  unfold MaxAllocSize in Ha.
  assert (Efull : zstd_decompress_datum junk USE_ZSTD zstd value rawsize
                  = ([EvPalloc (rawsize + VARHDRSZ); EvCall "ZSTD_decompress"],
                     Raise corrupt)).
  { unfold zstd_decompress_datum. rewrite Hu. cbn [negb].
    fold (frame_source value).
    rewrite int32_small, size_t_small by lia.
    rewrite palloc_ok by (unfold MaxAllocSize; lia).
    unfold corrupt, code in *.
    destruct (ZSTD_decompress zstd rawsize _) as [n d]. cbn [fst] in *.
    cbn. rewrite He. reflexivity. }
  split; [exact Efull|].
  destruct (Z_lt_le_dec slicelength rawsize) as [Hlt|Hge].
  - unfold zstd_decompress_datum_slice. rewrite Hu. cbn [negb].
    rewrite Z.geb_leb. apply Z.leb_gt in Hlt. rewrite Hlt.
    fold (frame_source value).
    rewrite int32_small, size_t_small by lia.
    rewrite palloc_ok by (unfold MaxAllocSize; lia).
    unfold corrupt, code in *.
    destruct (ZSTD_decompress zstd rawsize _) as [n d]. cbn [fst] in *.
    cbn. rewrite He. reflexivity.
  - rewrite zstd_slice_at_least by exact Hge. exact Efull.
Qed.

(** X7.  The Zstandard size floor: in a build with the library,
    zstd_compress_datum returns None with an empty log (nothing allocated,
    the library not called) exactly when the input is shorter than 32
    bytes. *)
Theorem zstd_floor value :
  USE_ZSTD = true ->
  zstd_compress_datum VARTAG_SIZE junk USE_ZSTD zstd value = ret None
  <-> valsize_of value < 32.
Proof.
  intros Hu. unfold zstd_compress_datum. rewrite Hu. cbn [negb].
  destruct (valsize_of value <? 32) eqn:E.
  - apply Z.ltb_lt in E. split; [intros _; exact E|reflexivity].
  - apply Z.ltb_ge in E. split; [|lia].
    unfold palloc. destruct (size_t _ <=? MaxAllocSize).
    + unfold bind at 1. destruct (bind _ _). discriminate.
    + cbn. discriminate.
Qed.

(** X8.  Every buffer accounted for: whatever the input and the library,
    a compress routine that returns None has freed what it allocated, one
    that returns a value has allocated exactly that one buffer and freed
    nothing, and the LZ4 routine, which has no size gate, never returns
    None without having allocated and called the library. *)
Theorem compress_allocation_balance m value :
  let t := trace (compress m value) in
  match result (compress m value) with
  | Return None =>
      allocations t = frees t
      /\ (m = LZ4 -> allocations t = 1%nat /\ library_calls t = 1%nat)
  | Return (Some _) =>
      allocations t = 1%nat /\ frees t = 0%nat /\ library_calls t = 1%nat
  | Raise _ => frees t = 0%nat
  end.
Proof.
  destruct m; cbn [Codec.compress].
  - unfold pglz_compress_datum.
    destruct (_ || _); [cbn; split; [reflexivity|discriminate]|].
    unfold palloc. destruct (size_t _ <=? MaxAllocSize); [|reflexivity].
    destruct (pglz_compress pglz _) as [len out].
    cbn. destruct (len <? 0); cbn; auto.
  - unfold lz4_compress_datum.
    destruct USE_LZ4; cbn [negb]; [|reflexivity].
    unfold palloc. destruct (size_t _ <=? MaxAllocSize); [|reflexivity].
    destruct (LZ4_compress_default lz4 _ _) as [len out].
    cbn. destruct (len <=? 0); [reflexivity|].
    destruct (len >? _); cbn; auto.
  - unfold zstd_compress_datum.
    destruct USE_ZSTD; cbn [negb]; [|reflexivity].
    destruct (_ <? 32); [cbn; split; [reflexivity|discriminate]|].
    unfold palloc. destruct (size_t _ <=? MaxAllocSize); [|reflexivity].
    destruct (ZSTD_compress zstd _ _ 3) as [len out].
    cbn. destruct (ZSTD_isError zstd len); [reflexivity|].
    destruct (len >=? _); cbn; auto.
Qed.

(** X16.  How large a returned value can be: the size a compress routine
    records never exceeds the buffer it returns; for Zstandard it is
    strictly below the size of the input under a four-byte header, for LZ4
    it can reach the input's length plus the eight-byte compressed header,
    four bytes more than the plain datum, and for pglz it is whatever
    pglz_compress accepted. *)
Theorem compressed_size_bounds m value B c :
  supported_length B -> holds value B ->
  returns (compress m value) (Some c) ->
  writes_within_bound pglz lz4 zstd m B ->
  VARSIZE c <= Z.of_nat (length c)
  /\ match m with
     | PGLZ => VARHDRSZ_COMPRESSED <= VARSIZE c
     | LZ4 =>
         VARHDRSZ_COMPRESSED < VARSIZE c
         <= Z.of_nat (length B) + VARHDRSZ_COMPRESSED
     | ZSTD => VARSIZE c < Z.of_nat (length B) + VARHDRSZ
     end.
Proof.
  intros Hsup Hh Hret Hw.
  destruct (compress_framed _ _ _ _ _ _ _ _ _ _ _ Hsup Hh Hret Hw)
    as (_ & Hf & _).
  destruct (compress_payload_length _ _ _ _ _ _ _ _ _ _ _ Hsup Hh Hret Hw)
    as (_ & Hp).
  split.
  - destruct Hf as (Hlen & Hs & rest & Hrest).
    apply (f_equal (@length byte)) in Hrest.
    unfold ptr_add in Hrest. rewrite length_skipn, length_app in Hrest.
    destruct m; lia.
  - unfold payload_length in Hp. destruct m; lia.
Qed.

End RoutineProperties.

(** ** Bytes within and beyond a datum *)

Module SlackFacts.

Lemma load_u8_firstn p n i :
  0 <= i -> i < Z.of_nat n -> load_u8 (firstn n p) i = load_u8 p i.
Proof.
  intros H0 H1. unfold load_u8. rewrite nth_firstn.
  destruct (Nat.ltb_spec (Z.to_nat i) n); [reflexivity|lia].
Qed.

Lemma load_u32_firstn p n i :
  0 <= i -> i + 4 <= Z.of_nat n -> load_u32 (firstn n p) i = load_u32 p i.
Proof.
  intros H0 H1. unfold load_u32.
  rewrite !load_u8_firstn by lia. reflexivity.
Qed.

Lemma load_u32_range p i : 0 <= load_u32 p i < 2^32.
Proof.
  unfold load_u32, load_u8.
  pose proof (u8_range (nth (Z.to_nat i) p x00)).
  pose proof (u8_range (nth (Z.to_nat (i + 1)) p x00)).
  pose proof (u8_range (nth (Z.to_nat (i + 2)) p x00)).
  pose proof (u8_range (nth (Z.to_nat (i + 3)) p x00)).
  lia.
Qed.

Lemma mem_read_firstn p n h k :
  0 <= h -> 0 <= k -> h + k <= Z.of_nat n ->
  mem_read (ptr_add (firstn n p) h) k = mem_read (ptr_add p h) k.
Proof.
  intros Hh Hk Hn. unfold mem_read, ptr_add.
  rewrite skipn_firstn_comm, firstn_firstn. f_equal. lia.
Qed.

Lemma VARSIZE_firstn p n :
  4 <= Z.of_nat n -> VARSIZE (firstn n p) = VARSIZE p.
Proof.
  intros H. unfold VARSIZE, VARSIZE_4B, va_header_4b.
  now rewrite load_u32_firstn by lia.
Qed.

Lemma firstn_seq_le n start len :
  (n <= len)%nat -> firstn n (seq start len) = seq start n.
Proof.
  revert start len. induction n as [|n IH]; intros start len H.
  - reflexivity.
  - destruct len as [|len]; [lia|].
    cbn [seq firstn]. f_equal. apply IH. lia.
Qed.

Lemma load_u32_head v rest :
  0 <= v < 2^32 -> load_u32 (bytes_of_u32 v ++ rest) 0 = v.
Proof.
  intros Hv. unfold load_u32, load_u8, bytes_of_u32.
  change (Z.to_nat 0) with 0%nat. change (Z.to_nat (0 + 1)) with 1%nat.
  change (Z.to_nat (0 + 2)) with 2%nat. change (Z.to_nat (0 + 3)) with 3%nat.
  cbn [app nth]. rewrite !u8_byte_of. now apply u32_bytes_sum.
Qed.

Lemma load_u32_tail v rest i :
  0 <= i -> load_u32 (bytes_of_u32 v ++ rest) (4 + i) = load_u32 rest i.
Proof.
  intros Hi. unfold load_u32, load_u8, bytes_of_u32.
  replace (Z.to_nat (4 + i)) with (4 + Z.to_nat i)%nat by lia.
  replace (Z.to_nat (4 + i + 1)) with (4 + Z.to_nat (i + 1))%nat by lia.
  replace (Z.to_nat (4 + i + 2)) with (4 + Z.to_nat (i + 2))%nat by lia.
  replace (Z.to_nat (4 + i + 3)) with (4 + Z.to_nat (i + 3))%nat by lia.
  reflexivity.
Qed.

Lemma load_u32_fields a b c d :
  0 <= a < 2^32 -> 0 <= b < 2^32 -> 0 <= c < 2^32 -> 0 <= d < 2^32 ->
  let p := bytes_of_u32 a ++ bytes_of_u32 b ++ bytes_of_u32 c
             ++ bytes_of_u32 d in
  load_u32 p 0 = a /\ load_u32 p 4 = b /\ load_u32 p 8 = c
  /\ load_u32 p 12 = d.
Proof.
  intros Ha Hb Hc Hd p. unfold p.
  rewrite <- (app_nil_r (bytes_of_u32 d)).
  repeat split.
  - now apply load_u32_head.
  - rewrite (load_u32_tail a _ 0) by lia. now apply load_u32_head.
  - rewrite (load_u32_tail a _ 4), (load_u32_tail b _ 0) by lia.
    now apply load_u32_head.
  - rewrite (load_u32_tail a _ 8), (load_u32_tail b _ 4),
      (load_u32_tail c _ 0) by lia.
    now apply load_u32_head.
Qed.

Lemma int32_uint32 x : - 2^31 <= x < 2^31 -> int32 (uint32 x) = x.
Proof.
  intros H. unfold int32, uint32.
  rewrite Zplus_mod_idemp_l. rewrite Z.mod_small; lia.
Qed.

End SlackFacts.
Import SlackFacts.

Section SlackProperties.

Variable junk : nat -> byte.
Variable USE_LZ4 USE_ZSTD : bool.
Variable pglz : pglz_library.
Variable lz4 : lz4_library.
Variable zstd : zstd_library.

(** X9.  No read past the recorded size: each of the six decompress
    routines answers the same on a compressed datum and on its first
    VARSIZE bytes; whatever lies in the allocation after the datum has no
    part in the result. *)
Theorem decompress_ignores_slack value rawsize slicelength :
  VARHDRSZ_COMPRESSED <= VARSIZE value <= Z.of_nat (length value) ->
  pglz_decompress_datum junk pglz (trimmed value)
  = pglz_decompress_datum junk pglz value
  /\ pglz_decompress_datum_slice junk pglz (trimmed value) slicelength
     = pglz_decompress_datum_slice junk pglz value slicelength
  /\ lz4_decompress_datum junk USE_LZ4 lz4 (trimmed value)
     = lz4_decompress_datum junk USE_LZ4 lz4 value
  /\ lz4_decompress_datum_slice junk USE_LZ4 lz4 (trimmed value) slicelength
     = lz4_decompress_datum_slice junk USE_LZ4 lz4 value slicelength
  /\ zstd_decompress_datum junk USE_ZSTD zstd (trimmed value) rawsize
     = zstd_decompress_datum junk USE_ZSTD zstd value rawsize
  /\ zstd_decompress_datum_slice junk USE_ZSTD zstd (trimmed value) rawsize
       slicelength
     = zstd_decompress_datum_slice junk USE_ZSTD zstd value rawsize
         slicelength.
Proof.
  intros Hs.
  assert (E4 : VARHDRSZ = 4) by reflexivity.
  assert (E8 : VARHDRSZ_COMPRESSED = 8) by reflexivity.
  pose proof (VARSIZE_range value) as Hr.
  assert (Hv : VARSIZE (trimmed value) = VARSIZE value)
    by (apply VARSIZE_firstn; lia).
  assert (Ht : VARDATA_COMPRESSED_GET_EXTSIZE (trimmed value)
               = VARDATA_COMPRESSED_GET_EXTSIZE value).
  { unfold VARDATA_COMPRESSED_GET_EXTSIZE, va_tcinfo, trimmed.
    now rewrite load_u32_firstn by lia. }
  assert (Hc : mem_read (ptr_add (trimmed value) VARHDRSZ_COMPRESSED)
                 (int32 (VARSIZE value - VARHDRSZ_COMPRESSED))
               = mem_read (ptr_add value VARHDRSZ_COMPRESSED)
                   (int32 (VARSIZE value - VARHDRSZ_COMPRESSED))).
  { rewrite int32_small by lia. apply mem_read_firstn; lia. }
  assert (Hf : mem_read (ptr_add (trimmed value) VARHDRSZ)
                 (uint32 (VARSIZE value - VARHDRSZ))
               = mem_read (ptr_add value VARHDRSZ)
                   (uint32 (VARSIZE value - VARHDRSZ))).
  { rewrite uint32_small by lia. apply mem_read_firstn; lia. }
  assert (Efull : lz4_decompress_datum junk USE_LZ4 lz4 (trimmed value)
                  = lz4_decompress_datum junk USE_LZ4 lz4 value).
  { unfold lz4_decompress_datum. now rewrite Hv, Ht, Hc. }
  assert (Ezfull : zstd_decompress_datum junk USE_ZSTD zstd (trimmed value)
                     rawsize
                   = zstd_decompress_datum junk USE_ZSTD zstd value rawsize).
  { unfold zstd_decompress_datum. now rewrite Hv, Hf. }
  repeat split.
  - unfold pglz_decompress_datum. now rewrite Hv, Ht, Hc.
  - unfold pglz_decompress_datum_slice. now rewrite Hv, Hc.
  - exact Efull.
  - unfold lz4_decompress_datum_slice. now rewrite Efull, Hv, Hc.
  - exact Ezfull.
  - unfold zstd_decompress_datum_slice. now rewrite Ezfull, Hv, Hf.
Qed.

(** X10.  A slice is cut from the buffer, not from what was decoded: below
    the declared raw size the Zstandard slice routine does not look at the
    size the decoder reports, so the datum returned is the first
    [slicelength] bytes of the buffer as the library left it: the bytes
    [d] the library wrote, which may be more than the [n] it reports, and
    behind them what the allocator left there.  When fewer than
    [slicelength] bytes were written, the datum ends in bytes that were
    never initialised. *)
Theorem zstd_short_frame_exposes_leftover VARTAG_SIZE value rawsize
    slicelength n d :
  USE_ZSTD = true ->
  0 <= slicelength < rawsize ->
  rawsize + VARHDRSZ <= MaxAllocSize ->
  ZSTD_decompress zstd rawsize (frame_source value) = (n, d) ->
  ZSTD_isError zstd n = false ->
  Z.of_nat (length d) <= rawsize ->
  exists r,
    returns (zstd_decompress_datum_slice junk USE_ZSTD zstd value rawsize
               slicelength) r
    /\ datum_of VARTAG_SIZE r
       = firstn (Z.to_nat slicelength)
           (d ++ map junk
                   (seq (Z.to_nat VARHDRSZ + length d)
                        (Z.to_nat rawsize - length d))).
Proof.
  intros Hu Hk Ha Hl He Hd.
  assert (E4 : VARHDRSZ = 4) by reflexivity.
  unfold MaxAllocSize in Ha.
  unfold returns, zstd_decompress_datum_slice. rewrite Hu. cbn [negb].
  rewrite Z.geb_leb.
  destruct (rawsize <=? slicelength) eqn:El; [apply Z.leb_le in El; lia|].
  rewrite (int32_small (rawsize + VARHDRSZ)) by lia.
  step_bind. rewrite palloc_ok by (unfold MaxAllocSize; lia).
  cbn [result snd]. step_bind.
  rewrite size_t_small by lia.
  fold (frame_source value). rewrite Hl, He.
  eexists. split; [reflexivity|].
  set (buf := mem_write (fresh junk (rawsize + VARHDRSZ)) VARHDRSZ d).
  pose proof (length_mem_write_ge (fresh junk (rawsize + VARHDRSZ)) VARHDRSZ d
                ltac:(rewrite length_fresh; lia)) as Hw.
  fold buf in Hw.
  destruct (kind_SET_VARSIZE buf (slicelength + VARHDRSZ)
              ltac:(lia) ltac:(lia)) as (K1 & K2 & _).
  unfold datum_of, VARSIZE_ANY_EXHDR, VARDATA_ANY. rewrite K2, K1.
  fold VARSIZE VARDATA.
  rewrite VARSIZE_SET_VARSIZE, VARDATA_SET_VARSIZE by lia.
  replace (slicelength + VARHDRSZ - VARHDRSZ) with slicelength by lia.
  unfold VARDATA, VARDATA_4B, buf. change 4 with VARHDRSZ.
  rewrite ptr_add_mem_write by (rewrite ?length_fresh; lia).
  unfold mem_read. do 2 f_equal.
  unfold fresh. rewrite skipn_map, skipn_seq. do 2 f_equal; lia.
Qed.

(** X17.  The Zstandard slice routine decodes the whole value: whatever the
    slice length, it allocates and calls the library exactly as the full
    routine does and raises exactly when the full routine raises; when the
    full routine returns, the slice routine returns a buffer of the same
    length with the same bytes after the length word.  Only the recorded
    size can differ. *)
Theorem zstd_slice_decodes_whole value rawsize slicelength :
  let slice :=
    zstd_decompress_datum_slice junk USE_ZSTD zstd value rawsize slicelength in
  let full := zstd_decompress_datum junk USE_ZSTD zstd value rawsize in
  trace slice = trace full
  /\ (forall e, raises slice e <-> raises full e)
  /\ (0 <= rawsize < 2^31 ->
      forall r, returns full r ->
      exists r', returns slice r'
                 /\ length r' = length r
                 /\ VARDATA r' = VARDATA r).
Proof.
  unfold zstd_decompress_datum_slice.
  destruct (negb USE_ZSTD) eqn:Eu.
  { unfold zstd_decompress_datum. rewrite Eu. cbn.
    split; [reflexivity|split; [reflexivity|]].
    intros _ r Hr. discriminate Hr. }
  destruct (slicelength >=? rawsize).
  { cbn zeta. split; [reflexivity|split; [reflexivity|]].
    intros _ r Hr. exists r. now repeat split. }
  unfold zstd_decompress_datum. rewrite Eu.
  unfold palloc.
  destruct (size_t (int32 (rawsize + VARHDRSZ)) <=? MaxAllocSize) eqn:Ea;
    [|cbn; split; [reflexivity|split; [reflexivity|]];
      intros _ r Hr; discriminate Hr].
  apply Z.leb_le in Ea.
  destruct (ZSTD_decompress zstd (size_t rawsize) _) as [n out] eqn:Ed.
  unfold bind, call, returns, raises, trace, result, ret, ereport.
  cbn [fst snd app].
  destruct (ZSTD_isError zstd n) eqn:Ee; cbn [fst snd app].
  { split; [reflexivity|split; [reflexivity|]].
    intros _ r Hr. discriminate Hr. }
  split; [reflexivity|split; [split; intros H; discriminate H|]].
  intros Hraw r Hr. injection Hr as <-.
  set (buf := mem_write _ VARHDRSZ out).
  assert (Hs : 4 <= size_t (int32 (rawsize + VARHDRSZ))).
  { unfold MaxAllocSize in Ea. unfold size_t, int32, VARHDRSZ in *.
    destruct (Z.lt_ge_cases (rawsize + 4) (2^31)) as [Hlt|Hge].
    - rewrite (Z.mod_small (rawsize + 4 + 2^31)) by lia.
      rewrite Z.mod_small by lia. lia.
    - exfalso.
      assert (E : (rawsize + 4 + 2^31) mod 2^32 = rawsize + 4 - 2^31)
        by (symmetry; apply (Z.mod_unique _ _ 1); lia).
      rewrite E in Ea.
      assert (E' : (rawsize + 4 - 2^31 - 2^31) mod 2^64
                   = rawsize + 4 - 2^32 + 2^64)
        by (symmetry; apply (Z.mod_unique _ _ (-1)); lia).
      rewrite E' in Ea. lia. }
  assert (Hlen : 4 <= Z.of_nat (length buf)).
  { subst buf. unfold mem_write.
    pose proof (length_fresh junk (size_t (int32 (rawsize + VARHDRSZ)))
                  ltac:(lia)) as Hf.
    rewrite length_app, length_firstn.
    change (Z.to_nat VARHDRSZ) with 4%nat. lia. }
  eexists. split; [reflexivity|].
  rewrite !length_SET_VARSIZE by exact Hlen.
  split; [reflexivity|].
  now rewrite !VARDATA_SET_VARSIZE by exact Hlen.
Qed.

End SlackProperties.

(** ** Compression and the resolver together *)

Section CompositionProperties.

Variable VARTAG_SIZE : Z -> Z.
Variable junk : nat -> byte.
Variable USE_LZ4 USE_ZSTD : bool.
Variable pglz : pglz_library.
Variable lz4 : lz4_library.
Variable zstd : zstd_library.
Variable VARTAG_ONDISK_ZSTD : Z.
Variable TOAST_ZSTD_COMPRESSION_ID : ToastCompressionId.

Local Abbreviation compress :=
  (Codec.compress VARTAG_SIZE junk USE_LZ4 USE_ZSTD pglz lz4 zstd).
Local Abbreviation decompress_slice :=
  (Codec.decompress_slice junk USE_LZ4 USE_ZSTD pglz lz4 zstd).
Local Abbreviation holds := (Varatt.holds VARTAG_SIZE).
Local Abbreviation resolve :=
  (toast_get_compression_id VARTAG_ONDISK_ZSTD TOAST_ZSTD_COMPRESSION_ID).

(** X11.  What the resolver makes of a freshly compressed value: the value
    pglz_compress_datum or lz4_compress_datum returns, once its caller has
    recorded raw size and method in it, resolves to that method; the value
    zstd_compress_datum returns is a plain datum and resolves to the
    invalid id: inline, nothing in it says Zstandard. *)
Theorem resolve_compressed_value m value B c :
  supported_length B ->
  holds value B ->
  returns (compress m value) (Some c) ->
  writes_within_bound pglz lz4 zstd m B ->
  match m with
  | PGLZ =>
      resolve (TOAST_COMPRESS_SET_SIZE_AND_COMPRESS_METHOD c
                 (Z.of_nat (length B)) TOAST_PGLZ_COMPRESSION_ID)
      = TOAST_PGLZ_COMPRESSION_ID
  | LZ4 =>
      resolve (TOAST_COMPRESS_SET_SIZE_AND_COMPRESS_METHOD c
                 (Z.of_nat (length B)) TOAST_LZ4_COMPRESSION_ID)
      = TOAST_LZ4_COMPRESSION_ID
  | ZSTD => resolve c = TOAST_INVALID_COMPRESSION_ID
  end.
Proof.
  intros Hsup Hh Hret Hw.
  assert (E4 : VARHDRSZ = 4) by reflexivity.
  assert (E8 : VARHDRSZ_COMPRESSED = 8) by reflexivity.
  pose proof Hsup as Hsup'. unfold supported_length, MaxAllocSize in Hsup'.
  unfold writes_within_bound in Hw.
  destruct m; cbn [Codec.compress algorithm_output] in *.
  - pose proof (pglz_compress_datum_inv _ _ _ _ _ _ Hh Hsup Hret) as [Hl Hc].
    destruct (pglz_compress pglz B) as [len out]. cbn [fst snd] in *.
    destruct Hw as [Hlo Hb]. unfold PGLZ_MAX_OUTPUT in *. subst c.
    pose proof (length_mem_write_ge
                  (fresh junk (Z.of_nat (length B) + 4 + VARHDRSZ_COMPRESSED))
                  VARHDRSZ_COMPRESSED out
                  ltac:(rewrite length_fresh; lia)) as Hge.
    apply resolve_inline_compressed;
      unfold TOAST_PGLZ_COMPRESSION_ID; lia.
  - pose proof (lz4_compress_datum_inv _ _ _ _ _ _ _ Hh Hsup Hret)
      as (Hu & Hl & Hsz & Hc).
    destruct (LZ4_compress_default lz4 B _) as [len out]. cbn [fst snd] in *.
    destruct Hw as [Hlo Hb].
    pose proof (int32_range (LZ4_compressBound lz4 (Z.of_nat (length B))))
      as Hr.
    rewrite size_t_small in Hc by lia. subst c.
    pose proof (length_mem_write_ge
                  (fresh junk (int32 (LZ4_compressBound lz4
                                        (Z.of_nat (length B)))
                               + VARHDRSZ_COMPRESSED))
                  VARHDRSZ_COMPRESSED out
                  ltac:(rewrite length_fresh; lia)) as Hge.
    apply resolve_inline_compressed;
      unfold TOAST_LZ4_COMPRESSION_ID; lia.
  - pose proof (zstd_compress_datum_inv _ _ _ _ _ _ _ Hh Hsup Hret)
      as (Hu & H32 & He & Hl & Hsz & Hc).
    destruct (ZSTD_compress zstd _ B 3) as [len out]. cbn [fst snd] in *.
    destruct Hw as [Hlo Hb].
    pose proof (size_t_range (ZSTD_compressBound zstd (Z.of_nat (length B))))
      as Hr.
    rewrite (size_t_small (_ + _)) in Hc by lia. subst c.
    pose proof (length_mem_write_ge
                  (fresh junk (size_t (ZSTD_compressBound zstd
                                         (Z.of_nat (length B))) + VARHDRSZ))
                  VARHDRSZ out ltac:(rewrite length_fresh; lia)) as Hge.
    destruct (kind_SET_VARSIZE
                (mem_write
                   (fresh junk (size_t (ZSTD_compressBound zstd
                                          (Z.of_nat (length B))) + VARHDRSZ))
                   VARHDRSZ out) (len + VARHDRSZ) ltac:(lia) ltac:(lia))
      as (_ & K2 & K3).
    unfold toast_get_compression_id, VARATT_IS_EXTERNAL_ONDISK_ZSTD,
      VARATT_IS_EXTERNAL_ONDISK, VARATT_IS_EXTERNAL, VARATT_IS_COMPRESSED.
    fold SET_VARSIZE in K2, K3. now rewrite K2, K3.
Qed.

(** X12.  A slice asked beyond the end: for Zstandard, a slice length at or
    above the raw size gives back the whole of [B], no more and no less,
    however large the length asked. *)
Theorem zstd_slice_beyond_end value B c k :
  supported_length B ->
  holds value B ->
  returns (compress ZSTD value) (Some c) ->
  Z.of_nat (length B) <= k ->
  writes_within_bound pglz lz4 zstd ZSTD B ->
  decodes_own_output pglz lz4 zstd ZSTD B ->
  exists r, returns (decompress_slice ZSTD c (Z.of_nat (length B)) k) r
            /\ holds r B.
Proof.
  intros Hsup Hh Hret Hk Hw Hd.
  destruct (compress_framed _ _ _ _ _ _ _ _ _ _ _ Hsup Hh Hret Hw)
    as (Hav & Hf & _).
  assert (E4 : VARHDRSZ = 4) by reflexivity.
  unfold supported_length, MaxAllocSize in Hsup.
  unfold decodes_own_output in Hd. destruct Hd as [Hd He].
  cbn [Codec.decompress_slice available] in *.
  rewrite zstd_slice_at_least by exact Hk.
  apply zstd_decompress_datum_framed
    with (src := snd (algorithm_output pglz lz4 zstd ZSTD B))
         (n := Z.of_nat (length B));
    try assumption; try lia.
  unfold MaxAllocSize; lia.
Qed.

(** X13.  Only the payload counts: two data that hold the same bytes, under
    whichever headers (a short one-byte header, a four-byte one), are
    compressed to the same result by every method, log and all. *)
Theorem compress_ignores_header m value value' B :
  supported_length B ->
  holds value B ->
  holds value' B ->
  compress m value = compress m value'.
Proof.
  intros Hsup Hh Hh'.
  destruct (valsize_of_holds _ _ _ Hh Hsup) as [Hv Hd].
  destruct (valsize_of_holds _ _ _ Hh' Hsup) as [Hv' Hd'].
  destruct m; cbn [Codec.compress].
  - unfold pglz_compress_datum. now rewrite Hv, Hv', Hd, Hd'.
  - unfold lz4_compress_datum. now rewrite Hv, Hv', Hd, Hd'.
  - unfold zstd_compress_datum. now rewrite Hv, Hv', Hd, Hd'.
Qed.

(** X14.  The range of the resolver: on any bytes whatever, the id
    toast_get_compression_id returns is the Zstandard id or one of the four
    values 0 to 3 that two bits can hold. *)
Theorem resolver_range attr :
  let id :=
    toast_get_compression_id VARTAG_ONDISK_ZSTD TOAST_ZSTD_COMPRESSION_ID
      attr in
  id = TOAST_ZSTD_COMPRESSION_ID
  \/ TOAST_PGLZ_COMPRESSION_ID <= id <= TOAST_EXTENDED_COMPRESSION_ID.
Proof.
  assert (Hb : forall w, 0 <= w < 2^32 ->
            0 <= Z.shiftr w VARLENA_EXTSIZE_BITS <= 3).
  { intros w Hw. unfold VARLENA_EXTSIZE_BITS.
    rewrite Z.shiftr_div_pow2 by lia.
    split; [apply Z.div_pos; lia|].
    assert (w / 2^30 < 4) by (apply Z.div_lt_upper_bound; lia). lia. }
  unfold toast_get_compression_id, TOAST_PGLZ_COMPRESSION_ID,
    TOAST_EXTENDED_COMPRESSION_ID.
  cbn zeta.
  destruct (VARATT_IS_EXTERNAL_ONDISK_ZSTD _ attr); [now left|right].
  destruct (VARATT_IS_EXTERNAL_ONDISK attr).
  - destruct (VARATT_EXTERNAL_IS_COMPRESSED _);
      [|unfold TOAST_INVALID_COMPRESSION_ID; lia].
    unfold VARATT_EXTERNAL_GET_COMPRESS_METHOD, VARATT_EXTERNAL_GET_POINTER.
    cbn [va_extinfo]. apply Hb, load_u32_range.
  - destruct (VARATT_IS_COMPRESSED attr);
      [|unfold TOAST_INVALID_COMPRESSION_ID; lia].
    unfold VARDATA_COMPRESSED_GET_COMPRESS_METHOD, va_tcinfo.
    apply Hb, load_u32_range.
Qed.

(** X15.  An on-disk external pointer through its bytes: the pointer read
    back from an external datum is the pointer stored in it, and, the
    on-disk tag not being the Zstandard one, the datum resolves to the
    method in the top two bits of va_extinfo when the stored size is below
    the raw size less the header, and to the invalid id otherwise, whatever
    those two bits are. *)
Theorem external_pointer_resolution tp :
  VARTAG_ONDISK_ZSTD <> VARTAG_ONDISK ->
  - 2^31 <= va_rawsize tp < 2^31 ->
  0 <= va_extinfo tp < 2^32 ->
  0 <= va_valueid tp < 2^32 ->
  0 <= va_toastrelid tp < 2^32 ->
  VARATT_EXTERNAL_GET_POINTER (external_datum VARTAG_ONDISK tp) = tp
  /\ resolve (external_datum VARTAG_ONDISK tp)
     = if VARATT_EXTERNAL_GET_EXTSIZE tp <? uint32 (va_rawsize tp - VARHDRSZ)
       then VARATT_EXTERNAL_GET_COMPRESS_METHOD tp
       else TOAST_INVALID_COMPRESSION_ID.
Proof.
  intros Ht Hr He Hv Hl.
  assert (Hp : VARATT_EXTERNAL_GET_POINTER (external_datum VARTAG_ONDISK tp)
               = tp).
  { destruct tp as [r e v l]. cbn [va_rawsize va_extinfo va_valueid
                                     va_toastrelid] in *.
    unfold VARATT_EXTERNAL_GET_POINTER, VARDATA_EXTERNAL, VARDATA_1B_E,
      ptr_add, external_datum.
    change (Z.to_nat 2) with 2%nat. cbn [app skipn].
    cbn [va_rawsize va_extinfo va_valueid va_toastrelid].
    destruct (load_u32_fields (uint32 r) e v l) as (E0 & E4 & E8 & E12);
      try assumption; [unfold uint32; apply Z.mod_pos_bound; lia|].
    rewrite E0, E4, E8, E12.
    now rewrite int32_uint32 by assumption. }
  split; [exact Hp|].
  unfold toast_get_compression_id. rewrite Hp.
  assert (Ek : VARATT_IS_EXTERNAL (external_datum VARTAG_ONDISK tp) = true)
    by reflexivity.
  assert (Eg : VARTAG_EXTERNAL (external_datum VARTAG_ONDISK tp)
               = VARTAG_ONDISK) by reflexivity.
  unfold VARATT_IS_EXTERNAL_ONDISK_ZSTD, VARATT_IS_EXTERNAL_ONDISK.
  rewrite Ek, Eg. cbn [andb].
  apply not_eq_sym, Z.eqb_neq in Ht. rewrite Ht, Z.eqb_refl.
  reflexivity.
Qed.

End CompositionProperties.

(** * The further properties on concrete data *)

Import MoreSamples.

(** With the NUL sentinel of toast_compression.h the message for an
    unknown name ends after the blank; with a printable one the character
    follows. *)
Lemma name_of_resolved_method_witness :
  GetCompressionMethodName "p" "l" "z" "l" = ret "lz4"%string
  /\ raises (GetCompressionMethodName "p" "l" "z" "000")
            (mkErrorData ERRCODE_INTERNAL_ERROR
               "invalid compression method " None)
  /\ raises (GetCompressionMethodName "p" "l" "z" "?")
            (mkErrorData ERRCODE_INTERNAL_ERROR
               "invalid compression method ?" None).
Proof.
  split; [|split].
  - exact (name_of_resolved_method true true "p" "l" "z" "000" "lz4" "l"
             ltac:(discriminate) ltac:(discriminate) ltac:(discriminate)
             ltac:(discriminate) ltac:(discriminate) ltac:(discriminate)
             eq_refl).
  - exact (proj2
             (name_of_resolved_method true true "p" "l" "z" "000" "brotli"
                "000"
                ltac:(discriminate) ltac:(discriminate) ltac:(discriminate)
                ltac:(discriminate) ltac:(discriminate) ltac:(discriminate)
                eq_refl)).
  - exact (proj2
             (name_of_resolved_method true true "p" "l" "z" "?" "brotli" "?"
                ltac:(discriminate) ltac:(discriminate) ltac:(discriminate)
                ltac:(discriminate) ltac:(discriminate) ltac:(discriminate)
                eq_refl)).
Defined.

Lemma method_of_returned_name_witness :
  CompressionNameToMethod true true "p" "l" "z" "000" "zstd" = ret "z"%char
  /\ raises (CompressionNameToMethod false true "p" "l" "z" "000" "lz4")
            (feature_not_supported "lz4").
Proof.
  split.
  - exact (method_of_returned_name true true "p" "l" "z" "000" "z" "zstd"
             eq_refl).
  - exact (method_of_returned_name false true "p" "l" "z" "000" "l" "lz4"
             eq_refl).
Defined.

Lemma unavailable_method_raises_witness :
  Codec.compress tag_size leftover false true (rl_pglz strategy_default)
    (rl_lz4 10803) rl_zstd LZ4 (make_varlena forty_a)
  = NO_COMPRESSION_SUPPORT "lz4"
  /\ Codec.decompress_slice leftover true false (rl_pglz strategy_default)
       (rl_lz4 10803) rl_zstd ZSTD (make_varlena frame_forty_a) 40 5
     = NO_COMPRESSION_SUPPORT "zstd".
Proof.
  split.
  - apply (unavailable_method_raises tag_size leftover false true
             (rl_pglz strategy_default) (rl_lz4 10803) rl_zstd
             LZ4 (make_varlena forty_a) 0 0).
    reflexivity.
  - apply (unavailable_method_raises tag_size leftover true false
             (rl_pglz strategy_default) (rl_lz4 10803) rl_zstd
             ZSTD (make_varlena frame_forty_a) 40 5).
    reflexivity.
Defined.

(** A frame of forty bytes declared as thirty-nine, and a frame cut in the
    middle of a pair. *)
Lemma pglz_corrupt_data_witness :
  raises (pglz_decompress_datum leftover (rl_pglz_strict strategy_default)
            (make_compressed 39 0 frame_forty_a))
         (mkErrorData ERRCODE_DATA_CORRUPTED "compressed pglz data is corrupt"
            None)
  /\ raises (pglz_decompress_datum_slice leftover
               (rl_pglz_strict strategy_default)
               (make_compressed 40 0 frame_cut) 5)
            (mkErrorData ERRCODE_DATA_CORRUPTED
               "compressed pglz data is corrupt" None).
Proof.
  split.
  - unfold raises.
    rewrite (proj1 (pglz_corrupt_data leftover
                      (rl_pglz_strict strategy_default)
                      (make_compressed 39 0 frame_forty_a) 5));
      [reflexivity | computed | computed].
  - unfold raises.
    rewrite (proj2 (pglz_corrupt_data leftover
                      (rl_pglz_strict strategy_default)
                      (make_compressed 40 0 frame_cut) 5));
      [reflexivity | computed | computed].
Defined.

Lemma lz4_corrupt_data_witness :
  raises (lz4_decompress_datum leftover true (rl_lz4_strict 10802)
            (make_compressed 40 1 frame_cut))
         (mkErrorData ERRCODE_DATA_CORRUPTED "compressed lz4 data is corrupt"
            None)
  /\ raises (lz4_decompress_datum_slice leftover true (rl_lz4_strict 10802)
               (make_compressed 40 1 frame_cut) 5)
            (mkErrorData ERRCODE_DATA_CORRUPTED
               "compressed lz4 data is corrupt" None)
  /\ raises (lz4_decompress_datum_slice leftover true (rl_lz4_strict 10803)
               (make_compressed 40 1 frame_cut) 5)
            (mkErrorData ERRCODE_DATA_CORRUPTED
               "compressed lz4 data is corrupt" None).
Proof.
  destruct (lz4_corrupt_data leftover true (rl_lz4_strict 10802)
              (make_compressed 40 1 frame_cut) 5 eq_refl) as [Hold _].
  destruct Hold as [Hfull Hslice]; [computed | computed |].
  destruct (lz4_corrupt_data leftover true (rl_lz4_strict 10803)
              (make_compressed 40 1 frame_cut) 5 eq_refl) as [_ Hnew].
  split; [unfold raises; rewrite Hfull; reflexivity|].
  split; [apply Hslice; computed|].
  unfold raises. rewrite Hnew; [reflexivity | computed | computed | computed].
Defined.

(** A frame of forty bytes declared as ten. *)
Lemma zstd_corrupt_data_witness :
  raises (zstd_decompress_datum leftover true rl_zstd
            (make_varlena frame_forty_a) 10)
         (mkErrorData ERRCODE_DATA_CORRUPTED
            "compressed zstd data is corrupt: Destination buffer is too small"
            None)
  /\ raises (zstd_decompress_datum_slice leftover true rl_zstd
               (make_varlena frame_forty_a) 10 5)
            (mkErrorData ERRCODE_DATA_CORRUPTED
               "compressed zstd data is corrupt: Destination buffer is too small"
               None).
Proof.
  destruct (zstd_corrupt_data leftover true rl_zstd
              (make_varlena frame_forty_a) 10 5)
    as [Hfull Hslice]; [reflexivity | computed | computed | computed |].
  unfold raises. rewrite Hfull, Hslice. split; reflexivity.
Defined.

Lemma zstd_floor_witness :
  zstd_compress_datum tag_size leftover true rl_zstd (make_varlena aabb)
  = ret None
  /\ zstd_compress_datum tag_size leftover true rl_zstd
       (make_varlena forty_a) <> ret None.
Proof.
  split.
  - apply (proj2 (zstd_floor tag_size leftover true rl_zstd
                    (make_varlena aabb) eq_refl)).
    reflexivity.
  - intros E.
    apply (proj1 (zstd_floor tag_size leftover true rl_zstd
                    (make_varlena forty_a) eq_refl)) in E.
    vm_compute in E. discriminate E.
Defined.

(** Thirty bytes of allocation behind a datum of ten. *)
Lemma decompress_ignores_slack_witness :
  let value := make_compressed 40 0 frame_forty_a ++ repeat x7f 20 in
  trimmed value = make_compressed 40 0 frame_forty_a
  /\ pglz_decompress_datum leftover (rl_pglz strategy_default)
       (make_compressed 40 0 frame_forty_a)
     = pglz_decompress_datum leftover (rl_pglz strategy_default) value.
Proof.
  intros value. split; [reflexivity|].
  apply (decompress_ignores_slack leftover true true
           (rl_pglz strategy_default) (rl_lz4 10803) rl_zstd value 40 5).
  computed.
Defined.

(** The frame libzstd makes of forty letters, declared as a hundred bytes
    and sliced at sixty: the library reports forty bytes and writes
    forty-two, and the datum is forty-two letters and eighteen bytes of
    what the allocator left. *)
Lemma zstd_short_frame_exposes_leftover_witness :
  exists r,
    returns (zstd_decompress_datum_slice leftover true recorded_zstd
               (make_varlena zstd_frame_forty_a) 100 60) r
    /\ datum_of tag_size r = repeat x61 42 ++ repeat x7f 18.
Proof.
  apply (zstd_short_frame_exposes_leftover leftover true recorded_zstd
           tag_size (make_varlena zstd_frame_forty_a) 100 60 40
           (repeat x61 42)); computed.
Defined.

Lemma resolve_compressed_value_witness :
  (exists c,
     returns (rl_compress strategy_default 10803 LZ4 (make_varlena forty_a))
             (Some c)
     /\ toast_get_compression_id 19 4
          (TOAST_COMPRESS_SET_SIZE_AND_COMPRESS_METHOD c 40
             TOAST_LZ4_COMPRESSION_ID)
        = TOAST_LZ4_COMPRESSION_ID)
  /\ (exists c,
        returns (rl_compress strategy_default 10803 ZSTD
                   (make_varlena forty_a)) (Some c)
        /\ toast_get_compression_id 19 4 c = TOAST_INVALID_COMPRESSION_ID).
Proof.
  split.
  - assert (Hc : exists c,
      returns (rl_compress strategy_default 10803 LZ4 (make_varlena forty_a))
              (Some c)) by (eexists; vm_compute; reflexivity).
    destruct Hc as [c Hc]. exists c. split; [exact Hc|].
    apply (resolve_compressed_value tag_size leftover true true
             (rl_pglz strategy_default) (rl_lz4 10803) rl_zstd 19 4
             LZ4 (make_varlena forty_a) forty_a c);
      [computed | computed | exact Hc | computed].
  - assert (Hc : exists c,
      returns (rl_compress strategy_default 10803 ZSTD (make_varlena forty_a))
              (Some c)) by (eexists; vm_compute; reflexivity).
    destruct Hc as [c Hc]. exists c. split; [exact Hc|].
    apply (resolve_compressed_value tag_size leftover true true
             (rl_pglz strategy_default) (rl_lz4 10803) rl_zstd 19 4
             ZSTD (make_varlena forty_a) forty_a c);
      [computed | computed | exact Hc | computed].
Defined.

Lemma zstd_slice_beyond_end_witness :
  exists c r,
    returns (rl_compress strategy_default 10803 ZSTD (make_varlena forty_a))
            (Some c)
    /\ returns (rl_decompress_slice strategy_default 10803 ZSTD c 40 1000) r
    /\ holds tag_size r forty_a.
Proof.
  assert (Hc : exists c,
    returns (rl_compress strategy_default 10803 ZSTD (make_varlena forty_a))
            (Some c)) by (eexists; vm_compute; reflexivity).
  destruct Hc as [c Hc].
  destruct (zstd_slice_beyond_end tag_size leftover true true
              (rl_pglz strategy_default) (rl_lz4 10803) rl_zstd
              (make_varlena forty_a) forty_a c 1000)
    as [r [Hr Hh]];
    [computed | computed | exact Hc | computed | computed | computed |].
  exists c, r. split; [exact Hc|split; [exact Hr|exact Hh]].
Defined.

(** The same forty bytes under a four-byte and under a one-byte header. *)
Lemma compress_ignores_header_witness :
  make_varlena forty_a <> make_short_varlena forty_a
  /\ rl_compress strategy_default 10803 PGLZ (make_varlena forty_a)
     = rl_compress strategy_default 10803 PGLZ (make_short_varlena forty_a).
Proof.
  split; [discriminate|].
  apply (compress_ignores_header tag_size leftover true true
           (rl_pglz strategy_default) (rl_lz4 10803) rl_zstd
           PGLZ (make_varlena forty_a) (make_short_varlena forty_a) forty_a);
    computed.
Defined.

(** A pointer with the method bits of LZ4: compressed when 100 bytes stand
    for 1000, not compressed when 996 do. *)
Lemma external_pointer_resolution_witness :
  toast_get_compression_id 19 4
    (external_datum VARTAG_ONDISK (mk_varatt_external 1000 (100 + 2^30) 1 2))
  = TOAST_LZ4_COMPRESSION_ID
  /\ toast_get_compression_id 19 4
       (external_datum VARTAG_ONDISK
          (mk_varatt_external 1000 (996 + 2^30) 1 2))
     = TOAST_INVALID_COMPRESSION_ID.
Proof.
  split.
  - exact (proj2 (external_pointer_resolution 19 4
                    (mk_varatt_external 1000 (100 + 2^30) 1 2)
                    ltac:(discriminate) ltac:(computed) ltac:(computed)
                    ltac:(computed) ltac:(computed))).
  - exact (proj2 (external_pointer_resolution 19 4
                    (mk_varatt_external 1000 (996 + 2^30) 1 2)
                    ltac:(discriminate) ltac:(computed) ltac:(computed)
                    ltac:(computed) ltac:(computed))).
Defined.

(** Four bytes that LZ4 stores as four: the value takes twelve bytes where
    the plain datum took eight; forty equal bytes under Zstandard take six. *)
Lemma compressed_size_bounds_witness :
  (exists c,
     returns (rl_compress strategy_default 10803 LZ4 (make_varlena aabb))
             (Some c)
     /\ VARSIZE c = 12 /\ VARSIZE (make_varlena aabb) = 8)
  /\ (exists c,
        returns (rl_compress strategy_default 10803 ZSTD
                   (make_varlena forty_a)) (Some c)
        /\ VARSIZE c < 44).
Proof.
  split.
  - assert (Hc : exists c,
      returns (rl_compress strategy_default 10803 LZ4 (make_varlena aabb))
              (Some c)) by (eexists; vm_compute; reflexivity).
    destruct Hc as [c Hc]. exists c. split; [exact Hc|].
    destruct (compressed_size_bounds tag_size leftover true true
                (rl_pglz strategy_default) (rl_lz4 10803) rl_zstd
                LZ4 (make_varlena aabb) aabb c)
      as [_ Hb]; [computed | computed | exact Hc | computed |].
    split; [|reflexivity].
    vm_compute in Hc. injection Hc as <-. reflexivity.
  - assert (Hc : exists c,
      returns (rl_compress strategy_default 10803 ZSTD (make_varlena forty_a))
              (Some c)) by (eexists; vm_compute; reflexivity).
    destruct Hc as [c Hc]. exists c. split; [exact Hc|].
    destruct (compressed_size_bounds tag_size leftover true true
                (rl_pglz strategy_default) (rl_lz4 10803) rl_zstd
                ZSTD (make_varlena forty_a) forty_a c)
      as [_ Hb]; [computed | computed | exact Hc | computed |].
    exact Hb.
Defined.

(** Forty distinct bytes, which the stand-in for pglz gives up on: one
    buffer taken, one buffer given back. *)
Lemma compress_allocation_balance_witness :
  returns (rl_compress strategy_default 10803 PGLZ
             (make_varlena forty_distinct)) None
  /\ allocations (trace (rl_compress strategy_default 10803 PGLZ
                           (make_varlena forty_distinct)))
     = frees (trace (rl_compress strategy_default 10803 PGLZ
                       (make_varlena forty_distinct))).
Proof.
  split; [reflexivity|].
  pose proof (compress_allocation_balance tag_size leftover true true
                (rl_pglz strategy_default) (rl_lz4 10803) rl_zstd
                PGLZ (make_varlena forty_distinct)) as H.
  vm_compute in H. vm_compute. exact (proj1 H).
Defined.

(** A slice of five bytes of forty: the size says five, the buffer holds
    all forty. *)
Lemma zstd_slice_decodes_whole_witness :
  exists r',
    returns (zstd_decompress_datum_slice leftover true rl_zstd
               (make_varlena frame_forty_a) 40 5) r'
    /\ VARSIZE r' = 5 + VARHDRSZ
    /\ VARDATA r' = forty_a.
Proof.
  assert (Hr : exists r,
    returns (zstd_decompress_datum leftover true rl_zstd
               (make_varlena frame_forty_a) 40) r)
    by (eexists; vm_compute; reflexivity).
  destruct Hr as [r Hr].
  destruct (proj2 (proj2 (zstd_slice_decodes_whole leftover true rl_zstd
                            (make_varlena frame_forty_a) 40 5))
              ltac:(lia) r Hr) as (r' & Hr' & _ & Hd).
  exists r'. split; [exact Hr'|]. split.
  - vm_compute in Hr'. injection Hr' as <-. reflexivity.
  - rewrite Hd. vm_compute in Hr. injection Hr as <-. reflexivity.
Defined.
